(** * Teletext Zero: grid constraints, palette, header, navigation buffer,
      page registry, screen sequencer and word wrapping.

    A shallow embedding of the TypeScript sources.  JavaScript strings are
    modelled by [string] (a sequence of 8-bit code units), arrays by [list],
    objects used as dictionaries by [gmap], integers held in a [number] by
    [Z], a [number] that need not be an integer by a rational, and the two
    places where a [number] can be [NaN] or a call can throw
    are made explicit ([jsnum], [option], [Outcome]). *)

From Stdlib Require Import ZArith List Ascii String Bool Lia DecimalString.
From Stdlib Require QArith Qround.
From stdpp Require Import base option list gmap strings.

Local Open Scope Z_scope.

(** ** JavaScript string and number primitives used by the sources *)

Module JS.

(** [s.length] *)
Definition strlen (s : string) : nat := String.length s.

(** [s.substring(start, end)] for non-negative integer arguments: both
    indices are clamped to the length and swapped when out of order. *)
Definition substring (s : string) (start stop : nat) : string :=
  let len := String.length s in
  let a := Nat.min start len in
  let b := Nat.min stop len in
  let lo := Nat.min a b in
  let hi := Nat.max a b in
  String.substring lo (hi - lo) s.

(** [Array.prototype.slice(start, end)] for non-negative integer arguments. *)
Definition slice {A} (l : list A) (start stop : nat) : list A :=
  take (stop - start) (drop start l).

Fixpoint replicateChar (c : ascii) (n : nat) : string :=
  match n with
  | O => EmptyString
  | S k => String c (replicateChar c k)
  end.

(** [' '.repeat(count)]: a negative count raises a RangeError ([None]). *)
Definition repeatSpace (count : Z) : option string :=
  if count <? 0 then None else Some (replicateChar " "%char (Z.to_nat count)).

(** [s.padStart(targetLength, '0')] *)
Definition padStart0 (s : string) (targetLength : nat) : string :=
  (replicateChar "0"%char (targetLength - String.length s) +:+ s)%nat.

(** [n.toString()] for an integer [n] that a [number] holds exactly, as
    every integer below 2^53 in absolute value is: JavaScript then prints
    its decimal digits.  Beyond that a [number] rounds, and from 10^21 on it
    prints in exponent form; the statements bound the argument. *)
Definition toString (n : Z) : string :=
  NilZero.string_of_int (Z.to_int n).

Definition isDigit (c : ascii) : bool :=
  ((48 <=? nat_of_ascii c) && (nat_of_ascii c <=? 57))%nat.

Definition digitValue (c : ascii) : Z := Z.of_nat (nat_of_ascii c) - 48.

(** The character of a decimal digit [0..9]. *)
Definition digitChar (d : Z) : ascii := ascii_of_nat (48 + Z.to_nat d).

(** The [\s] class restricted to 8-bit code units: TAB, LF, VT, FF, CR,
    SPACE and NBSP. *)
Definition isWhitespace (c : ascii) : bool :=
  let n := nat_of_ascii c in
  ((9 <=? n) && (n <=? 13) || (n =? 32) || (n =? 160))%nat.

(** [/^[0-9]$/.test(s)] *)
Definition testSingleDigit (s : string) : bool :=
  match s with
  | String c EmptyString => isDigit c
  | _ => false
  end.

(** A [number] that holds an integer, or [NaN]. *)
Inductive jsnum : Type :=
| Num (z : Z)
| NaN.

Fixpoint trimStart (s : string) : string :=
  match s with
  | String c s' => if isWhitespace c then trimStart s' else s
  | EmptyString => EmptyString
  end.

Fixpoint digitsValue (acc : Z) (s : string) : Z :=
  match s with
  | String c s' => if isDigit c then digitsValue (10 * acc + digitValue c) s' else acc
  | EmptyString => acc
  end.

Definition startsWithDigit (s : string) : bool :=
  match s with
  | String c _ => isDigit c
  | EmptyString => false
  end.

(** [parseInt(s, 10)]: leading white space is skipped, an optional sign is
    read, then the longest prefix of decimal digits; [NaN] when that prefix
    is empty. *)
Definition parseInt (s : string) : jsnum :=
  let s1 := trimStart s in
  let '(sign, s2) :=
    match s1 with
    | String "-"%char r => (-1, r)
    | String "+"%char r => (1, r)
    | _ => (1, s1)
    end in
  if startsWithDigit s2 then Num (sign * digitsValue 0 s2) else NaN.

(** [s.includes(p)] *)
Fixpoint includes (s p : string) : bool :=
  String.prefix p s ||
  match s with
  | String _ s' => includes s' p
  | EmptyString => false
  end.

(** JavaScript truthiness of a string. *)
Definition truthy (s : string) : bool :=
  match s with
  | EmptyString => false
  | _ => true
  end.

End JS.

(** ** constants/grid.ts *)

Module GRID.
Definition COLUMNS : nat := 40.
Definition ROWS : nat := 24.
Definition HEADER_ROW : nat := 1.
Definition CONTENT_START_ROW : nat := 2.
Definition CONTENT_ROWS : nat := 23.
End GRID.

(** ** utils/formatters.ts *)

Module Formatters.

Definition truncateText (text : string) : string :=
  if (JS.strlen text <=? GRID.COLUMNS)%nat then text
  else JS.substring text 0 GRID.COLUMNS.

Definition truncateLines (lines : list string) : list string :=
  if (length lines <=? GRID.CONTENT_ROWS)%nat then lines
  else JS.slice lines 0 GRID.CONTENT_ROWS.

(** The three accessors of a [Date] that [formatTime] reads. *)
Record Date : Type := mkDate {
  getHours : Z;
  getMinutes : Z;
  getSeconds : Z
}.

Definition formatTime (date : Date) : string :=
  let hours := JS.padStart0 (JS.toString (getHours date)) 2 in
  let minutes := JS.padStart0 (JS.toString (getMinutes date)) 2 in
  let seconds := JS.padStart0 (JS.toString (getSeconds date)) 2 in
  hours +:+ ":" +:+ minutes +:+ ":" +:+ seconds.

Definition formatPageNumber (pageNumber : Z) : string :=
  "P" +:+ JS.padStart0 (JS.toString pageNumber) 3.

(** A [Date] that denotes a time of day. *)
Definition validTime (date : Date) : Prop :=
  0 <= getHours date < 24 /\ 0 <= getMinutes date < 60 /\ 0 <= getSeconds date < 60.

Definition formatBuffer (buffer : string) : string :=
  if (JS.strlen buffer =? 0)%nat then ""
  else if (JS.strlen buffer =? 1)%nat then buffer +:+ ".."
  else if (JS.strlen buffer =? 2)%nat then buffer +:+ "."
  else buffer.

End Formatters.

(** ** constants/colors.ts *)

Module Colors.

(** The object literal [TELETEXT_COLORS], entries in source order. *)
Definition TELETEXT_COLORS_entries : list (string * string) :=
  [ ("black", "#000000");
    ("white", "#FFFFFF");
    ("red", "#FF0000");
    ("green", "#00FF00");
    ("blue", "#0000FF");
    ("yellow", "#FFFF00");
    ("cyan", "#00FFFF");
    ("magenta", "#FF00FF") ].

Definition TELETEXT_COLORS : gmap string string :=
  list_to_map TELETEXT_COLORS_entries.

(** The properties every object literal inherits from [Object.prototype]. *)
Definition objectPrototypeKeys : list string :=
  [ "constructor"; "hasOwnProperty"; "isPrototypeOf"; "propertyIsEnumerable";
    "toLocaleString"; "toString"; "valueOf"; "__proto__";
    "__defineGetter__"; "__defineSetter__"; "__lookupGetter__";
    "__lookupSetter__" ].

(** The value of a property read [obj[key]]. *)
Inductive jsval : Type :=
| VString (s : string)
| VInherited (key : string)
| VUndefined.

(** [Object.hasOwn(TELETEXT_COLORS, color)] *)
Definition isValidTeletextColor (color : string) : bool :=
  bool_decide (is_Some (TELETEXT_COLORS !! color)).

(** [TELETEXT_COLORS[color]]: an own property, else one found on the
    prototype, else [undefined]. *)
Definition getTeletextColorHex (color : string) : jsval :=
  match TELETEXT_COLORS !! color with
  | Some hex => VString hex
  | None =>
      if bool_decide (color ∈ objectPrototypeKeys) then VInherited color
      else VUndefined
  end.

(** [/^#[0-9A-F]{6}$/.test(v)] *)
Definition isUpperHexDigit (c : ascii) : bool :=
  let n := nat_of_ascii c in
  ((48 <=? n) && (n <=? 57) || (65 <=? n) && (n <=? 70))%nat.

Definition testHex6 (s : string) : bool :=
  match s with
  | String "#"%char
      (String a (String b (String c (String d (String e (String f EmptyString)))))) =>
      forallb isUpperHexDigit [a; b; c; d; e; f]
  | _ => false
  end.

End Colors.

(** ** hooks/useNavigation.ts *)

Module Navigation.
Import JS.

Record NavigationState : Type := mkNavigationState {
  currentPage : jsnum;
  pageBuffer : string;
  isNavigating : bool
}.

(** The callbacks the hook hands to [setTimeout(..., 0)]. *)
Inductive Timer : Type :=
| NavigateTimer (pageNumber : jsnum)
| ResetNavigatingTimer.

(** The hook together with its pending zero-delay timers (oldest first) and
    the page changes it has emitted so far, i.e. the arguments of the
    [setCurrentPage] calls, oldest first. *)
Record Hook : Type := mkHook {
  state : NavigationState;
  timers : list Timer;
  pageChanges : list jsnum
}.

Definition useNavigation (initialPage : jsnum) : Hook :=
  mkHook (mkNavigationState initialPage "" false) [] [].

Definition addDigit (digit : string) (h : Hook) : Hook :=
  if negb (testSingleDigit digit) then h
  else
    let prevBuffer := pageBuffer (state h) in
    if (3 <=? strlen prevBuffer)%nat then h
    else
      let newBuffer := prevBuffer +:+ digit in
      let timers' :=
        if (strlen newBuffer =? 3)%nat
        then timers h ++ [NavigateTimer (parseInt newBuffer)]
        else timers h in
      mkHook
        (mkNavigationState (currentPage (state h)) newBuffer (isNavigating (state h)))
        timers' (pageChanges h).

Definition clearBuffer (h : Hook) : Hook :=
  mkHook
    (mkNavigationState (currentPage (state h)) "" (isNavigating (state h)))
    (timers h) (pageChanges h).

Definition navigateToPage (pageNumber : jsnum) (h : Hook) : Hook :=
  mkHook (mkNavigationState pageNumber "" true)
    (timers h ++ [ResetNavigatingTimer])
    (pageChanges h ++ [pageNumber]).

(** The event loop runs the oldest pending timer callback. *)
Definition runTimer (h : Hook) : Hook :=
  match timers h with
  | [] => h
  | NavigateTimer pageNumber :: rest =>
      mkHook (mkNavigationState pageNumber "" true)
        (rest ++ [ResetNavigatingTimer])
        (pageChanges h ++ [pageNumber])
  | ResetNavigatingTimer :: rest =>
      mkHook
        (mkNavigationState (currentPage (state h)) (pageBuffer (state h)) false)
        rest (pageChanges h)
  end.

End Navigation.

(** ** components/KeyboardNavigationHandler.tsx *)

Module Keyboard.
Import JS Navigation.

Record KeyboardEvent : Type := mkKeyboardEvent {
  key : string;
  shiftKey : bool;
  ctrlKey : bool;
  altKey : bool;
  metaKey : bool
}.

(** The listener; the boolean tells whether [preventDefault] and
    [stopPropagation] were called on the event. *)
Definition handleKeyDown (event : KeyboardEvent) (h : Hook) : Hook * bool :=
  if testSingleDigit (key event) then (addDigit (key event) h, true)
  else (h, false).

(** What the browser delivers: key presses and expiring timers. *)
Inductive Action : Type :=
| KeyDown (event : KeyboardEvent)
| TimerFires.

Definition step (h : Hook) (a : Action) : Hook :=
  match a with
  | KeyDown event => fst (handleKeyDown event h)
  | TimerFires => runTimer h
  end.

Definition run (actions : list Action) (h : Hook) : Hook :=
  fold_left step actions h.

(** The digit keys of a sequence of actions, in order. *)
Definition digitKeys (actions : list Action) : list string :=
  omap (fun a =>
          match a with
          | KeyDown event =>
              if testSingleDigit (key event) then Some (key event) else None
          | TimerFires => None
          end) actions.

Definition concatKeys (keys : list string) : string :=
  foldr String.append "" keys.

(** The text of the first three keys of a list. *)
Definition firstThree (keys : list string) : string := concatKeys (take 3 keys).

(** Where a hook started on page [p] stands after the digit keys [keys]:
    still collecting digits, holding three digits with the navigation timer
    pending, or past its first page change. *)
Inductive Progress (p : jsnum) (keys : list string) (h : Hook) : Prop :=
| Buffering :
    (length keys < 3)%nat ->
    h = mkHook (mkNavigationState p (concatKeys keys) false) [] [] ->
    Progress p keys h
| Resolving :
    (3 <= length keys)%nat ->
    h = mkHook (mkNavigationState p (firstThree keys) false)
          [NavigateTimer (parseInt (firstThree keys))] [] ->
    Progress p keys h
| Navigated :
    (3 <= length keys)%nat ->
    (exists rest, pageChanges h = parseInt (firstThree keys) :: rest) ->
    Progress p keys h.

End Keyboard.

(** ** components/Header.tsx *)

Module HeaderComponent.
Import JS Formatters.

(** The text of the header row; [None] is the RangeError of
    [String.prototype.repeat]. *)
Definition Header (pageName : string) (pageNumber : Z) (currentTime : Date)
  : option string :=
  let formattedTime := formatTime currentTime in
  let formattedPageNumber := formatPageNumber pageNumber in
  let leftSection := pageName in
  let centerSection := formattedPageNumber in
  let rightSection := formattedTime in
  let contentLength :=
    (strlen leftSection + strlen centerSection + strlen rightSection)%nat in
  let totalSpaces := Z.of_nat GRID.COLUMNS - Z.of_nat contentLength in
  let spacesBeforeCenter := totalSpaces / 2 in
  let spacesAfterCenter := totalSpaces - spacesBeforeCenter in
  before ← repeatSpace spacesBeforeCenter;
  after ← repeatSpace spacesAfterCenter;
  Some (leftSection +:+ before +:+ centerSection +:+ after +:+ rightSection).

End HeaderComponent.

(** ** types/page.ts and components/ContentArea.tsx *)

Module Content.
Import JS Formatters Colors.

(** [ColorMap]: grid row to column to color name.  The TypeScript type of
    the values is [TeletextColor]; at run time they are strings. *)
Record PageContent : Type := mkPageContent {
  lines : list string;
  colors : option (gmap nat (gmap nat string))
}.

(** A rendered [<span>]: the character and, when a style is attached, the
    value of its [color] property. *)
Record Span (A : Type) : Type := mkSpan {
  char : ascii;
  style : option A
}.
Arguments mkSpan {A} _ _.
Arguments char {A} _.
Arguments style {A} _.

(** A rendered [<div className="content-line">]. *)
Inductive Line (A : Type) : Type :=
| PlainLine (text : string)
| SpanLine (spans : list (Span A)).
Arguments PlainLine {A} _.
Arguments SpanLine {A} _.

Section Render.
Context {A : Type}.
(** The function applied to a color annotation before it is attached;
    the component applies [getTeletextColorHex]. *)
Variable hex : string -> A.

Definition renderChar (colorMap : gmap nat string) (colIndex : nat) (c : ascii)
  : Span A :=
  match colorMap !! colIndex with
  | Some color =>
      if truthy color then mkSpan c (Some (hex color)) else mkSpan c None
  | None => mkSpan c None
  end.

Definition renderLine (colors : option (gmap nat (gmap nat string)))
    (rowIndex : nat) (line : string) : Line A :=
  let gridRow := (rowIndex + 2)%nat in
  match colors ≫= (fun m => m !! gridRow) with
  | None => PlainLine line
  | Some colorMap =>
      let characters := list_ascii_of_string line in
      SpanLine (imap (renderChar colorMap) characters)
  end.

Definition render (content : PageContent) : list (Line A) :=
  let truncatedLines := truncateLines (lines content) in
  let processedLines := map truncateText truncatedLines in
  imap (renderLine (colors content)) processedLines.
End Render.

Definition ContentArea (content : PageContent) : list (Line jsval) :=
  render getTeletextColorHex content.

Definition lineStyles {A} (l : Line A) : list A :=
  match l with
  | PlainLine _ => []
  | SpanLine spans => omap style spans
  end.

(** The arguments [getTeletextColorHex] is called with during one render,
    in call order: the same traversal with the lookup replaced by the
    identity. *)
Definition hexLookupArguments (content : PageContent) : list string :=
  concat (map lineStyles (render (fun color => color) content)).

End Content.

(** ** services/api.ts: wordWrap *)

Module Api.
Import JS.

Fixpoint indexOfChar (c : ascii) (s : string) : option nat :=
  match s with
  | EmptyString => None
  | String d s' => if Ascii.eqb c d then Some O else S <$> indexOfChar c s'
  end.

(** [.replace(/<[^>]*>/g, '')]: a ["<"] that has a [">"] after it is removed
    together with everything up to the nearest such [">"]. *)
Fixpoint stripTagsFrom (skip : nat) (s : string) : string :=
  match s with
  | EmptyString => EmptyString
  | String c s' =>
      match skip with
      | S k => stripTagsFrom k s'
      | O =>
          if Ascii.eqb c "<"%char then
            match indexOfChar ">"%char s' with
            | Some k => stripTagsFrom (S k) s'
            | None => String c (stripTagsFrom O s')
            end
          else String c (stripTagsFrom O s')
      end
  end.

Definition stripTags (s : string) : string := stripTagsFrom O s.

(** [.replace(/pat/g, rep)] for a literal, non-empty [pat]. *)
Fixpoint replaceAllFrom (pat rep : string) (skip : nat) (s : string) : string :=
  match s with
  | EmptyString => EmptyString
  | String c s' =>
      match skip with
      | S k => replaceAllFrom pat rep k s'
      | O =>
          if String.prefix pat s
          then rep +:+ replaceAllFrom pat rep (String.length pat - 1) s'
          else String c (replaceAllFrom pat rep O s')
      end
  end.

Definition replaceAll (pat rep s : string) : string := replaceAllFrom pat rep O s.

(** [.replace(/\s+/g, ' ')] *)
Fixpoint collapseWhitespaceFrom (inRun : bool) (s : string) : string :=
  match s with
  | EmptyString => EmptyString
  | String c s' =>
      if isWhitespace c then
        if inRun then collapseWhitespaceFrom true s'
        else String " "%char (collapseWhitespaceFrom true s')
      else String c (collapseWhitespaceFrom false s')
  end.

Definition collapseWhitespace (s : string) : string :=
  collapseWhitespaceFrom false s.

Fixpoint trimEnd (s : string) : string :=
  match s with
  | EmptyString => EmptyString
  | String c s' =>
      match trimEnd s' with
      | EmptyString => if isWhitespace c then EmptyString else String c EmptyString
      | t => String c t
      end
  end.

Definition trim (s : string) : string := trimEnd (trimStart s).

(** [s.split(' ')] *)
Fixpoint splitSpace (s : string) : list string :=
  match s with
  | EmptyString => [EmptyString]
  | String c s' =>
      if Ascii.eqb c " "%char then EmptyString :: splitSpace s'
      else
        match splitSpace s' with
        | w :: ws => String c w :: ws
        | [] => [String c EmptyString]
        end
  end.

Definition cleanText (text : string) : string :=
  trim
    (collapseWhitespace
       (replaceAll "&#39;" "'"
          (replaceAll "&quot;" (String (ascii_of_nat 34) EmptyString)
             (replaceAll "&gt;" ">"
                (replaceAll "&lt;" "<"
                   (replaceAll "&amp;" "&"
                      (replaceAll "&nbsp;" " "
                         (stripTags text)))))))).

(** [for (let i = 0; i < word.length; i += width) lines.push(...)]; the loop
    is run with fuel, [None] when it has not finished within it. *)
Fixpoint breakWord (fuel : nat) (word : string) (width i : nat)
    (lines : list string) : option (list string) :=
  if (i <? strlen word)%nat then
    match fuel with
    | O => None
    | S fuel' =>
        breakWord fuel' word width (i + width)%nat
          (lines ++ [substring word i (i + width)])
    end
  else Some lines.

(** One iteration of [for (const word of words)] on [(lines, currentLine)]. *)
Definition wrapWord (fuel width : nat) (st : list string * string) (word : string)
  : option (list string * string) :=
  let '(lines, currentLine) := st in
  if (width <? strlen word)%nat then
    let lines1 := if truthy currentLine then lines ++ [currentLine] else lines in
    lines2 ← breakWord fuel word width 0 lines1;
    Some (lines2, EmptyString)
  else
    let testLine :=
      if truthy currentLine then currentLine +:+ " " +:+ word else word in
    if (strlen testLine <=? width)%nat then Some (lines, testLine)
    else Some (if truthy currentLine then lines ++ [currentLine] else lines, word).

Fixpoint wrapWords (fuel width : nat) (st : list string * string)
    (words : list string) : option (list string * string) :=
  match words with
  | [] => Some st
  | word :: rest =>
      st' ← wrapWord fuel width st word;
      wrapWords fuel width st' rest
  end.

Definition wordWrap (fuel : nat) (text : string) (width : nat)
  : option (list string) :=
  if negb (truthy text) then Some []
  else
    let words := splitSpace (cleanText text) in
    '(lines, currentLine) ← wrapWords fuel width ([], EmptyString) words;
    Some (if truthy currentLine then lines ++ [currentLine] else lines).

(** A line that fits a width. *)
Definition fits (width : nat) (line : string) : Prop :=
  (strlen line <= width)%nat.

(** The call with the default [width = GRID.COLUMNS]. *)
Definition wordWrapDefault (fuel : nat) (text : string) : option (list string) :=
  wordWrap fuel text GRID.COLUMNS.

End Api.

(** ** pages/registry.ts *)

Module Registry.
Import JS.

(** The four asynchronous loaders of services/api.ts that the registry
    attaches to pages; what a call yields depends on the network. *)
Inductive DynamicContentLoader : Type :=
| fetchWorldNews
| fetchTechNews
| fetchWeather
| fetchSports.

(** [PageDefinition]; the optional [subPages] field is never read or written
    and is left out. *)
Record PageDefinition : Type := mkPageDefinition {
  pageNumber : Z;
  title : string;
  content : list string;
  dynamicContent : option DynamicContentLoader;
  colors : option (gmap nat (gmap nat string))
}.

Definition createErrorPage (requestedPageNumber : Z) : PageDefinition :=
  mkPageDefinition requestedPageNumber "Error"
    [ "PAGE NOT FOUND";
      "";
      "Page " +:+ toString requestedPageNumber +:+ " does not exist.";
      "";
      "Please try another page number.";
      "";
      "Press 100 to return to the index." ]
    None None.

Definition createDetailPage (pageNumber : Z) (title : string)
    (getContent : Z -> list string) : PageDefinition :=
  let articleIndex := Z.rem pageNumber 10 in
  mkPageDefinition pageNumber title (getContent articleIndex) None None.

Definition pageRegistry_entries : list (Z * PageDefinition) :=
  [ (100, mkPageDefinition 100 "Index"
       [ "WELCOME TO TELETEXT ZERO"; "";
         "A Slow Web Browser"; "";
         "Main Sections:"; "";
         "200 - World News (BBC)";
         "300 - Tech News (The Verge)";
         "400 - Weather";
         "500 - Sports (ESPN)"; "";
         "666 - ???"; "";
         "Enter a 3-digit page number";
         "to navigate." ] None None);
    (200, mkPageDefinition 200 "World News"
       [ "BBC WORLD NEWS"; "";
         "LOADING..."; "";
         "Please wait while we fetch";
         "the latest headlines." ] (Some fetchWorldNews) None);
    (300, mkPageDefinition 300 "Tech News"
       [ "THE VERGE"; "";
         "LOADING..."; "";
         "Please wait while we fetch";
         "the latest tech headlines." ] (Some fetchTechNews) None);
    (400, mkPageDefinition 400 "Weather"
       [ "WEATHER FORECAST"; "";
         "LOADING..."; "";
         "Fetching weather data..."; "";
         "Location access may be required." ] (Some fetchWeather) None);
    (500, mkPageDefinition 500 "Sports"
       [ "ESPN SPORTS"; "";
         "LOADING..."; "";
         "Please wait while we fetch";
         "the latest sports news." ] (Some fetchSports) None);
    (666, mkPageDefinition 666 "System Diagnostics"
       [ "SYSTEM DIAGNOSTICS"; "";
         "================================"; "";
         "SIGNAL DECAY............... 99%";
         "MEMORY CORRUPTION.......... 87%";
         "TEMPORAL DRIFT............. ACTIVE"; "";
         "================================"; "";
         "SUBJECT: WATCHING";
         "STATUS: AWARE"; "";
         "WARNING: ANOMALY DETECTED"; "";
         "DO NOT LOOK BEHIND YOU"; "";
         "================================"; "";
         "LAST TRANSMISSION: 1983-10-31";
         "ORIGIN: UNKNOWN"; "";
         "THEY NEVER LEFT" ] None None) ].

Definition pageRegistry : gmap Z PageDefinition :=
  list_to_map pageRegistry_entries.

Definition isDetailPage (pageNumber : Z) : bool :=
  if (201 <=? pageNumber) && (pageNumber <=? 205) then true
  else if (301 <=? pageNumber) && (pageNumber <=? 305) then true
  else if (501 <=? pageNumber) && (pageNumber <=? 505) then true
  else false.

Section Services.
(** The article-detail functions imported from services/api.ts, which read
    the module's article cache: article index to content lines. *)
Variables getNewsDetailPage getTechDetailPage getSportsDetailPage : Z -> list string.

Definition getDetailPageDefinition (pageNumber : Z) : PageDefinition :=
  if (201 <=? pageNumber) && (pageNumber <=? 205) then
    createDetailPage pageNumber "News Article" getNewsDetailPage
  else if (301 <=? pageNumber) && (pageNumber <=? 305) then
    createDetailPage pageNumber "Tech Article" getTechDetailPage
  else if (501 <=? pageNumber) && (pageNumber <=? 505) then
    createDetailPage pageNumber "Sports Article" getSportsDetailPage
  else createErrorPage pageNumber.

Definition getPage (pageNumber : Z) : PageDefinition :=
  match pageRegistry !! pageNumber with
  | Some page => page
  | None =>
      if isDetailPage pageNumber then getDetailPageDefinition pageNumber
      else createErrorPage pageNumber
  end.
End Services.

End Registry.

(** ** components/TeletextScreen.tsx *)

Module Screen.
Import JS Registry.

Inductive ScreenState : Type :=
| static
| loading
| display.

(** The component's [useState] cells and the console. *)
Record TeletextScreen : Type := mkTeletextScreen {
  screenState : ScreenState;
  displayedPage : Z;
  isInitialized : bool;
  dynamicContentState : option (list string);
  isLoadingDynamic : bool;
  console : list string
}.

(** How a call of a loader ends: its promise is fulfilled with content, its
    promise is rejected, or the call itself throws. *)
Inductive Settlement : Type :=
| Fulfilled (lines : list string)
| Rejected (reason : string)
| Threw (reason : string).

(** A computation over the component state that returns a value or raises. *)
Inductive Outcome (A : Type) : Type :=
| Returned (a : A)
| Raised (error : string).
Arguments Returned {A} _.
Arguments Raised {A} _.

Definition M (A : Type) : Type := TeletextScreen -> TeletextScreen * Outcome A.

Definition ret {A} (a : A) : M A := fun s => (s, Returned a).

Definition bind {A B} (m : M A) (k : A -> M B) : M B :=
  fun s =>
    match m s with
    | (s', Returned a) => k a s'
    | (s', Raised e) => (s', Raised e)
    end.

Definition throw {A} (e : string) : M A := fun s => (s, Raised e).

(** [try { body } catch (error) { handler(error) } finally { finalizer }] *)
Definition tryCatchFinally {A} (body : M A) (handler : string -> M A)
    (finalizer : M unit) : M A :=
  fun s =>
    let '(s1, r1) :=
      match body s with
      | (s', Returned a) => (s', Returned a)
      | (s', Raised e) => handler e s'
      end in
    match finalizer s1 with
    | (s2, Returned _) => (s2, r1)
    | (s2, Raised e) => (s2, Raised e)
    end.

Definition setScreenState (v : ScreenState) : M unit :=
  fun s => (mkTeletextScreen v (displayedPage s) (isInitialized s)
              (dynamicContentState s) (isLoadingDynamic s) (console s), Returned tt).

Definition setDisplayedPage (v : Z) : M unit :=
  fun s => (mkTeletextScreen (screenState s) v (isInitialized s)
              (dynamicContentState s) (isLoadingDynamic s) (console s), Returned tt).

Definition setDynamicContent (v : option (list string)) : M unit :=
  fun s => (mkTeletextScreen (screenState s) (displayedPage s) (isInitialized s)
              v (isLoadingDynamic s) (console s), Returned tt).

Definition setIsLoadingDynamic (v : bool) : M unit :=
  fun s => (mkTeletextScreen (screenState s) (displayedPage s) (isInitialized s)
              (dynamicContentState s) v (console s), Returned tt).

Definition consoleError (msg : string) : M unit :=
  fun s => (mkTeletextScreen (screenState s) (displayedPage s) (isInitialized s)
              (dynamicContentState s) (isLoadingDynamic s) (console s ++ [msg]),
            Returned tt).

(** [await loader()] *)
Definition await (r : Settlement) : M (list string) :=
  match r with
  | Fulfilled lines => ret lines
  | Rejected reason => throw reason
  | Threw reason => throw reason
  end.

Definition fallbackContent : list string :=
  [ "ERROR LOADING CONTENT"; ""; "Please try again later." ].

Section Sequencer.
Variables getNewsDetailPage getTechDetailPage getSportsDetailPage : Z -> list string.
(** How each loader call ends. *)
Variable call : DynamicContentLoader -> Settlement.

Definition loadDynamicContent (pageNumber : Z) : M unit :=
  let pageDef :=
    getPage getNewsDetailPage getTechDetailPage getSportsDetailPage pageNumber in
  match dynamicContent pageDef with
  | Some loader =>
      bind (setIsLoadingDynamic true) (fun _ =>
      bind (setDynamicContent None) (fun _ =>
      tryCatchFinally
        (bind (await (call loader)) (fun content =>
         setDynamicContent (Some content)))
        (fun error =>
           bind (consoleError "Failed to load dynamic content:") (fun _ =>
           setDynamicContent (Some fallbackContent)))
        (setIsLoadingDynamic false)))
  | None => setDynamicContent None
  end.

(** The timer callback of the page-transition effect. *)
Definition showPage (currentPage : Z) : M unit :=
  bind (setDisplayedPage currentPage) (fun _ =>
  bind (setScreenState display) (fun _ =>
  loadDynamicContent currentPage)).

(** What the component renders as page content (outside the glitch effect
    of page 666): the dynamic content when there is some, else the static
    content of the displayed page, and a placeholder while loading. *)
Definition originalContent (s : TeletextScreen) : list string :=
  let pageDefinition :=
    getPage getNewsDetailPage getTechDetailPage getSportsDetailPage
      (displayedPage s) in
  let baseContent :=
    match dynamicContentState s with
    | Some lines => lines
    | None => content pageDefinition
    end in
  if isLoadingDynamic s
  then slice (content pageDefinition) 0 3 ++
       [ ""; "FETCHING DATA..."; ""; "Please wait." ]
  else baseContent.
End Sequencer.

(** A fallback block names a page when one of its lines contains the decimal
    form of a page number in 0..999. *)
Definition namesPageNumber (lines : list string) : bool :=
  existsb (fun n => existsb (fun line => includes line (toString (Z.of_nat n))) lines)
    (seq 0 1000).

End Screen.

(** ** components/PageBuffer.tsx and its use in App.tsx *)

Module PageBufferComponent.
Import JS Formatters.

(** The text of the overlay, [None] when the component renders nothing. *)
Definition PageBuffer (buffer : string) (visible : bool) : option string :=
  if negb visible then None
  else
    let formattedBuffer := formatBuffer buffer in
    if String.eqb formattedBuffer "" then None
    else Some formattedBuffer.

(** [<PageBuffer buffer={pageBuffer} visible={pageBuffer.length > 0} />] *)
Definition overlay (pageBuffer : string) : option string :=
  PageBuffer pageBuffer (0 <? strlen pageBuffer)%nat.

End PageBufferComponent.

(** ** hooks/useNavigation.ts: every action of the hook *)

Module NavigationRuns.
Import JS Navigation.

(** What can happen to the hook: one of its three actions is called, or the
    oldest pending timer expires. *)
Inductive Op : Type :=
| AddDigit (digit : string)
| ClearBuffer
| NavigateToPage (pageNumber : jsnum)
| TimerExpires.

Definition applyOp (h : Hook) (op : Op) : Hook :=
  match op with
  | AddDigit digit => addDigit digit h
  | ClearBuffer => clearBuffer h
  | NavigateToPage pageNumber => navigateToPage pageNumber h
  | TimerExpires => runTimer h
  end.

Definition runOps (ops : list Op) (h : Hook) : Hook := fold_left applyOp ops h.

(** The event loop runs [n] timer callbacks. *)
Fixpoint runTimers (n : nat) (h : Hook) : Hook :=
  match n with
  | O => h
  | S k => runTimers k (runTimer h)
  end.

Fixpoint allDigits (s : string) : bool :=
  match s with
  | EmptyString => true
  | String c s' => isDigit c && allDigits s'
  end.

(** The three keys of a page number in 0..999, as the header prints them. *)
Definition keysOf (pageNumber : Z) : list string :=
  map (fun c => String c EmptyString)
    (list_ascii_of_string (padStart0 (toString pageNumber) 3)).

(** Typing a page: its keys are passed to [addDigit] one by one, then the two
    timers the third key gives rise to expire. *)
Definition typePage (pageNumber : Z) : list Op :=
  map AddDigit (keysOf pageNumber) ++ [TimerExpires; TimerExpires].

(** The arguments of the [NavigateToPage] actions of a run, in order. *)
Definition requestedPages (ops : list Op) : list jsnum :=
  omap (fun op => match op with NavigateToPage n => Some n | _ => None end) ops.

(** A page number that typing can produce. *)
Definition typedPage (n : jsnum) : Prop :=
  exists z, n = Num z /\ 0 <= z <= 999.

(** The arguments of the [AddDigit] actions of a run, in order. *)
Definition typedKeys (ops : list Op) : list string :=
  omap (fun op => match op with AddDigit digit => Some digit | _ => None end) ops.

(** A page number that three digit keys spell which occur, in this order,
    among [keys]: the value [parseInt] gives their concatenation. *)
Definition typedFrom (keys : list string) (n : jsnum) : Prop :=
  exists a b c : ascii,
    isDigit a = true /\ isDigit b = true /\ isDigit c = true /\
    sublist [String a EmptyString; String b EmptyString; String c EmptyString] keys /\
    n = parseInt (String a (String b (String c EmptyString))) /\
    n = Num (100 * digitValue a + 10 * digitValue b + digitValue c).

(** The buffer and the pending navigations of a hook come from [keys]: the
    buffer spells digit keys that occur in this order among them, and every
    pending navigation timer carries a page typed from them. *)
Definition tracked (keys : list string) (h : Hook) : Prop :=
  (exists cs : list ascii,
      pageBuffer (state h) = string_of_list_ascii cs /\
      Forall (fun c => isDigit c = true) cs /\
      sublist (map (fun c => String c EmptyString) cs) keys) /\
  (forall n, In (NavigateTimer n) (timers h) -> typedFrom keys n).

(** What every state of the hook satisfies: the buffer holds at most three
    characters, all digits; a raised navigating flag has its reset timer
    pending; a full buffer has its navigation timer pending; and pending
    navigation timers carry page numbers in 0..999. *)
Definition wellFormed (h : Hook) : Prop :=
  (strlen (pageBuffer (state h)) <= 3)%nat /\
  allDigits (pageBuffer (state h)) = true /\
  (isNavigating (state h) = true -> In ResetNavigatingTimer (timers h)) /\
  (strlen (pageBuffer (state h)) = 3%nat ->
   In (NavigateTimer (parseInt (pageBuffer (state h)))) (timers h)) /\
  (forall n, In (NavigateTimer n) (timers h) -> typedPage n).

(** How many timer expiries empty a queue: a navigation timer sets one more
    timer, a reset timer none. *)
Definition expiriesLeft (pending : list Timer) : nat :=
  list_sum (map (fun t => match t with
                          | NavigateTimer _ => 2
                          | ResetNavigatingTimer => 1
                          end%nat) pending).

End NavigationRuns.

(** ** components/ContentArea.tsx: the text of a rendered line *)

Module ContentText.
Import Content.

Definition lineText {A} (l : Line A) : string :=
  match l with
  | PlainLine text => text
  | SpanLine spans => string_of_list_ascii (map char spans)
  end.

End ContentText.

(** ** services/api.ts: the shape of cleaned text *)

Module WrapText.
Import JS Api.

(** [lines.join(' ')] *)
Definition joinSpace (lines : list string) : string := String.concat " " lines.

(** Every white-space character of the string is a single space that does
    not follow another space, nor the start when [afterSpace] is set. *)
Fixpoint singleSpaced (afterSpace : bool) (s : string) : bool :=
  match s with
  | EmptyString => true
  | String c s' =>
      if isWhitespace c
      then Ascii.eqb c " " && negb afterSpace && singleSpaced true s'
      else singleSpaced false s'
  end.

(** The string is made of non-empty words separated by single spaces; with
    [afterSpace] set it also starts with a word. *)
Fixpoint wordsOnly (afterSpace : bool) (s : string) : bool :=
  match s with
  | EmptyString => negb afterSpace
  | String c s' =>
      if Ascii.eqb c " " then negb afterSpace && wordsOnly true s'
      else wordsOnly false s'
  end.

(** The lines held by the loop of [wordWrap]: those pushed, then the current
    one when it is not empty. *)
Definition heldLines (st : list string * string) : list string :=
  fst st ++ (if truthy (snd st) then [snd st] else []).

(** [lines.join('')] *)
Definition joinLines (lines : list string) : string :=
  fold_right String.append EmptyString lines.

(** The string without its space characters. *)
Fixpoint withoutSpaces (s : string) : string :=
  match s with
  | EmptyString => EmptyString
  | String c s' =>
      if Ascii.eqb c " " then withoutSpaces s' else String c (withoutSpaces s')
  end.

End WrapText.

(** ** services/api.ts: wordWrap at a width that is any number *)

Module NumberWidth.
Import JS Api.

(** The [width] argument as the [number] it is declared to be, here a
    rational.  The sums [i + width] of the chunking loop are then exact, as
    they are in floating point for the widths used below (integers and
    1.5). *)
Definition number : Type := QArith_base.Q.

(** A length or an integer literal as a [number]. *)
Definition ofNat (n : nat) : number := QArith_base.inject_Z (Z.of_nat n).

(** [a < b] *)
Definition ltb (a b : number) : bool := negb (QArith_base.Qle_bool b a).

(** [a <= b] *)
Definition leb (a b : number) : bool := QArith_base.Qle_bool a b.

(** The index [substring] makes of an argument: the number truncated to an
    integer, a negative one becoming 0; the clamp to the length is that of
    [JS.substring]. *)
Definition toIndex (q : number) : nat := Z.to_nat (Qround.Qfloor q).

(** [for (let i = 0; i < word.length; i += width) lines.push(...)] *)
Fixpoint breakWord (fuel : nat) (word : string) (width i : number)
    (lines : list string) : option (list string) :=
  if ltb i (ofNat (strlen word)) then
    match fuel with
    | O => None
    | S fuel' =>
        breakWord fuel' word width (QArith_base.Qplus i width)
          (lines ++ [substring word (toIndex i)
                       (toIndex (QArith_base.Qplus i width))])
    end
  else Some lines.

Definition wrapWord (fuel : nat) (width : number) (st : list string * string)
    (word : string) : option (list string * string) :=
  let '(lines, currentLine) := st in
  if ltb width (ofNat (strlen word)) then
    let lines1 := if truthy currentLine then lines ++ [currentLine] else lines in
    lines2 ← breakWord fuel word width (ofNat 0) lines1;
    Some (lines2, EmptyString)
  else
    let testLine :=
      if truthy currentLine then currentLine +:+ " " +:+ word else word in
    if leb (ofNat (strlen testLine)) width then Some (lines, testLine)
    else Some (if truthy currentLine then lines ++ [currentLine] else lines, word).

Fixpoint wrapWords (fuel : nat) (width : number) (st : list string * string)
    (words : list string) : option (list string * string) :=
  match words with
  | [] => Some st
  | word :: rest =>
      st' ← wrapWord fuel width st word;
      wrapWords fuel width st' rest
  end.

Definition wordWrap (fuel : nat) (text : string) (width : number)
  : option (list string) :=
  if negb (truthy text) then Some []
  else
    let words := splitSpace (cleanText text) in
    '(lines, currentLine) ← wrapWords fuel width ([], EmptyString) words;
    Some (if truthy currentLine then lines ++ [currentLine] else lines).

End NumberWidth.

(** ** services/api.ts: the article cache and the page builders *)

Module ApiPages.
Import JS Api.

(** [CachedArticle]; the optional [score] and [author] fields are never set
    or read and are left out. *)
Record CachedArticle : Type := mkCachedArticle {
  title : string;
  description : string;
  url : option string;
  pubDate : option string
}.

Record RSSItem : Type := mkRSSItem {
  item_title : string;
  item_description : string;
  item_link : string;
  item_pubDate : string
}.

Inductive Category : Type :=
| News
| Tech
| Sports.

(** The module-level [articleCache]. *)
Record ArticleCache : Type := mkArticleCache {
  news : list CachedArticle;
  tech : list CachedArticle;
  sports : list CachedArticle;
  lastFetched_news : Z;
  lastFetched_tech : Z;
  lastFetched_sports : Z
}.

Definition CACHE_TTL : Z := 5 * 60 * 1000.

(** The initial value of [articleCache]. *)
Definition emptyCache : ArticleCache := mkArticleCache [] [] [] 0 0 0.

Definition getCachedArticles (articleCache : ArticleCache) (category : Category)
  : list CachedArticle :=
  match category with
  | News => news articleCache
  | Tech => tech articleCache
  | Sports => sports articleCache
  end.

(** [None] is [null]. *)
Definition getCachedArticle (articleCache : ArticleCache) (category : Category)
    (index : Z) : option CachedArticle :=
  let articles := getCachedArticles articleCache category in
  if (index <? 1) || (Z.of_nat (length articles) <? index) then None
  else articles !! Z.to_nat (index - 1).

Definition truncate (text : string) (maxLen : Z) : string :=
  if Z.of_nat (strlen text) <=? maxLen then text
  else substring text 0 (Z.to_nat (maxLen - 2)) +:+ "..".

Definition formatHeadlineWithPage (index : nat) (title : string) (basePageNum : Z)
  : string :=
  let num := Z.of_nat index + 1 in
  let prefix := toString num +:+ ". " in
  let pageNum := basePageNum + num in
  let suffix := " P" +:+ toString pageNum in
  let maxTitleLen := 31%nat in
  let displayTitle :=
    if (maxTitleLen <? strlen title)%nat
    then substring title 0 (maxTitleLen - 2) +:+ ".."
    else title in
  let usedLen := (strlen prefix + strlen displayTitle + strlen suffix)%nat in
  let paddingNeeded := Z.of_nat GRID.COLUMNS - Z.of_nat usedLen in
  let padding :=
    if 0 <? paddingNeeded then replicateChar " " (Z.to_nat paddingNeeded)
    else EmptyString in
  prefix +:+ displayTitle +:+ padding +:+ suffix.

Definition formatNewsListPage (articles : list CachedArticle) (title : string)
    (basePageNum : Z) : list string :=
  [ title; ""; "================================"; "" ] ++
  concat (imap (fun index article =>
                  [ formatHeadlineWithPage index (ApiPages.title article) basePageNum;
                    "" ]) articles) ++
  [ "================================"; "";
    "Type page number for full story"; "";
    "Press 100 for index" ].

Section DetailPages.
(** [String.prototype.toUpperCase] *)
Variable toUpperCase : string -> string.

(** The two [wordWrap] calls are run with [fuel]; [None] when a chunking loop
    has not finished within it. *)
Definition formatArticleDetailPage (fuel : nat) (article : CachedArticle)
    (source : string) (backPage : Z) : option (list string) :=
  let lines0 := [ source; ""; "================================"; "" ] in
  titleLines ← wordWrap fuel (toUpperCase (title article)) GRID.COLUMNS;
  let lines1 :=
    lines0 ++ titleLines ++ [ ""; "--------------------------------"; "" ] in
  let headerRows := Z.of_nat (length lines1) in
  let footerRows := 2 in
  let maxDescLines := 23 - headerRows - footerRows - 1 in
  lines2 ←
    (if truthy (description article) then
       descLines ← wordWrap fuel (description article) GRID.COLUMNS;
       let shown := slice descLines 0 (Z.to_nat (Z.max 1 maxDescLines)) in
       Some (if maxDescLines <? Z.of_nat (length descLines)
             then lines1 ++ shown ++ [ "..." ]
             else lines1 ++ shown)
     else Some (lines1 ++ [ "No description available." ]));
  let currentLines := length lines2 in
  let targetLines := 21%nat in
  let lines3 :=
    if (currentLines <? targetLines)%nat
    then lines2 ++ replicate (targetLines - currentLines) EmptyString
    else lines2 in
  Some (lines3 ++ [ ""; "Press " +:+ toString backPage +:+ " for headlines" ]).

Definition getNewsDetailPage (fuel : nat) (articleCache : ArticleCache)
    (articleIndex : Z) : option (list string) :=
  match getCachedArticle articleCache News articleIndex with
  | None =>
      Some [ "ARTICLE NOT FOUND"; "";
             "Please visit Page 200 first";
             "to load the news headlines."; "";
             "Press 200 for headlines" ]
  | Some article => formatArticleDetailPage fuel article "BBC NEWS" 200
  end.

Definition getTechDetailPage (fuel : nat) (articleCache : ArticleCache)
    (articleIndex : Z) : option (list string) :=
  match getCachedArticle articleCache Tech articleIndex with
  | None =>
      Some [ "ARTICLE NOT FOUND"; "";
             "Please visit Page 300 first";
             "to load the tech headlines."; "";
             "Press 300 for headlines" ]
  | Some article => formatArticleDetailPage fuel article "THE VERGE" 300
  end.

Definition getSportsDetailPage (fuel : nat) (articleCache : ArticleCache)
    (articleIndex : Z) : option (list string) :=
  match getCachedArticle articleCache Sports articleIndex with
  | None =>
      Some [ "ARTICLE NOT FOUND"; "";
             "Please visit Page 500 first";
             "to load the sports headlines."; "";
             "Press 500 for headlines" ]
  | Some article => formatArticleDetailPage fuel article "ESPN SPORTS" 500
  end.
End DetailPages.

(** What the RSS proxy answers: a failure that [fetchRSSFeed] catches
    (network error, HTTP status, a status other than "ok"), an "ok" answer
    with the items of the feed, each of the declared type [RSSItem], or an
    "ok" answer whose [items] is missing or is not an array of items. *)
Inductive FeedResponse : Type :=
| FeedItems (items : list RSSItem)
| FeedFailure
| FeedNoItems.

(** What [fetchRSSFeed] returns: [data.items], or the empty array from its
    own [catch]; [None] is a [data.items] that is not an array of items. *)
Definition fetchRSSFeed (response : FeedResponse) : option (list RSSItem) :=
  match response with
  | FeedItems items => Some items
  | FeedFailure => Some []
  | FeedNoItems => None
  end.

(** [try { body } catch (error) { handler }]: the body yields [None] when it
    raises, here the TypeError of [items.slice(0, 5).map(...)] on a value
    that is not an array of items, raised before the cache is assigned.  The
    [console.error] calls of the handlers are left out: nothing reads the
    console. *)
Definition tryCatch {A} (body : option A) (handler : A) : A :=
  match body with
  | Some a => a
  | None => handler
  end.

(** [fetchWorldNews] at time [now] (the value of [Date.now()]), with the
    answer the proxy gives if it is asked: the new cache and the lines the
    promise is fulfilled with. *)
Definition fetchWorldNews (now : Z) (response : FeedResponse)
    (articleCache : ArticleCache) : ArticleCache * list string :=
  if (0 <? length (news articleCache))%nat
     && (now - lastFetched_news articleCache <? CACHE_TTL)
  then (articleCache, formatNewsListPage (news articleCache) "BBC WORLD NEWS" 200)
  else
    tryCatch
      (items ← fetchRSSFeed response;
       let news' :=
         map (fun item =>
                mkCachedArticle (item_title item) (item_description item)
                  (Some (item_link item)) (Some (item_pubDate item)))
             (slice items 0 5) in
       Some (mkArticleCache news' (tech articleCache) (sports articleCache)
               now (lastFetched_tech articleCache) (lastFetched_sports articleCache),
             formatNewsListPage news' "BBC WORLD NEWS" 200))
      (articleCache,
       [ "BBC WORLD NEWS"; ""; "================================"; "";
         "ERROR: UNABLE TO FETCH NEWS"; "";
         "Service temporarily unavailable."; "";
         "Press 100 for index" ]).

Definition fetchTechNews (now : Z) (response : FeedResponse)
    (articleCache : ArticleCache) : ArticleCache * list string :=
  if (0 <? length (tech articleCache))%nat
     && (now - lastFetched_tech articleCache <? CACHE_TTL)
  then (articleCache, formatNewsListPage (tech articleCache) "THE VERGE" 300)
  else
    tryCatch
      (items ← fetchRSSFeed response;
       let tech' :=
         map (fun item =>
                mkCachedArticle (item_title item)
                  (if truthy (item_description item) then item_description item
                   else "No description available.")
                  (Some (item_link item)) (Some (item_pubDate item)))
             (slice items 0 5) in
       Some (mkArticleCache (news articleCache) tech' (sports articleCache)
               (lastFetched_news articleCache) now (lastFetched_sports articleCache),
             formatNewsListPage tech' "THE VERGE" 300))
      (articleCache,
       [ "THE VERGE"; ""; "================================"; "";
         "ERROR: UNABLE TO FETCH NEWS"; "";
         "Service temporarily unavailable."; "";
         "Press 100 for index" ]).

Definition fetchSports (now : Z) (response : FeedResponse)
    (articleCache : ArticleCache) : ArticleCache * list string :=
  if (0 <? length (sports articleCache))%nat
     && (now - lastFetched_sports articleCache <? CACHE_TTL)
  then (articleCache, formatNewsListPage (sports articleCache) "ESPN SPORTS" 500)
  else
    tryCatch
      (items ← fetchRSSFeed response;
       let sports' :=
         map (fun item =>
                mkCachedArticle (item_title item) (item_description item)
                  (Some (item_link item)) (Some (item_pubDate item)))
             (slice items 0 5) in
       Some (mkArticleCache (news articleCache) (tech articleCache) sports'
               (lastFetched_news articleCache) (lastFetched_tech articleCache) now,
             formatNewsListPage sports' "ESPN SPORTS" 500))
      (articleCache,
       [ "ESPN SPORTS"; ""; "================================"; "";
         "ERROR: UNABLE TO FETCH SPORTS"; "";
         "Service temporarily unavailable."; "";
         "Press 100 for index" ]).

(** Whether a page fits the content area. *)
Definition fitsGrid (lines : list string) : Prop :=
  (length lines <= GRID.CONTENT_ROWS)%nat /\
  Forall (fun line => (strlen line <= GRID.COLUMNS)%nat) lines.


End ApiPages.

(** ** components/TeletextScreen.tsx: the two halves of a load and the
       page-transition effect *)

Module ScreenSteps.
Import JS Registry Screen.

Section Steps.
Variables getNewsDetailPage getTechDetailPage getSportsDetailPage : Z -> list string.

(** [loadDynamicContent] up to its [await]: the loader that is now in
    flight, if the page has one. *)
Definition loadStart (pageNumber : Z) : M (option DynamicContentLoader) :=
  let pageDef :=
    getPage getNewsDetailPage getTechDetailPage getSportsDetailPage pageNumber in
  match dynamicContent pageDef with
  | Some loader =>
      bind (setIsLoadingDynamic true) (fun _ =>
      bind (setDynamicContent None) (fun _ => ret (Some loader)))
  | None => bind (setDynamicContent None) (fun _ => ret None)
  end.

(** [loadDynamicContent] from its [await] on, once the loader has settled. *)
Definition loadSettle (settlement : Settlement) : M unit :=
  tryCatchFinally
    (bind (await settlement) (fun content => setDynamicContent (Some content)))
    (fun error =>
       bind (consoleError "Failed to load dynamic content:") (fun _ =>
       setDynamicContent (Some fallbackContent)))
    (setIsLoadingDynamic false).

(** The timer callback of the page-transition effect up to the [await]. *)
Definition showPageStart (currentPage : Z) : M (option DynamicContentLoader) :=
  bind (setDisplayedPage currentPage) (fun _ =>
  bind (setScreenState display) (fun _ =>
  loadStart currentPage)).

(** The body of the page-transition effect for the requested [currentPage]:
    it blanks the screen and returns [true] when it has set the 100 ms timer
    whose callback is [showPage]. *)
Definition transitionEffect (currentPage : Z) : M bool :=
  fun s =>
    if isInitialized s && negb (currentPage =? displayedPage s) then
      bind (setScreenState loading) (fun _ =>
      bind (setDynamicContent None) (fun _ => ret true)) s
    else ret false s.
End Steps.



(** The initial values of the [useState] cells. *)
Definition initialScreen : TeletextScreen :=
  mkTeletextScreen static 100 false None false [].

Definition setIsInitialized (v : bool) : M unit :=
  fun s => (mkTeletextScreen (screenState s) (displayedPage s) v
              (dynamicContentState s) (isLoadingDynamic s) (console s), Returned tt).

(** The callback of the 1000 ms timer of the initialisation effect; it sets
    the 100 ms timer whose callback is [initInnerTimer]. *)
Definition initOuterTimer : M unit := setScreenState loading.

(** The callback of the inner timer; [App] passes no [onInitComplete], so
    [onInitComplete?.()] calls nothing. *)
Definition initInnerTimer : M unit :=
  bind (setDisplayedPage 100) (fun _ =>
  bind (setScreenState display) (fun _ =>
  setIsInitialized true)).

End ScreenSteps.

(** * Properties *)

(** ** Strings *)

Lemma app_cons (c : ascii) (a b : string) :
  String c a +:+ b = String c (a +:+ b).
Proof. reflexivity. Qed.

Lemma app_empty_l (b : string) : EmptyString +:+ b = b.
Proof. reflexivity. Qed.

Lemma strlen_app (a b : string) :
  JS.strlen (a +:+ b) = (JS.strlen a + JS.strlen b)%nat.
Proof.
  unfold JS.strlen. induction a as [|c a IH]; [reflexivity|].
  rewrite app_cons. simpl. now rewrite IH.
Qed.

Lemma app_empty_r (a : string) : a +:+ EmptyString = a.
Proof.
  induction a as [|c a IH]; [reflexivity|]. now rewrite app_cons, IH.
Qed.

Lemma app_assoc_str (a b c : string) : (a +:+ b) +:+ c = a +:+ (b +:+ c).
Proof.
  induction a as [|x a IH]; [reflexivity|]. now rewrite !app_cons, IH.
Qed.

Lemma strlen_replicateChar (c : ascii) (n : nat) :
  JS.strlen (JS.replicateChar c n) = n.
Proof. unfold JS.strlen. induction n; simpl; auto. Qed.

(** The first [n] code units of a string. *)
Lemma substring0_length (n : nat) (s : string) :
  String.length (String.substring 0 n s) = Nat.min n (String.length s).
Proof.
  revert n. induction s as [|c s IH]; intros [|n]; simpl; auto.
Qed.

Lemma substring0_prefix (n : nat) (s : string) :
  exists rest, s = String.substring 0 n s +:+ rest.
Proof.
  revert n. induction s as [|c s IH]; intros [|n]; simpl.
  - now exists EmptyString.
  - now exists EmptyString.
  - now exists (String c s).
  - destruct (IH n) as [rest Hrest]. exists rest.
    rewrite app_cons. now rewrite <- Hrest.
Qed.

Lemma substring0_all (n : nat) (s : string) :
  (String.length s <= n)%nat -> String.substring 0 n s = s.
Proof.
  revert n. induction s as [|c s IH]; intros [|n] H; simpl in *; try reflexivity; try lia.
  f_equal. apply IH. lia.
Qed.

Lemma js_substring_from0 (s : string) (n : nat) :
  JS.substring s 0 n = String.substring 0 n s.
Proof.
  unfold JS.substring. rewrite Nat.min_0_l, Nat.min_0_l, Nat.max_0_l, Nat.sub_0_r.
  destruct (Nat.le_ge_cases n (String.length s)) as [H|H].
  - now rewrite Nat.min_l.
  - rewrite Nat.min_r by exact H.
    rewrite !substring0_all; auto.
Qed.

(** ** C7, C8: truncation *)

Lemma truncateText_short (s : string) :
  (JS.strlen s <= 40)%nat -> Formatters.truncateText s = s.
Proof.
  intros H. unfold Formatters.truncateText, GRID.COLUMNS.
  destruct (Nat.leb_spec (JS.strlen s) 40); [reflexivity | lia].
Qed.

Lemma truncateText_long (s : string) :
  (40 < JS.strlen s)%nat -> Formatters.truncateText s = String.substring 0 40 s.
Proof.
  intros H. unfold Formatters.truncateText, GRID.COLUMNS.
  destruct (Nat.leb_spec (JS.strlen s) 40); [lia | apply js_substring_from0].
Qed.

Lemma truncateText_length (s : string) :
  (JS.strlen (Formatters.truncateText s) <= 40)%nat.
Proof.
  destruct (Nat.le_gt_cases (JS.strlen s) 40) as [H|H].
  - now rewrite truncateText_short.
  - rewrite truncateText_long by exact H. unfold JS.strlen.
    rewrite substring0_length. lia.
Qed.

Lemma truncateLines_short (L : list string) :
  (length L <= 23)%nat -> Formatters.truncateLines L = L.
Proof.
  intros H. unfold Formatters.truncateLines, GRID.CONTENT_ROWS.
  destruct (Nat.leb_spec (length L) 23); [reflexivity | lia].
Qed.

Lemma truncateLines_long (L : list string) :
  (23 < length L)%nat -> Formatters.truncateLines L = take 23 L.
Proof.
  intros H. unfold Formatters.truncateLines, GRID.CONTENT_ROWS, JS.slice.
  destruct (Nat.leb_spec (length L) 23); [lia | reflexivity].
Qed.

Lemma truncateLines_take (L : list string) :
  Formatters.truncateLines L = take 23 L.
Proof.
  destruct (Nat.le_gt_cases (length L) 23) as [H|H].
  - rewrite truncateLines_short by exact H. symmetry. now apply take_ge.
  - now apply truncateLines_long.
Qed.

Lemma truncateLines_length (L : list string) :
  length (Formatters.truncateLines L) = Nat.min 23 (length L).
Proof. rewrite truncateLines_take. apply length_take. Qed.

(** C7. [truncateText] returns its argument when it has at most 40 code
    units and otherwise its prefix of length 40; [truncateLines] returns its
    argument when it has at most 23 entries and otherwise its first 23
    entries in order.  Both are total functions; the empty string and the
    empty array are returned unchanged. *)
Theorem C7_truncation_contract :
  (forall s : string,
      ((JS.strlen s <= 40)%nat -> Formatters.truncateText s = s) /\
      ((40 < JS.strlen s)%nat ->
         JS.strlen (Formatters.truncateText s) = 40%nat /\
         exists rest, s = Formatters.truncateText s +:+ rest)) /\
  (forall L : list string,
      ((length L <= 23)%nat -> Formatters.truncateLines L = L) /\
      ((23 < length L)%nat ->
         Formatters.truncateLines L = take 23 L /\
         length (Formatters.truncateLines L) = 23%nat /\
         exists rest, L = Formatters.truncateLines L ++ rest)) /\
  Formatters.truncateText EmptyString = EmptyString /\
  Formatters.truncateLines [] = [].
Proof.
  split; [|split; [|split; reflexivity]].
  - intros s. split; [apply truncateText_short|].
    intros H. rewrite truncateText_long by exact H. split.
    + unfold JS.strlen in *. rewrite substring0_length. lia.
    + apply substring0_prefix.
  - intros L. split; [apply truncateLines_short|].
    intros H. rewrite truncateLines_long by exact H.
    split; [reflexivity|]. split.
    + rewrite length_take. lia.
    + exists (drop 23 L). symmetry. apply take_drop.
Qed.

Lemma C7_truncation_witness :
  Formatters.truncateText "TELETEXT" = "TELETEXT" /\
  JS.strlen (Formatters.truncateText
               "0123456789012345678901234567890123456789ABC") = 40%nat /\
  Formatters.truncateLines ["a"; "b"] = ["a"; "b"] /\
  length (Formatters.truncateLines (replicate 30 "row")) = 23%nat.
Proof.
  destruct C7_truncation_contract as [HT [HL _]].
  split; [|split; [|split]].
  - apply (proj1 (HT "TELETEXT")). vm_compute. lia.
  - apply (proj2 (HT "0123456789012345678901234567890123456789ABC")).
    vm_compute. lia.
  - apply (proj1 (HL ["a"; "b"])). simpl. lia.
  - apply (proj2 (HL (replicate 30 "row"))). vm_compute. lia.
Defined.

(** C8. Truncating twice is the same as truncating once, for rows of text
    and for arrays of rows. *)
Theorem C8_truncation_idempotent :
  (forall s : string,
      Formatters.truncateText (Formatters.truncateText s) = Formatters.truncateText s) /\
  (forall L : list string,
      Formatters.truncateLines (Formatters.truncateLines L) = Formatters.truncateLines L).
Proof.
  split.
  - intros s. apply truncateText_short, truncateText_length.
  - intros L. apply truncateLines_short. rewrite truncateLines_length. lia.
Qed.

(** ** C9: the palette *)

Lemma TELETEXT_COLORS_lookup (name hex : string) :
  Colors.TELETEXT_COLORS !! name = Some hex <->
  In (name, hex) Colors.TELETEXT_COLORS_entries.
Proof.
  unfold Colors.TELETEXT_COLORS. rewrite <- list_elem_of_In.
  rewrite <- elem_of_list_to_map; [reflexivity|].
  apply (bool_decide_unpack _). vm_compute. exact I.
Qed.

Lemma isValidTeletextColor_iff (name : string) :
  Colors.isValidTeletextColor name = true <->
  In name ["black"; "white"; "red"; "green"; "blue"; "yellow"; "cyan"; "magenta"].
Proof.
  unfold Colors.isValidTeletextColor. rewrite bool_decide_eq_true. split.
  - intros [hex Hhex]. apply TELETEXT_COLORS_lookup in Hhex.
    simpl in Hhex. simpl.
    repeat (destruct Hhex as [Hhex|Hhex]; [injection Hhex as <- _; tauto|]).
    contradiction.
  - intros Hin. simpl in Hin.
    repeat (destruct Hin as [<-|Hin]; [vm_compute; eauto|]).
    contradiction.
Qed.

(** C9. [isValidTeletextColor] holds exactly of the eight lower-case palette
    names, and for each of them [getTeletextColorHex] returns a string made of
    ["#"] and six upper-case hexadecimal digits that is one of the eight
    palette values. *)
Theorem C9_palette_validation :
  (forall name : string,
      Colors.isValidTeletextColor name = true <->
      In name ["black"; "white"; "red"; "green"; "blue"; "yellow"; "cyan"; "magenta"]) /\
  Forall
    (fun name =>
       Colors.isValidTeletextColor name = true /\
       exists hex,
         Colors.getTeletextColorHex name = Colors.VString hex /\
         Colors.testHex6 hex = true /\
         In hex ["#000000"; "#FFFFFF"; "#FF0000"; "#00FF00";
                 "#0000FF"; "#FFFF00"; "#00FFFF"; "#FF00FF"])
    ["black"; "white"; "red"; "green"; "blue"; "yellow"; "cyan"; "magenta"] /\
  (forall name : string,
      ~ In name ["black"; "white"; "red"; "green"; "blue"; "yellow"; "cyan"; "magenta"] ->
      Colors.isValidTeletextColor name = false).
Proof.
  split; [exact isValidTeletextColor_iff|]. split.
  - repeat constructor; try (vm_compute; reflexivity);
      eexists; (split; [vm_compute; reflexivity|]);
      (split; [vm_compute; reflexivity|]); simpl; tauto.
  - intros name Hnot. apply not_true_is_false. intros Hvalid.
    apply Hnot. now apply isValidTeletextColor_iff.
Qed.

Lemma C9_palette_witness :
  Colors.isValidTeletextColor "cyan" = true /\
  Colors.isValidTeletextColor "Cyan" = false /\
  Colors.isValidTeletextColor "constructor" = false.
Proof.
  destruct C9_palette_validation as [Hiff [_ Hother]].
  split; [|split].
  - apply Hiff. simpl. tauto.
  - apply Hother. simpl. intros H.
    repeat (destruct H as [H|H]; [discriminate H|]). exact H.
  - apply Hother. simpl. intros H.
    repeat (destruct H as [H|H]; [discriminate H|]). exact H.
Defined.

(** ** C3: the header row *)

Lemma below_forallb (P : Z -> bool) (N : nat) :
  forallb (fun k => P (Z.of_nat k)) (seq 0 N) = true ->
  forall z, 0 <= z < Z.of_nat N -> P z = true.
Proof.
  intros H z Hz. rewrite forallb_forall in H.
  specialize (H (Z.to_nat z)). rewrite Z2Nat.id in H by lia.
  apply H, in_seq. lia.
Qed.

(** A number below 100 prints, zero-padded to two places, as its two digits. *)
Lemma padStart2_digits (z : Z) :
  0 <= z < 100 ->
  JS.padStart0 (JS.toString z) 2 =
  String (JS.digitChar (z / 10)) (String (JS.digitChar (z mod 10)) EmptyString).
Proof.
  intros Hz. apply String.eqb_eq.
  revert z Hz.
  apply (below_forallb
           (fun z => String.eqb (JS.padStart0 (JS.toString z) 2)
                       (String (JS.digitChar (z / 10))
                          (String (JS.digitChar (z mod 10)) EmptyString))) 100).
  vm_compute. reflexivity.
Qed.

(** A page number in 0..999 prints as ["P"] and its three digits. *)
Lemma formatPageNumber_digits (n : Z) :
  0 <= n <= 999 ->
  Formatters.formatPageNumber n =
  String "P" (String (JS.digitChar (n / 100))
                (String (JS.digitChar (n / 10 mod 10))
                   (String (JS.digitChar (n mod 10)) EmptyString))).
Proof.
  intros Hn. apply String.eqb_eq.
  assert (Hn' : 0 <= n < Z.of_nat 1000) by lia. clear Hn. revert n Hn'.
  apply (below_forallb
           (fun n => String.eqb (Formatters.formatPageNumber n)
                       (String "P" (String (JS.digitChar (n / 100))
                          (String (JS.digitChar (n / 10 mod 10))
                             (String (JS.digitChar (n mod 10)) EmptyString))))) 1000).
  vm_compute. reflexivity.
Qed.

Lemma formatTime_digits (t : Formatters.Date) :
  Formatters.validTime t ->
  Formatters.formatTime t =
  String (JS.digitChar (Formatters.getHours t / 10))
    (String (JS.digitChar (Formatters.getHours t mod 10))
       (String ":"
          (String (JS.digitChar (Formatters.getMinutes t / 10))
             (String (JS.digitChar (Formatters.getMinutes t mod 10))
                (String ":"
                   (String (JS.digitChar (Formatters.getSeconds t / 10))
                      (String (JS.digitChar (Formatters.getSeconds t mod 10))
                         EmptyString))))))).
Proof.
  intros (Hh & Hm & Hs). unfold Formatters.formatTime.
  rewrite !padStart2_digits by lia. reflexivity.
Qed.

Lemma repeatSpace_nonneg (count : Z) :
  0 <= count ->
  JS.repeatSpace count = Some (JS.replicateChar " " (Z.to_nat count)).
Proof.
  intros H. unfold JS.repeatSpace.
  destruct (Z.ltb_spec count 0); [lia | reflexivity].
Qed.

(** C3. When the page name leaves room ([pageName.length + 4 + 8 <= 40]),
    the page number is in 0..999 and the time is a time of day, the header is
    the page name, a gap of spaces, ["P"] with the three digits of the page
    number, a second gap of spaces, and the time as two digits each of
    hours, minutes and seconds, separated by colons; it has length 40; the
    two gaps share the free columns, the second gap equal to the first or
    one longer. *)
Theorem C3_header_layout (pageName : string) (pageNumber : Z)
    (currentTime : Formatters.Date) :
  0 <= pageNumber <= 999 ->
  Formatters.validTime currentTime ->
  (JS.strlen pageName + 4 + 8 <= 40)%nat ->
  exists (header : string) (before after : nat),
    HeaderComponent.Header pageName pageNumber currentTime = Some header /\
    header =
      pageName +:+ JS.replicateChar " " before +:+
      Formatters.formatPageNumber pageNumber +:+
      JS.replicateChar " " after +:+ Formatters.formatTime currentTime /\
    JS.strlen header = 40%nat /\
    (exists rest, header = pageName +:+ rest) /\
    (exists front, header = front +:+ Formatters.formatTime currentTime) /\
    (exists front rest,
        header = front +:+ Formatters.formatPageNumber pageNumber +:+ rest) /\
    Formatters.formatPageNumber pageNumber =
      String "P" (String (JS.digitChar (pageNumber / 100))
                    (String (JS.digitChar (pageNumber / 10 mod 10))
                       (String (JS.digitChar (pageNumber mod 10)) EmptyString))) /\
    Formatters.formatTime currentTime =
      String (JS.digitChar (Formatters.getHours currentTime / 10))
        (String (JS.digitChar (Formatters.getHours currentTime mod 10))
           (String ":"
              (String (JS.digitChar (Formatters.getMinutes currentTime / 10))
                 (String (JS.digitChar (Formatters.getMinutes currentTime mod 10))
                    (String ":"
                       (String (JS.digitChar (Formatters.getSeconds currentTime / 10))
                          (String
                             (JS.digitChar (Formatters.getSeconds currentTime mod 10))
                             EmptyString))))))) /\
    JS.strlen (Formatters.formatTime currentTime) = 8%nat /\
    (before + after = 40 - (JS.strlen pageName + 4 + 8))%nat /\
    (after = before \/ after = S before).
Proof.
  intros Hn Ht Hlen.
  pose proof (formatPageNumber_digits pageNumber Hn) as Hpage.
  pose proof (formatTime_digits currentTime Ht) as Htime.
  assert (Hplen : JS.strlen (Formatters.formatPageNumber pageNumber) = 4%nat)
    by (rewrite Hpage; reflexivity).
  assert (Htlen : JS.strlen (Formatters.formatTime currentTime) = 8%nat)
    by (rewrite Htime; reflexivity).
  set (total := Z.of_nat GRID.COLUMNS
                - Z.of_nat (JS.strlen pageName
                            + JS.strlen (Formatters.formatPageNumber pageNumber)
                            + JS.strlen (Formatters.formatTime currentTime))).
  assert (Htotal : total = 40 - Z.of_nat (JS.strlen pageName) - 12)
    by (unfold total, GRID.COLUMNS; rewrite Hplen, Htlen; lia).
  assert (Hhalf : 0 <= total / 2) by (apply Z.div_pos; lia).
  assert (Hrest : 0 <= total - total / 2)
    by (pose proof (Z.div_mod total 2); pose proof (Z.mod_pos_bound total 2); lia).
  exists (pageName +:+ JS.replicateChar " " (Z.to_nat (total / 2)) +:+
          Formatters.formatPageNumber pageNumber +:+
          JS.replicateChar " " (Z.to_nat (total - total / 2)) +:+
          Formatters.formatTime currentTime).
  exists (Z.to_nat (total / 2)), (Z.to_nat (total - total / 2)).
  split.
  { unfold HeaderComponent.Header. fold total.
    rewrite (repeatSpace_nonneg _ Hhalf), (repeatSpace_nonneg _ Hrest).
    reflexivity. }
  split; [reflexivity|]. split.
  { rewrite !strlen_app, !strlen_replicateChar, Hplen, Htlen. lia. }
  split; [eexists; reflexivity|]. split.
  { exists (pageName +:+ JS.replicateChar " " (Z.to_nat (total / 2)) +:+
            Formatters.formatPageNumber pageNumber +:+
            JS.replicateChar " " (Z.to_nat (total - total / 2))).
    now rewrite !app_assoc_str. }
  split.
  { exists (pageName +:+ JS.replicateChar " " (Z.to_nat (total / 2))).
    eexists. rewrite !app_assoc_str. reflexivity. }
  split; [exact Hpage|]. split; [exact Htime|]. split; [exact Htlen|].
  pose proof (Z.div_mod total 2) as Hdm.
  pose proof (Z.mod_pos_bound total 2) as Hmb.
  split; [lia|].
  destruct (Z.eq_dec (total mod 2) 0); [left | right]; lia.
Qed.

Lemma C3_header_witness :
  exists header before after,
    HeaderComponent.Header "TELETEXT ZERO" 100 (Formatters.mkDate 9 5 0) = Some header /\
    header =
      "TELETEXT ZERO" +:+ JS.replicateChar " " before +:+
      Formatters.formatPageNumber 100 +:+
      JS.replicateChar " " after +:+ Formatters.formatTime (Formatters.mkDate 9 5 0) /\
    JS.strlen header = 40%nat /\
    Formatters.formatTime (Formatters.mkDate 9 5 0) = "09:05:00" /\
    (before + after = 15)%nat /\
    (after = before \/ after = S before).
Proof.
  destruct (C3_header_layout "TELETEXT ZERO" 100 (Formatters.mkDate 9 5 0))
    as (header & before & after & H1 & H2 & H3 & _ & _ & _ & _ & H8 & _ & H9 & H10).
  - lia.
  - unfold Formatters.validTime; simpl; lia.
  - vm_compute. lia.
  - exists header, before, after. repeat split; try assumption.
Defined.

(** ** C5: unknown pages *)

Lemma prefix_app (p rest : string) : String.prefix p (p +:+ rest) = true.
Proof.
  induction p as [|c p IH].
  - rewrite app_empty_l. destruct rest; reflexivity.
  - rewrite app_cons. simpl. destruct (ascii_dec c c); [exact IH | congruence].
Qed.

Lemma includes_unfold (s p : string) :
  JS.includes s p =
  String.prefix p s ||
  match s with
  | String _ s' => JS.includes s' p
  | EmptyString => false
  end.
Proof. destruct s; reflexivity. Qed.

Lemma includes_here (p rest : string) : JS.includes (p +:+ rest) p = true.
Proof. rewrite includes_unfold, prefix_app. reflexivity. Qed.

Lemma includes_app (front p rest : string) :
  JS.includes (front +:+ p +:+ rest) p = true.
Proof.
  induction front as [|c front IH].
  - rewrite app_empty_l. apply includes_here.
  - rewrite app_cons. simpl. rewrite IH. apply orb_true_r.
Qed.

Lemma toString_length_small (n : Z) :
  0 <= n <= 999 -> (JS.strlen (JS.toString n) <= 3)%nat.
Proof.
  intros Hn. apply Nat.leb_le.
  assert (Hn' : 0 <= n < Z.of_nat 1000) by lia. clear Hn. revert n Hn'.
  apply (below_forallb (fun n => (JS.strlen (JS.toString n) <=? 3)%nat) 1000).
  vm_compute. reflexivity.
Qed.

Lemma getPage_unregistered
    (getNewsDetailPage getTechDetailPage getSportsDetailPage : Z -> list string)
    (n : Z) :
  Registry.pageRegistry !! n = None ->
  Registry.isDetailPage n = false ->
  Registry.getPage getNewsDetailPage getTechDetailPage getSportsDetailPage n =
  Registry.createErrorPage n.
Proof.
  intros Hreg Hdetail. unfold Registry.getPage. now rewrite Hreg, Hdetail.
Qed.

Lemma isDetailPage_outside (n : Z) :
  ~ (201 <= n <= 205) -> ~ (301 <= n <= 305) -> ~ (501 <= n <= 505) ->
  Registry.isDetailPage n = false.
Proof.
  intros H2 H3 H5. unfold Registry.isDetailPage.
  destruct (Z.leb_spec 201 n), (Z.leb_spec n 205),
           (Z.leb_spec 301 n), (Z.leb_spec n 305),
           (Z.leb_spec 501 n), (Z.leb_spec n 505); simpl; try reflexivity; lia.
Qed.

(** C5. For a page number in 0..999 that is not a key of the registry and
    lies outside 201-205, 301-305 and 501-505, [getPage] returns the error
    page for that number: one of its lines contains "PAGE NOT FOUND", one
    contains the decimal page number, and it has at most 23 lines of at most
    40 characters. *)
Theorem C5_unknown_page_not_found
    (getNewsDetailPage getTechDetailPage getSportsDetailPage : Z -> list string)
    (n : Z) :
  0 <= n <= 999 ->
  Registry.pageRegistry !! n = None ->
  ~ (201 <= n <= 205) -> ~ (301 <= n <= 305) -> ~ (501 <= n <= 505) ->
  let page :=
    Registry.getPage getNewsDetailPage getTechDetailPage getSportsDetailPage n in
  page = Registry.createErrorPage n /\
  Registry.pageNumber page = n /\
  (exists line, In line (Registry.content page) /\
                JS.includes line "PAGE NOT FOUND" = true) /\
  (exists line, In line (Registry.content page) /\
                JS.includes line (JS.toString n) = true) /\
  (length (Registry.content page) <= 23)%nat /\
  Forall (fun line => (JS.strlen line <= 40)%nat) (Registry.content page).
Proof.
  intros Hn Hreg H2 H3 H5 page.
  assert (Hpage : page = Registry.createErrorPage n).
  { apply getPage_unregistered; [exact Hreg | now apply isDetailPage_outside]. }
  rewrite Hpage. split; [reflexivity|]. split; [reflexivity|].
  unfold Registry.createErrorPage; cbn [Registry.content].
  split.
  { exists "PAGE NOT FOUND". split; [now left | reflexivity]. }
  split.
  { exists ("Page " +:+ JS.toString n +:+ " does not exist.").
    split; [right; right; now left | apply includes_app]. }
  split; [simpl; lia|].
  pose proof (toString_length_small n Hn) as Hlen.
  repeat match goal with
         | |- Forall _ (_ :: _) => apply List.Forall_cons
         | |- Forall _ [] => apply List.Forall_nil
         end; try (vm_compute; lia).
  rewrite !strlen_app. change (JS.strlen "Page ") with 5%nat.
  change (JS.strlen " does not exist.") with 16%nat. lia.
Qed.

Lemma C5_unknown_page_witness :
  let page := Registry.getPage (fun _ => []) (fun _ => []) (fun _ => []) 999 in
  page = Registry.createErrorPage 999 /\
  Registry.pageNumber page = 999 /\
  (exists line, In line (Registry.content page) /\
                JS.includes line "PAGE NOT FOUND" = true) /\
  (exists line, In line (Registry.content page) /\
                JS.includes line (JS.toString 999) = true) /\
  (length (Registry.content page) <= 23)%nat /\
  Forall (fun line => (JS.strlen line <= 40)%nat) (Registry.content page).
Proof.
  apply (C5_unknown_page_not_found (fun _ => []) (fun _ => []) (fun _ => []) 999).
  - lia.
  - vm_compute. reflexivity.
  - lia.
  - lia.
  - lia.
Defined.

(** ** C1, C2: the navigation buffer *)

Lemma testSingleDigit_inv (k : string) :
  JS.testSingleDigit k = true ->
  exists c, k = String c EmptyString /\ JS.isDigit c = true.
Proof.
  destruct k as [|c [|d k]]; simpl; try discriminate.
  intros H. now exists c.
Qed.

Lemma isDigit_cases (c : ascii) :
  JS.isDigit c = true ->
  In c ["0"; "1"; "2"; "3"; "4"; "5"; "6"; "7"; "8"; "9"]%char.
Proof.
  destruct c as [[] [] [] [] [] [] [] []]; vm_compute; intros H;
    try discriminate H; tauto.
Qed.

Lemma parseInt_leading_digit (c : ascii) (s : string) :
  JS.isDigit c = true ->
  JS.parseInt (String c s) = JS.Num (JS.digitsValue 0 (String c s)).
Proof.
  intros H. apply isDigit_cases in H. simpl in H.
  repeat (destruct H as [<-|H];
          [unfold JS.parseInt; cbn [JS.trimStart JS.isWhitespace];
           simpl; f_equal;
           match goal with |- context [JS.digitsValue ?a ?b] =>
             destruct (JS.digitsValue a b); reflexivity end|]).
  contradiction.
Qed.

(** Three decimal digits parse to their base-10 value. *)
Lemma parseInt_three_digits (a b c : ascii) :
  JS.isDigit a = true -> JS.isDigit b = true -> JS.isDigit c = true ->
  JS.parseInt (String a (String b (String c EmptyString))) =
  JS.Num (100 * JS.digitValue a + 10 * JS.digitValue b + JS.digitValue c).
Proof.
  intros Ha Hb Hc. rewrite parseInt_leading_digit by exact Ha.
  simpl. rewrite Ha, Hb, Hc. f_equal. lia.
Qed.

Lemma addDigit_not_digit (k : string) (h : Navigation.Hook) :
  JS.testSingleDigit k = false -> Navigation.addDigit k h = h.
Proof. intros H. unfold Navigation.addDigit. now rewrite H. Qed.

Lemma addDigit_full (k : string) (h : Navigation.Hook) :
  (3 <= JS.strlen (Navigation.pageBuffer (Navigation.state h)))%nat ->
  Navigation.addDigit k h = h.
Proof.
  intros H. unfold Navigation.addDigit.
  destruct (negb (JS.testSingleDigit k)); [reflexivity|].
  destruct (Nat.leb_spec 3 (JS.strlen (Navigation.pageBuffer (Navigation.state h))));
    [reflexivity | lia].
Qed.

Lemma addDigit_append (k : string) (h : Navigation.Hook) :
  JS.testSingleDigit k = true ->
  (JS.strlen (Navigation.pageBuffer (Navigation.state h)) < 3)%nat ->
  Navigation.addDigit k h =
  Navigation.mkHook
    (Navigation.mkNavigationState
       (Navigation.currentPage (Navigation.state h))
       (Navigation.pageBuffer (Navigation.state h) +:+ k)
       (Navigation.isNavigating (Navigation.state h)))
    (if (JS.strlen (Navigation.pageBuffer (Navigation.state h)) =? 2)%nat
     then Navigation.timers h ++
          [Navigation.NavigateTimer
             (JS.parseInt (Navigation.pageBuffer (Navigation.state h) +:+ k))]
     else Navigation.timers h)
    (Navigation.pageChanges h).
Proof.
  intros Hk Hlen. unfold Navigation.addDigit. rewrite Hk. simpl negb. cbv iota.
  destruct (Nat.leb_spec 3 (JS.strlen (Navigation.pageBuffer (Navigation.state h))));
    [lia|].
  rewrite strlen_app.
  destruct (testSingleDigit_inv k Hk) as (c & -> & _).
  change (JS.strlen (String c EmptyString)) with 1%nat.
  replace (JS.strlen (Navigation.pageBuffer (Navigation.state h)) + 1 =? 3)%nat
    with (JS.strlen (Navigation.pageBuffer (Navigation.state h)) =? 2)%nat.
  - reflexivity.
  - destruct (Nat.eqb_spec (JS.strlen (Navigation.pageBuffer (Navigation.state h))) 2),
             (Nat.eqb_spec (JS.strlen (Navigation.pageBuffer (Navigation.state h)) + 1) 3);
      try reflexivity; lia.
Qed.

Lemma addDigit_pageChanges (k : string) (h : Navigation.Hook) :
  Navigation.pageChanges (Navigation.addDigit k h) = Navigation.pageChanges h.
Proof.
  unfold Navigation.addDigit.
  destruct (negb (JS.testSingleDigit k)); [reflexivity|].
  destruct (3 <=? _)%nat; reflexivity.
Qed.

(** C1, as stated, fails: after the keys "1", "2", "3" on a hook started on
    page 100 the buffer holds the three digits, the current page is still
    100 and no page change has been emitted. *)
Lemma C1_counterexample :
  let h := Navigation.addDigit "3"
             (Navigation.addDigit "2"
                (Navigation.addDigit "1" (Navigation.useNavigation (JS.Num 100)))) in
  Navigation.state h = Navigation.mkNavigationState (JS.Num 100) "123" false /\
  Navigation.pageChanges h = [] /\
  ~ (Navigation.currentPage (Navigation.state h) = JS.parseInt "123" /\
     Navigation.pageBuffer (Navigation.state h) = EmptyString /\
     Navigation.pageChanges h = [JS.parseInt "123"]).
Proof.
  vm_compute. split; [reflexivity|]. split; [reflexivity|].
  intros (H & _ & _). discriminate H.
Qed.

(** C1, amended. After three digit keys on a hook whose buffer is empty and
    that has no timer pending, the current page is unchanged, the buffer
    holds the three digits and exactly one zero-delay timer is pending; when
    that timer runs, the current page becomes the base-10 value of the three
    digits, the buffer is emptied and exactly one page change carrying that
    number is emitted, all in the same step. *)
Theorem C1_third_digit_resolves_by_timer (k1 k2 k3 : string)
    (h : Navigation.Hook) :
  JS.testSingleDigit k1 = true ->
  JS.testSingleDigit k2 = true ->
  JS.testSingleDigit k3 = true ->
  Navigation.pageBuffer (Navigation.state h) = EmptyString ->
  Navigation.timers h = [] ->
  let h3 := Navigation.addDigit k3 (Navigation.addDigit k2 (Navigation.addDigit k1 h)) in
  let n := JS.parseInt (k1 +:+ k2 +:+ k3) in
  Navigation.state h3 =
    Navigation.mkNavigationState (Navigation.currentPage (Navigation.state h))
      (k1 +:+ k2 +:+ k3) (Navigation.isNavigating (Navigation.state h)) /\
  JS.strlen (Navigation.pageBuffer (Navigation.state h3)) = 3%nat /\
  Navigation.timers h3 = [Navigation.NavigateTimer n] /\
  Navigation.pageChanges h3 = Navigation.pageChanges h /\
  (exists a b c,
      k1 = String a EmptyString /\ k2 = String b EmptyString /\
      k3 = String c EmptyString /\
      n = JS.Num (100 * JS.digitValue a + 10 * JS.digitValue b + JS.digitValue c)) /\
  Navigation.runTimer h3 =
    Navigation.mkHook (Navigation.mkNavigationState n EmptyString true)
      [Navigation.ResetNavigatingTimer] (Navigation.pageChanges h ++ [n]).
Proof.
  intros H1 H2 H3 Hbuffer Htimers.
  destruct h as [[page buffer navigating] pending changes].
  simpl in Hbuffer, Htimers. subst buffer pending.
  destruct (testSingleDigit_inv k1 H1) as (a & E1 & Ha).
  destruct (testSingleDigit_inv k2 H2) as (b & E2 & Hb).
  destruct (testSingleDigit_inv k3 H3) as (c & E3 & Hc).
  subst k1 k2 k3. cbv zeta.
  rewrite (addDigit_append (String a EmptyString)) by (try exact H1; simpl; lia).
  rewrite (addDigit_append (String b EmptyString)) by (try exact H2; simpl; lia).
  rewrite (addDigit_append (String c EmptyString)) by (try exact H3; simpl; lia).
  simpl.
  split; [reflexivity|]. split; [reflexivity|]. split; [reflexivity|].
  split; [reflexivity|]. split; [|reflexivity].
  exists a, b, c. repeat (split; [reflexivity|]).
  now apply parseInt_three_digits.
Qed.

Lemma C1_third_digit_witness :
  Navigation.runTimer
    (Navigation.addDigit "7"
       (Navigation.addDigit "0"
          (Navigation.addDigit "0" (Navigation.useNavigation (JS.Num 100))))) =
  Navigation.mkHook
    (Navigation.mkNavigationState (JS.parseInt ("0" +:+ "0" +:+ "7")) EmptyString true)
    [Navigation.ResetNavigatingTimer]
    (Navigation.pageChanges (Navigation.useNavigation (JS.Num 100))
     ++ [JS.parseInt ("0" +:+ "0" +:+ "7")]).
Proof.
  apply (C1_third_digit_resolves_by_timer "0" "0" "7"
           (Navigation.useNavigation (JS.Num 100)));
    reflexivity.
Defined.

Lemma strlen_concatKeys (keys : list string) :
  Forall (fun k => JS.testSingleDigit k = true) keys ->
  JS.strlen (Keyboard.concatKeys keys) = length keys.
Proof.
  induction 1 as [|k keys Hk _ IH]; [reflexivity|].
  unfold Keyboard.concatKeys in *. simpl. rewrite strlen_app, IH.
  destruct (testSingleDigit_inv k Hk) as (c & -> & _). reflexivity.
Qed.

Lemma concatKeys_snoc (keys : list string) (k : string) :
  Keyboard.concatKeys (keys ++ [k]) = Keyboard.concatKeys keys +:+ k.
Proof.
  unfold Keyboard.concatKeys. induction keys as [|x keys IH]; simpl.
  - now rewrite app_empty_r.
  - now rewrite IH, app_assoc_str.
Qed.

Lemma firstThree_snoc_full (keys : list string) (k : string) :
  (3 <= length keys)%nat ->
  Keyboard.firstThree (keys ++ [k]) = Keyboard.firstThree keys.
Proof.
  intros H. unfold Keyboard.firstThree. now rewrite take_app_le.
Qed.

Lemma firstThree_exact (keys : list string) :
  (length keys <= 3)%nat -> Keyboard.firstThree keys = Keyboard.concatKeys keys.
Proof.
  intros H. unfold Keyboard.firstThree. now rewrite take_ge.
Qed.

Lemma runTimer_pageChanges (h : Navigation.Hook) :
  exists more,
    Navigation.pageChanges (Navigation.runTimer h) = Navigation.pageChanges h ++ more.
Proof.
  unfold Navigation.runTimer. destruct (Navigation.timers h) as [|[n|] rest]; simpl.
  - exists []. now rewrite app_nil_r.
  - now exists [n].
  - exists []. now rewrite app_nil_r.
Qed.

(** A digit key advances the progress of the hook by that key. *)
Lemma progress_digit (p : JS.jsnum) (keys : list string) (h : Navigation.Hook)
    (k : string) :
  Forall (fun k => JS.testSingleDigit k = true) keys ->
  JS.testSingleDigit k = true ->
  Keyboard.Progress p keys h ->
  Keyboard.Progress p (keys ++ [k]) (Navigation.addDigit k h).
Proof.
  intros Hkeys Hk [Hlen ->|Hlen ->|Hlen [rest Hrest]].
  - rewrite addDigit_append;
      [|exact Hk|simpl; rewrite strlen_concatKeys by exact Hkeys; exact Hlen].
    simpl. rewrite strlen_concatKeys by exact Hkeys.
    rewrite <- concatKeys_snoc.
    destruct (Nat.eqb_spec (length keys) 2) as [E|E].
    + apply Keyboard.Resolving; [rewrite length_app; simpl; lia|].
      rewrite firstThree_exact by (rewrite length_app; simpl; lia).
      reflexivity.
    + apply Keyboard.Buffering; [rewrite length_app; simpl; lia | reflexivity].
  - rewrite addDigit_full.
    + apply Keyboard.Resolving; [rewrite length_app; lia|].
      now rewrite firstThree_snoc_full.
    + simpl. unfold Keyboard.firstThree.
      rewrite strlen_concatKeys by (now apply Forall_take).
      rewrite length_take. lia.
  - apply Keyboard.Navigated; [rewrite length_app; lia|].
    exists rest. rewrite addDigit_pageChanges, firstThree_snoc_full; assumption.
Qed.

(** An expiring timer keeps the digit keys and moves a hook that holds three
    digits past its first page change. *)
Lemma progress_timer (p : JS.jsnum) (keys : list string) (h : Navigation.Hook) :
  Keyboard.Progress p keys h ->
  Keyboard.Progress p keys (Navigation.runTimer h).
Proof.
  intros [Hlen ->|Hlen ->|Hlen [rest Hrest]].
  - now apply Keyboard.Buffering.
  - apply Keyboard.Navigated; [exact Hlen|]. now exists [].
  - apply Keyboard.Navigated; [exact Hlen|].
    destruct (runTimer_pageChanges h) as [more Hmore].
    exists (rest ++ more). now rewrite Hmore, Hrest.
Qed.

Lemma digitKeys_all_digits (actions : list Keyboard.Action) :
  Forall (fun k => JS.testSingleDigit k = true) (Keyboard.digitKeys actions).
Proof.
  unfold Keyboard.digitKeys.
  induction actions as [|[event|] actions IH]; simpl; auto.
  destruct (JS.testSingleDigit (Keyboard.key event)) eqn:E; simpl; auto.
Qed.

Lemma digitKeys_app (xs ys : list Keyboard.Action) :
  Keyboard.digitKeys (xs ++ ys) = Keyboard.digitKeys xs ++ Keyboard.digitKeys ys.
Proof. unfold Keyboard.digitKeys. apply omap_app. Qed.

Lemma run_app (xs ys : list Keyboard.Action) (h : Navigation.Hook) :
  Keyboard.run (xs ++ ys) h = Keyboard.run ys (Keyboard.run xs h).
Proof. unfold Keyboard.run. apply fold_left_app. Qed.

(** The invariant of every run from a fresh hook. *)
Lemma run_progress (p : JS.jsnum) (actions : list Keyboard.Action) :
  Keyboard.Progress p (Keyboard.digitKeys actions)
    (Keyboard.run actions (Navigation.useNavigation p)).
Proof.
  induction actions as [|a actions IH] using rev_ind.
  - apply Keyboard.Buffering; [simpl; lia | reflexivity].
  - rewrite run_app, digitKeys_app. simpl.
    destruct a as [event|]; simpl.
    + change (Keyboard.digitKeys [Keyboard.KeyDown event])
        with (if JS.testSingleDigit (Keyboard.key event)
              then [Keyboard.key event] else []).
      unfold Keyboard.handleKeyDown.
      destruct (JS.testSingleDigit (Keyboard.key event)) eqn:E; simpl.
      * apply progress_digit; [apply digitKeys_all_digits | exact E | exact IH].
      * now rewrite app_nil_r.
    + change (Keyboard.digitKeys [Keyboard.TimerFires]) with (@nil string).
      rewrite app_nil_r. now apply progress_timer.
Qed.

Lemma firstThree_cons3 (d1 d2 d3 : string) (more : list string) :
  Keyboard.firstThree (d1 :: d2 :: d3 :: more) = d1 +:+ d2 +:+ d3.
Proof.
  unfold Keyboard.firstThree, Keyboard.concatKeys. simpl.
  now rewrite app_empty_r.
Qed.

Lemma run_keys_pageChanges (events : list Keyboard.KeyboardEvent)
    (h : Navigation.Hook) :
  Navigation.pageChanges (Keyboard.run (map Keyboard.KeyDown events) h) =
  Navigation.pageChanges h.
Proof.
  revert h. induction events as [|event events IH]; intros h; [reflexivity|].
  simpl. rewrite IH. unfold Keyboard.handleKeyDown.
  destruct (JS.testSingleDigit (Keyboard.key event)); simpl;
    [apply addDigit_pageChanges | reflexivity].
Qed.

(** C2. A key event whose key is not a single character 0-9 leaves the hook
    (buffer, current page, pending timers, emitted page changes) untouched,
    whatever modifiers are held; the handler reads nothing but the key.  In
    every run of key events and expiring timers from a fresh hook, the first
    page change emitted is the base-10 value of the first three digit keys;
    and when all keys are delivered before the timers run, the hook ends on
    that page with an empty buffer, or, with fewer than three digit keys, on
    its initial page with exactly the digit keys in the buffer. *)
Theorem C2_only_digit_keys_navigate :
  (forall (event : Keyboard.KeyboardEvent) (h : Navigation.Hook),
      JS.testSingleDigit (Keyboard.key event) = false ->
      Keyboard.handleKeyDown event h = (h, false)) /\
  (forall (e1 e2 : Keyboard.KeyboardEvent) (h : Navigation.Hook),
      Keyboard.key e1 = Keyboard.key e2 ->
      Keyboard.handleKeyDown e1 h = Keyboard.handleKeyDown e2 h) /\
  (forall (p : JS.jsnum) (actions : list Keyboard.Action) first rest,
      Navigation.pageChanges (Keyboard.run actions (Navigation.useNavigation p)) =
        first :: rest ->
      exists d1 d2 d3 more,
        Keyboard.digitKeys actions = d1 :: d2 :: d3 :: more /\
        first = JS.parseInt (d1 +:+ d2 +:+ d3)) /\
  (forall (p : JS.jsnum) (events : list Keyboard.KeyboardEvent),
      let actions := map Keyboard.KeyDown events in
      let h := Keyboard.run (actions ++ [Keyboard.TimerFires; Keyboard.TimerFires])
                 (Navigation.useNavigation p) in
      Navigation.timers h = [] /\
      match Keyboard.digitKeys actions with
      | d1 :: d2 :: d3 :: _ =>
          Navigation.state h =
            Navigation.mkNavigationState (JS.parseInt (d1 +:+ d2 +:+ d3))
              EmptyString false /\
          Navigation.pageChanges h = [JS.parseInt (d1 +:+ d2 +:+ d3)]
      | keys =>
          Navigation.state h =
            Navigation.mkNavigationState p (Keyboard.concatKeys keys) false /\
          Navigation.pageChanges h = []
      end).
Proof.
  split; [|split; [|split]].
  - intros event h H. unfold Keyboard.handleKeyDown. now rewrite H.
  - intros e1 e2 h H. unfold Keyboard.handleKeyDown. now rewrite H.
  - intros p actions first rest Hlog.
    destruct (run_progress p actions) as [_ E|_ E|Hlen [more Hmore]].
    + rewrite E in Hlog. discriminate Hlog.
    + rewrite E in Hlog. discriminate Hlog.
    + destruct (Keyboard.digitKeys actions) as [|d1 [|d2 [|d3 keys]]];
        simpl in Hlen; try lia.
      exists d1, d2, d3, keys. split; [reflexivity|].
      rewrite firstThree_cons3 in Hmore. congruence.
  - intros p events actions h. subst h. rewrite run_app.
    pose proof (run_keys_pageChanges events (Navigation.useNavigation p)) as Hlog.
    fold actions in Hlog. simpl in Hlog.
    destruct (run_progress p actions) as [Hlen E|Hlen E|_ [more Hmore]].
    + rewrite E. simpl.
      destruct (Keyboard.digitKeys actions) as [|d1 [|d2 [|d3 keys]]];
        simpl in Hlen; try lia; auto.
    + rewrite E. simpl.
      destruct (Keyboard.digitKeys actions) as [|d1 [|d2 [|d3 keys]]];
        simpl in Hlen; try lia.
      rewrite firstThree_cons3. auto.
    + rewrite Hlog in Hmore. discriminate Hmore.
Qed.

Lemma C2_only_digit_keys_witness :
  Keyboard.handleKeyDown
    (Keyboard.mkKeyboardEvent "a" false true false false)
    (Navigation.useNavigation (JS.Num 100)) =
  (Navigation.useNavigation (JS.Num 100), false) /\
  Keyboard.handleKeyDown
    (Keyboard.mkKeyboardEvent "Enter" false false false false)
    (Navigation.useNavigation (JS.Num 100)) =
  (Navigation.useNavigation (JS.Num 100), false).
Proof.
  destruct C2_only_digit_keys_navigate as [Hignored _].
  split; apply Hignored; reflexivity.
Defined.

(** ** C4: color annotations in the content area *)

Lemma map_is_fmap {A B} (f : A -> B) (l : list A) : map f l = f <$> l.
Proof. induction l as [|x l IH]; simpl; [reflexivity | now rewrite IH]. Qed.

Lemma length_list_ascii_of_string (s : string) :
  length (list_ascii_of_string s) = String.length s.
Proof. induction s as [|c s IH]; simpl; [reflexivity | now rewrite IH]. Qed.

Lemma render_lookup {A} (hex : string -> A) (content : Content.PageContent)
    (i : nat) :
  Content.render hex content !! i =
  Content.renderLine hex (Content.colors content) i <$>
    (Formatters.truncateText <$> take 23 (Content.lines content) !! i).
Proof.
  unfold Content.render. rewrite list_lookup_imap, map_is_fmap, list_lookup_fmap.
  now rewrite truncateLines_take.
Qed.

Lemma renderLine_spans {A} (hex : string -> A)
    (colors : option (gmap nat (gmap nat string))) (i : nat) (line : string)
    (spans : list (Content.Span A)) :
  Content.renderLine hex colors i line = Content.SpanLine spans ->
  exists rows colorMap,
    colors = Some rows /\ rows !! (i + 2)%nat = Some colorMap /\
    spans = imap (Content.renderChar hex colorMap) (list_ascii_of_string line).
Proof.
  unfold Content.renderLine. destruct colors as [rows|]; simpl; [|discriminate].
  destruct (rows !! (i + 2)%nat) as [colorMap|] eqn:E; [|discriminate].
  intros H. injection H as <-. now exists rows, colorMap.
Qed.

Lemma renderChar_style {A} (hex : string -> A) (colorMap : gmap nat string)
    (j : nat) (c : ascii) (v : A) :
  Content.style (Content.renderChar hex colorMap j c) = Some v ->
  exists color,
    colorMap !! j = Some color /\ JS.truthy color = true /\ v = hex color.
Proof.
  unfold Content.renderChar. destruct (colorMap !! j) as [color|]; [|discriminate].
  destruct (JS.truthy color) eqn:E; simpl; [|discriminate].
  intros H. injection H as <-. now exists color.
Qed.

Lemma renderChar_style_truthy {A} (hex : string -> A) (colorMap : gmap nat string)
    (j : nat) (c : ascii) (color : string) :
  colorMap !! j = Some color -> JS.truthy color = true ->
  Content.renderChar hex colorMap j c = Content.mkSpan c (Some (hex color)).
Proof. intros H1 H2. unfold Content.renderChar. now rewrite H1, H2. Qed.

(** The rendered line at a row index and what it was rendered from. *)
Lemma ContentArea_row {A} (hex : string -> A) (content : Content.PageContent)
    (i : nat) (spans : list (Content.Span A)) :
  Content.render hex content !! i = Some (Content.SpanLine spans) ->
  (i < 23)%nat /\
  exists line rows colorMap,
    Content.lines content !! i = Some line /\
    Content.colors content = Some rows /\
    rows !! (i + 2)%nat = Some colorMap /\
    spans = imap (Content.renderChar hex colorMap)
              (list_ascii_of_string (Formatters.truncateText line)).
Proof.
  rewrite render_lookup. intros H.
  destruct (take 23 (Content.lines content) !! i) as [line|] eqn:E; [|discriminate].
  apply lookup_take_Some in E as [Hline Hi]. simpl in H. injection H as H.
  apply renderLine_spans in H as (rows & colorMap & Hc & Hr & Hs).
  split; [exact Hi|]. now exists line, rows, colorMap.
Qed.

(** C4, as stated, fails: the annotations ["purple"] and ["constructor"],
    neither of them a palette name, are passed to [getTeletextColorHex], and
    what the lookup returns is attached as the style of the character. *)
Lemma C4_counterexample :
  let content :=
    Content.mkPageContent ["HI"]
      (Some {[ 2%nat := {[ 0%nat := "purple"; 1%nat := "constructor" ]} ]}) in
  Content.hexLookupArguments content = ["purple"; "constructor"] /\
  ~ Forall (fun color => Colors.isValidTeletextColor color = true)
      (Content.hexLookupArguments content) /\
  Content.ContentArea content =
    [Content.SpanLine
       [Content.mkSpan "H"%char (Some Colors.VUndefined);
        Content.mkSpan "I"%char (Some (Colors.VInherited "constructor"))]].
Proof.
  cbv zeta.
  assert (Hargs :
    Content.hexLookupArguments
      (Content.mkPageContent ["HI"]
         (Some {[ 2%nat := {[ 0%nat := "purple"; 1%nat := "constructor" ]} ]}))
    = ["purple"; "constructor"]) by (vm_compute; reflexivity).
  split; [exact Hargs|]. split.
  - rewrite Hargs. intros H. inversion H as [|? ? Hpurple _]; subst.
    vm_compute in Hpurple. discriminate Hpurple.
  - vm_compute. reflexivity.
Qed.

Lemma ContentArea_row_spans {A} (hex : string -> A) (content : Content.PageContent)
    (i : nat) (line : string) (rows : gmap nat (gmap nat string))
    (colorMap : gmap nat string) :
  Content.lines content !! i = Some line ->
  (i < 23)%nat ->
  Content.colors content = Some rows ->
  rows !! (i + 2)%nat = Some colorMap ->
  Content.render hex content !! i =
  Some (Content.SpanLine
          (imap (Content.renderChar hex colorMap)
             (list_ascii_of_string (Formatters.truncateText line)))).
Proof.
  intros Hl Hi Hc Hr.
  rewrite render_lookup, lookup_take_lt, Hl by exact Hi. simpl.
  unfold Content.renderLine. rewrite Hc. simpl. now rewrite Hr.
Qed.

Lemma truncateText_char (line : string) (j : nat) :
  (j < 40)%nat ->
  list_ascii_of_string (Formatters.truncateText line) !! j =
  list_ascii_of_string line !! j.
Proof.
  intros Hj. unfold Formatters.truncateText.
  destruct (Nat.leb_spec (JS.strlen line) GRID.COLUMNS) as [Hs|Hs]; [reflexivity|].
  rewrite js_substring_from0. unfold GRID.COLUMNS in *. unfold JS.strlen in Hs.
  revert j Hj Hs. generalize 40%nat as n.
  induction line as [|c line IH]; intros n j Hj Hs; [destruct n; reflexivity|].
  destruct n as [|n]; [lia|]. simpl. destruct j as [|j]; [reflexivity|].
  simpl in Hs. apply IH; lia.
Qed.

(** C4, amended. A color is attached only to a character that lies within
    the truncated bounds (row index below 23 and within the lines, column
    below 40 and within the line) and that has a non-empty annotation at
    (row + 2, column); the attached value is [getTeletextColorHex] of that
    annotation, called without any palette validation, and it is the palette
    hex whenever the annotation is one of the eight palette names.
    Conversely every character within those bounds that has a non-empty
    annotation is rendered with [getTeletextColorHex] of the annotation
    attached, whether or not the annotation is a palette name, and every
    other character of a row is rendered without a color; the render yields
    a row for each of the first 23 lines. *)
Theorem C4_colors_attached_within_bounds (content : Content.PageContent)
    (i j : nat) :
  (forall (spans : list (Content.Span Colors.jsval))
          (sp : Content.Span Colors.jsval) (v : Colors.jsval),
     Content.ContentArea content !! i = Some (Content.SpanLine spans) ->
     spans !! j = Some sp ->
     Content.style sp = Some v ->
     (i < 23)%nat /\ (j < 40)%nat /\
     exists line rows colorMap color,
       Content.lines content !! i = Some line /\
       (j < JS.strlen line)%nat /\
       Content.colors content = Some rows /\
       rows !! (i + 2)%nat = Some colorMap /\
       colorMap !! j = Some color /\
       JS.truthy color = true /\
       v = Colors.getTeletextColorHex color /\
       In color (Content.hexLookupArguments content) /\
       (Colors.isValidTeletextColor color = true ->
        exists hex, v = Colors.VString hex /\
                    In (color, hex) Colors.TELETEXT_COLORS_entries)) /\
  (forall (line : string) (rows : gmap nat (gmap nat string))
          (colorMap : gmap nat string) (c : ascii),
     (i < 23)%nat -> (j < 40)%nat ->
     Content.lines content !! i = Some line ->
     list_ascii_of_string line !! j = Some c ->
     Content.colors content = Some rows ->
     rows !! (i + 2)%nat = Some colorMap ->
     exists spans,
       Content.ContentArea content !! i = Some (Content.SpanLine spans) /\
       spans !! j =
         Some (Content.mkSpan c
                 match colorMap !! j with
                 | Some color =>
                     if JS.truthy color
                     then Some (Colors.getTeletextColorHex color)
                     else None
                 | None => None
                 end) /\
       (forall color,
          colorMap !! j = Some color -> JS.truthy color = true ->
          In color (Content.hexLookupArguments content))) /\
  length (Content.ContentArea content) =
    Nat.min 23 (length (Content.lines content)).
Proof.
  split; [|split].
  - intros spans sp v Hrow Hspan Hstyle. unfold Content.ContentArea in Hrow.
    pose proof Hrow as Hrow'.
    apply ContentArea_row in Hrow as (Hi & line & rows & colorMap & Hl & Hc & Hr & ->).
    rewrite list_lookup_imap in Hspan.
    destruct (list_ascii_of_string (Formatters.truncateText line) !! j) as [c|] eqn:Ec;
      [|discriminate].
    simpl in Hspan. injection Hspan as <-.
    apply renderChar_style in Hstyle as (color & Hcolor & Htruthy & ->).
    apply lookup_lt_Some in Ec as Hj. rewrite length_list_ascii_of_string in Hj.
    pose proof (truncateText_length line) as H40. unfold JS.strlen in H40.
    assert (Hjline : (j < JS.strlen line)%nat).
    { destruct (Nat.le_gt_cases (JS.strlen line) 40) as [Hs|Hs].
      - now rewrite truncateText_short in Hj.
      - unfold JS.strlen in *. lia. }
    split; [exact Hi|]. split; [lia|].
    exists line, rows, colorMap, color.
    repeat (split; [assumption || reflexivity|]).
    split.
    + unfold Content.hexLookupArguments. apply in_concat.
      exists (Content.lineStyles
                (Content.SpanLine
                   (imap (Content.renderChar (fun color => color) colorMap)
                      (list_ascii_of_string (Formatters.truncateText line))))).
      split.
      * apply in_map, list_elem_of_In, list_elem_of_lookup. exists i.
        now apply ContentArea_row_spans with (rows := rows).
      * simpl. apply list_elem_of_In, list_elem_of_omap.
        exists (Content.mkSpan c (Some color)). split; [|reflexivity].
        apply list_elem_of_lookup. exists j.
        rewrite list_lookup_imap, Ec. simpl.
        now rewrite (renderChar_style_truthy _ _ _ _ color).
    + intros Hvalid. unfold Colors.isValidTeletextColor in Hvalid.
      apply bool_decide_eq_true in Hvalid as [hex Hhex].
      exists hex. split.
      * unfold Colors.getTeletextColorHex. now rewrite Hhex.
      * now apply TELETEXT_COLORS_lookup.
  - intros line rows colorMap c Hi Hj Hl Hchar Hc Hr.
    assert (Hchar' : list_ascii_of_string (Formatters.truncateText line) !! j = Some c)
      by (rewrite truncateText_char by exact Hj; exact Hchar).
    exists (imap (Content.renderChar Colors.getTeletextColorHex colorMap)
              (list_ascii_of_string (Formatters.truncateText line))).
    split; [|split].
    + unfold Content.ContentArea.
      now apply ContentArea_row_spans with (rows := rows).
    + rewrite list_lookup_imap, Hchar'. simpl. unfold Content.renderChar.
      destruct (colorMap !! j) as [color|]; [|reflexivity].
      now destruct (JS.truthy color).
    + intros color Hcolor Htruthy.
      unfold Content.hexLookupArguments. apply in_concat.
      exists (Content.lineStyles
                (Content.SpanLine
                   (imap (Content.renderChar (fun color => color) colorMap)
                      (list_ascii_of_string (Formatters.truncateText line))))).
      split.
      * apply in_map, list_elem_of_In, list_elem_of_lookup. exists i.
        now apply ContentArea_row_spans with (rows := rows).
      * simpl. apply list_elem_of_In, list_elem_of_omap.
        exists (Content.mkSpan c (Some color)). split; [|reflexivity].
        apply list_elem_of_lookup. exists j.
        rewrite list_lookup_imap, Hchar'. simpl.
        now rewrite (renderChar_style_truthy _ _ _ _ color).
  - unfold Content.ContentArea, Content.render.
    rewrite length_imap, length_map, truncateLines_take, length_take. reflexivity.
Qed.

Lemma C4_colors_attached_witness :
  let content :=
    Content.mkPageContent ["HI"]
      (Some {[ 2%nat := {[ 0%nat := "purple"; 1%nat := "cyan" ]} ]}) in
  exists spans,
    Content.ContentArea content !! 0%nat = Some (Content.SpanLine spans) /\
    spans !! 1%nat =
      Some (Content.mkSpan "I"%char (Some (Colors.VString "#00FFFF"))) /\
    In "cyan" (Content.hexLookupArguments content).
Proof.
  intros content.
  destruct (C4_colors_attached_within_bounds content 0%nat 1%nat) as (_ & Hevery & _).
  destruct (Hevery "HI" {[ 2%nat := {[ 0%nat := "purple"; 1%nat := "cyan" ]} ]}
              {[ 0%nat := "purple"; 1%nat := "cyan" ]} "I"%char)
    as (spans & Hrow & Hspan & Hargs);
    [lia | lia | reflexivity | reflexivity | reflexivity | vm_compute; reflexivity|].
  exists spans. split; [exact Hrow|]. split; [exact Hspan|].
  apply Hargs; vm_compute; reflexivity.
Defined.

(** ** C10: word wrapping *)

Lemma substring_length_le (n m : nat) (s : string) :
  (String.length (String.substring n m s) <= m)%nat.
Proof.
  revert n m. induction s as [|c s IH]; intros [|n] [|m]; simpl; try lia.
  - specialize (IH 0%nat m). lia.
  - apply (IH n 0%nat).
  - apply (IH n (S m)).
Qed.

Lemma js_substring_length (s : string) (i width : nat) :
  (JS.strlen (JS.substring s i (i + width)) <= width)%nat.
Proof.
  unfold JS.strlen, JS.substring.
  pose proof (substring_length_le
                (Nat.min (Nat.min i (String.length s))
                         (Nat.min (i + width) (String.length s)))
                (Nat.max (Nat.min i (String.length s))
                         (Nat.min (i + width) (String.length s))
                 - Nat.min (Nat.min i (String.length s))
                           (Nat.min (i + width) (String.length s))) s).
  lia.
Qed.

Section WordWrap.
Variable width : nat.
Hypothesis width_positive : (1 <= width)%nat.

Local Abbreviation fits := (Api.fits width).

Lemma breakWord_fits (fuel : nat) (word : string) (i : nat) (lines : list string) :
  (JS.strlen word - i <= fuel)%nat ->
  Forall fits lines ->
  exists lines',
    Api.breakWord fuel word width i lines = Some lines' /\ Forall fits lines'.
Proof.
  revert i lines. induction fuel as [|fuel IH]; intros i lines Hfuel Hlines.
  - simpl. destruct (Nat.ltb_spec i (JS.strlen word)); [lia|]. now exists lines.
  - simpl. destruct (Nat.ltb_spec i (JS.strlen word)); [|now exists lines].
    apply IH; [lia|]. apply Forall_app. split; [exact Hlines|].
    constructor; [apply js_substring_length | constructor].
Qed.

Lemma push_fits (lines : list string) (line : string) :
  Forall fits lines -> fits line ->
  Forall fits (if JS.truthy line then lines ++ [line] else lines).
Proof.
  intros Hlines Hline. destruct (JS.truthy line); [|exact Hlines].
  apply Forall_app. split; [exact Hlines | now constructor].
Qed.

Lemma wrapWord_fits (fuel : nat) (lines : list string) (currentLine word : string) :
  (JS.strlen word <= fuel)%nat ->
  Forall fits lines -> fits currentLine ->
  exists lines' currentLine',
    Api.wrapWord fuel width (lines, currentLine) word = Some (lines', currentLine') /\
    Forall fits lines' /\ fits currentLine'.
Proof.
  intros Hfuel Hlines Hcur. unfold Api.wrapWord.
  destruct (Nat.ltb_spec width (JS.strlen word)) as [Hlong|Hshort].
  - destruct (breakWord_fits fuel word 0
                (if JS.truthy currentLine then lines ++ [currentLine] else lines))
      as (lines' & -> & Hlines'); [lia | now apply push_fits|].
    simpl. exists lines', EmptyString. repeat split; [exact Hlines'|].
    unfold Api.fits. simpl. lia.
  - match goal with |- context [(JS.strlen ?t <=? width)%nat] =>
      destruct (Nat.leb_spec (JS.strlen t) width) as [Hfit|Hover] end.
    + eexists _, _. repeat split; [exact Hlines | exact Hfit].
    + eexists _, _. repeat split; [now apply push_fits | exact Hshort].
Qed.

Lemma wrapWords_fits (fuel : nat) (words : list string) (lines : list string)
    (currentLine : string) :
  Forall (fun word => (JS.strlen word <= fuel)%nat) words ->
  Forall fits lines -> fits currentLine ->
  exists lines' currentLine',
    Api.wrapWords fuel width (lines, currentLine) words = Some (lines', currentLine') /\
    Forall fits lines' /\ fits currentLine'.
Proof.
  intros Hwords. revert lines currentLine.
  induction Hwords as [|word words Hword _ IH]; intros lines currentLine Hlines Hcur.
  - now exists lines, currentLine.
  - destruct (wrapWord_fits fuel lines currentLine word Hword Hlines Hcur)
      as (lines1 & cur1 & Hstep & Hlines1 & Hcur1).
    cbn [Api.wrapWords]. rewrite Hstep. now apply IH.
Qed.

End WordWrap.

(** Cleaning never lengthens the text, and no word is longer than the text
    it is split from. *)

Lemma stripTagsFrom_length (skip : nat) (s : string) :
  (JS.strlen (Api.stripTagsFrom skip s) <= JS.strlen s)%nat.
Proof.
  unfold JS.strlen. revert skip. induction s as [|c s IH]; intros skip; simpl; [lia|].
  destruct skip as [|k].
  - destruct (Ascii.eqb c "<").
    + destruct (Api.indexOfChar ">" s) as [k|].
      * specialize (IH (S k)). lia.
      * simpl. specialize (IH 0%nat). lia.
    + simpl. specialize (IH 0%nat). lia.
  - specialize (IH k). lia.
Qed.

Lemma replaceAllFrom_length (pat rep : string) (skip : nat) (s : string) :
  (JS.strlen rep <= 1)%nat ->
  (JS.strlen (Api.replaceAllFrom pat rep skip s) <= JS.strlen s)%nat.
Proof.
  intros Hrep. revert skip. induction s as [|c s IH]; intros skip; [simpl; lia|].
  cbn [Api.replaceAllFrom]. destruct skip as [|k].
  - destruct (String.prefix pat (String c s)).
    + rewrite strlen_app. specialize (IH (String.length pat - 1)%nat).
      change (JS.strlen (String c s)) with (S (JS.strlen s)). lia.
    + change (JS.strlen (String c ?t)) with (S (JS.strlen t)).
      specialize (IH 0%nat). change (JS.strlen (String c s)) with (S (JS.strlen s)). lia.
  - specialize (IH k). change (JS.strlen (String c s)) with (S (JS.strlen s)). lia.
Qed.

Lemma replaceAll_length (pat rep s : string) :
  (JS.strlen rep <= 1)%nat ->
  (JS.strlen (Api.replaceAll pat rep s) <= JS.strlen s)%nat.
Proof. apply replaceAllFrom_length. Qed.

Lemma collapseWhitespaceFrom_length (inRun : bool) (s : string) :
  (JS.strlen (Api.collapseWhitespaceFrom inRun s) <= JS.strlen s)%nat.
Proof.
  unfold JS.strlen. revert inRun. induction s as [|c s IH]; intros inRun; simpl; [lia|].
  destruct (JS.isWhitespace c), inRun; simpl;
    try (specialize (IH true); lia); specialize (IH false); lia.
Qed.

Lemma trimStart_length (s : string) :
  (JS.strlen (JS.trimStart s) <= JS.strlen s)%nat.
Proof.
  unfold JS.strlen. induction s as [|c s IH]; simpl; [lia|].
  destruct (JS.isWhitespace c); simpl; lia.
Qed.

Lemma trimEnd_length (s : string) :
  (JS.strlen (Api.trimEnd s) <= JS.strlen s)%nat.
Proof.
  unfold JS.strlen. induction s as [|c s IH]; simpl; [lia|].
  destruct (Api.trimEnd s); [destruct (JS.isWhitespace c)|]; simpl in *; lia.
Qed.

Lemma cleanText_length (text : string) :
  (JS.strlen (Api.cleanText text) <= JS.strlen text)%nat.
Proof.
  unfold Api.cleanText, Api.trim, Api.collapseWhitespace, Api.stripTags.
  repeat first
    [ apply stripTagsFrom_length
    | etransitivity; [apply trimEnd_length|]
    | etransitivity; [apply trimStart_length|]
    | etransitivity; [apply collapseWhitespaceFrom_length|]
    | etransitivity; [apply replaceAll_length; vm_compute; lia|] ].
Qed.

Lemma splitSpace_length (s : string) :
  Forall (fun word => (JS.strlen word <= JS.strlen s)%nat) (Api.splitSpace s).
Proof.
  unfold JS.strlen. induction s as [|c s IH]; simpl.
  - constructor; [simpl; lia | constructor].
  - destruct (Ascii.eqb c " ").
    + constructor; [simpl; lia|].
      eapply List.Forall_impl; [|exact IH]. simpl. intros. lia.
    + destruct (Api.splitSpace s) as [|w ws].
      * constructor; [simpl; lia | constructor].
      * inversion IH as [|? ? Hw Hws]; subst.
        constructor; [simpl; lia|].
        eapply List.Forall_impl; [|exact Hws]. simpl. intros. lia.
Qed.

Lemma wordWrap_fits (text : string) (width fuel : nat) :
  (1 <= width)%nat ->
  (JS.strlen text <= fuel)%nat ->
  exists lines,
    Api.wordWrap fuel text width = Some lines /\ Forall (Api.fits width) lines.
Proof.
  intros Hwidth Hfuel. unfold Api.wordWrap.
  destruct (negb (JS.truthy text)); [exists []; split; [reflexivity | constructor]|].
  destruct (wrapWords_fits width Hwidth fuel (Api.splitSpace (Api.cleanText text))
              [] EmptyString) as (lines & currentLine & -> & Hlines & Hcur).
  - eapply List.Forall_impl; [|apply splitSpace_length].
    simpl. intros word Hword. pose proof (cleanText_length text). lia.
  - constructor.
  - unfold Api.fits. simpl. lia.
  - simpl. eexists. split; [reflexivity|].
    apply (push_fits width); assumption.
Qed.

(** ** C6: failure of a dynamic content loader *)

Lemma namesPageNumber_false (lines : list string) :
  Screen.namesPageNumber lines = false ->
  ~ exists (n : Z) (line : string),
      0 <= n <= 999 /\ In line lines /\ JS.includes line (JS.toString n) = true.
Proof.
  intros Hfalse (n & line & Hn & Hline & Hinc).
  assert (Htrue : Screen.namesPageNumber lines = true); [|congruence].
  unfold Screen.namesPageNumber. apply existsb_exists.
  exists (Z.to_nat n). split; [apply in_seq; lia|].
  apply existsb_exists. exists line. split; [exact Hline|].
  rewrite Z2Nat.id by lia. exact Hinc.
Qed.

Lemma fallbackContent_names_no_page :
  Screen.namesPageNumber Screen.fallbackContent = false.
Proof. vm_compute. reflexivity. Qed.

(** C6, as stated, fails: when the loader of page 200 rejects, the content
    substituted by the sequencer is the block "ERROR LOADING CONTENT", "",
    "Please try again later.", and no line of it contains a page number. *)
Lemma C6_counterexample :
  let s0 := Screen.mkTeletextScreen Screen.loading 100 true None false [] in
  let result :=
    Screen.showPage (fun _ => []) (fun _ => []) (fun _ => [])
      (fun _ => Screen.Rejected "network error") 200 s0 in
  Screen.dynamicContentState (fst result) =
    Some ["ERROR LOADING CONTENT"; ""; "Please try again later."] /\
  ~ exists (n : Z) (line : string),
      0 <= n <= 999 /\
      In line ["ERROR LOADING CONTENT"; ""; "Please try again later."] /\
      JS.includes line (JS.toString n) = true.
Proof.
  cbv zeta. split; [vm_compute; reflexivity|].
  apply (namesPageNumber_false Screen.fallbackContent).
  exact fallbackContent_names_no_page.
Qed.

(** C6, amended. When the loader of the target page rejects or throws, the
    sequencer's timer callback still puts the screen in the display state on
    that page, logs the failure to the console, replaces the dynamic content
    by the fixed block "ERROR LOADING CONTENT", "", "Please try again
    later.", clears the loading flag, and returns normally: nothing is
    raised out of it.  That block is then the content the component
    renders. *)
Theorem C6_loader_failure_falls_back
    (getNewsDetailPage getTechDetailPage getSportsDetailPage : Z -> list string)
    (call : Registry.DynamicContentLoader -> Screen.Settlement)
    (pageNumber : Z) (loader : Registry.DynamicContentLoader) (reason : string)
    (s : Screen.TeletextScreen) :
  Registry.dynamicContent
    (Registry.getPage getNewsDetailPage getTechDetailPage getSportsDetailPage
       pageNumber) = Some loader ->
  call loader = Screen.Rejected reason \/ call loader = Screen.Threw reason ->
  Screen.showPage getNewsDetailPage getTechDetailPage getSportsDetailPage call
    pageNumber s =
  (Screen.mkTeletextScreen Screen.display pageNumber (Screen.isInitialized s)
     (Some ["ERROR LOADING CONTENT"; ""; "Please try again later."]) false
     (Screen.console s ++ ["Failed to load dynamic content:"]),
   Screen.Returned tt) /\
  Screen.originalContent getNewsDetailPage getTechDetailPage getSportsDetailPage
    (fst (Screen.showPage getNewsDetailPage getTechDetailPage getSportsDetailPage
            call pageNumber s)) =
  ["ERROR LOADING CONTENT"; ""; "Please try again later."].
Proof.
  intros Hloader Hfail.
  assert (Hshow :
    Screen.showPage getNewsDetailPage getTechDetailPage getSportsDetailPage call
      pageNumber s =
    (Screen.mkTeletextScreen Screen.display pageNumber (Screen.isInitialized s)
       (Some Screen.fallbackContent) false
       (Screen.console s ++ ["Failed to load dynamic content:"]),
     Screen.Returned tt)).
  { unfold Screen.showPage, Screen.loadDynamicContent. rewrite Hloader.
    unfold Screen.bind, Screen.tryCatchFinally, Screen.setDisplayedPage,
      Screen.setScreenState, Screen.setIsLoadingDynamic, Screen.setDynamicContent.
    cbn -[Screen.await].
    destruct Hfail as [-> | ->]; reflexivity. }
  rewrite Hshow. split; reflexivity.
Qed.

Lemma C6_loader_failure_witness :
  Screen.showPage (fun _ => []) (fun _ => []) (fun _ => [])
    (fun _ => Screen.Threw "TypeError") 400
    (Screen.mkTeletextScreen Screen.loading 100 true None false []) =
  (Screen.mkTeletextScreen Screen.display 400 true
     (Some ["ERROR LOADING CONTENT"; ""; "Please try again later."]) false
     ([] ++ ["Failed to load dynamic content:"]),
   Screen.Returned tt) /\
  Screen.originalContent (fun _ => []) (fun _ => []) (fun _ => [])
    (fst (Screen.showPage (fun _ => []) (fun _ => []) (fun _ => [])
            (fun _ => Screen.Threw "TypeError") 400
            (Screen.mkTeletextScreen Screen.loading 100 true None false []))) =
  ["ERROR LOADING CONTENT"; ""; "Please try again later."].
Proof.
  apply (C6_loader_failure_falls_back (fun _ => []) (fun _ => []) (fun _ => [])
           (fun _ => Screen.Threw "TypeError") 400 Registry.fetchWeather "TypeError"
           (Screen.mkTeletextScreen Screen.loading 100 true None false [])).
  - vm_compute. reflexivity.
  - right. reflexivity.
Defined.

(** ** Worked examples *)

Example toString_examples :
  JS.toString 7 = "7" /\ JS.toString 0 = "0" /\ JS.toString 999 = "999".
Proof. repeat split. Qed.

Example parseInt_examples :
  JS.parseInt "007" = JS.Num 7 /\ JS.parseInt "300" = JS.Num 300 /\
  JS.parseInt "x12" = JS.NaN /\ JS.parseInt " -42px" = JS.Num (-42).
Proof. repeat split. Qed.

Example formatPageNumber_example : Formatters.formatPageNumber 7 = "P007".
Proof. reflexivity. Qed.

Example formatTime_example :
  Formatters.formatTime (Formatters.mkDate 9 5 0) = "09:05:00".
Proof. reflexivity. Qed.

Example formatBuffer_examples :
  Formatters.formatBuffer "" = "" /\ Formatters.formatBuffer "1" = "1.." /\
  Formatters.formatBuffer "10" = "10." /\ Formatters.formatBuffer "123" = "123".
Proof. repeat split. Qed.

Example Header_example :
  HeaderComponent.Header "TELETEXT ZERO" 100 (Formatters.mkDate 9 5 0) =
  Some "TELETEXT ZERO       P100        09:05:00".
Proof. vm_compute. reflexivity. Qed.

(** A page name that leaves no room makes [repeat] raise. *)
Example Header_overlong :
  HeaderComponent.Header "A PAGE NAME OF THIRTY CHARACTERS" 100
    (Formatters.mkDate 9 5 0) = None.
Proof. vm_compute. reflexivity. Qed.

Example wordWrap_examples :
  Api.wordWrap 100 "The <b>quick</b>  brown&amp;fox jumps   over the lazy dog" 10
    = Some ["The quick"; "brown&fox"; "jumps over"; "the lazy"; "dog"] /\
  Api.wordWrap 100 "abcdefghijklmnopqrstuvwxyz hi" 10
    = Some ["abcdefghij"; "klmnopqrst"; "uvwxyz"; "hi"] /\
  Api.wordWrap 100 "   " 10 = Some [] /\
  Api.wordWrap 100 "" 10 = Some [].
Proof. repeat split. Qed.

(** With [width = 0] the chunking loop never advances: no amount of fuel
    lets it finish. *)
Example wordWrap_width_zero (fuel : nat) : Api.wordWrap fuel "abc" 0 = None.
Proof.
  unfold Api.wordWrap. simpl.
  assert (H : forall lines, Api.breakWord fuel "abc" 0 0 lines = None).
  { induction fuel as [|fuel IH]; intros lines; simpl; [reflexivity | apply IH]. }
  unfold Api.wrapWord. simpl. now rewrite H.
Qed.

Example keys_then_timers :
  Navigation.state
    (Keyboard.run
       (map Keyboard.KeyDown
          [Keyboard.mkKeyboardEvent "3" false false false false;
           Keyboard.mkKeyboardEvent "x" false false false false;
           Keyboard.mkKeyboardEvent "0" false true false false;
           Keyboard.mkKeyboardEvent "Shift" true false false false;
           Keyboard.mkKeyboardEvent "5" false false false false;
           Keyboard.mkKeyboardEvent "9" false false false false]
        ++ [Keyboard.TimerFires; Keyboard.TimerFires])
       (Navigation.useNavigation (JS.Num 100)))
  = Navigation.mkNavigationState (JS.Num 305) "" false.
Proof. vm_compute. reflexivity. Qed.

Example getPage_registered :
  Registry.title (Registry.getPage (fun _ => []) (fun _ => []) (fun _ => []) 666)
  = "System Diagnostics".
Proof. vm_compute. reflexivity. Qed.

(** * Further properties of the code *)

(** ** utils/formatters.ts and components/PageBuffer.tsx *)

Lemma formatBuffer_cases (buffer : string) :
  (1 <= JS.strlen buffer <= 3)%nat ->
  Formatters.formatBuffer buffer =
  buffer +:+ JS.replicateChar "." (3 - JS.strlen buffer).
Proof.
  intros H. unfold Formatters.formatBuffer.
  destruct (JS.strlen buffer) as [|[|[|[|n]]]] eqn:E; simpl; try lia;
    try reflexivity.
  now rewrite app_empty_r.
Qed.

(** X1. The overlay is absent exactly for the empty buffer; for a buffer of
    one to three characters it shows the buffer followed by as many dots as
    make three characters. *)
Theorem overlay_shows_three_characters (buffer : string) :
  (PageBufferComponent.overlay buffer = None <-> buffer = EmptyString) /\
  ((1 <= JS.strlen buffer <= 3)%nat ->
   PageBufferComponent.overlay buffer =
     Some (buffer +:+ JS.replicateChar "." (3 - JS.strlen buffer)) /\
   JS.strlen (buffer +:+ JS.replicateChar "." (3 - JS.strlen buffer)) = 3%nat).
Proof.
  split.
  - unfold PageBufferComponent.overlay, PageBufferComponent.PageBuffer,
      Formatters.formatBuffer.
    destruct buffer as [|a [|b [|c rest]]]; simpl; split; intros H;
      try reflexivity; try discriminate H.
  - intros H. split.
    + unfold PageBufferComponent.overlay, PageBufferComponent.PageBuffer.
      rewrite formatBuffer_cases by exact H.
      destruct buffer as [|a rest]; [simpl in H; lia|]. reflexivity.
    + rewrite strlen_app, strlen_replicateChar. lia.
Qed.

Lemma overlay_shows_witness :
  PageBufferComponent.overlay "3" = Some ("3" +:+ JS.replicateChar "." (3 - JS.strlen "3")) /\
  JS.strlen ("3" +:+ JS.replicateChar "." (3 - JS.strlen "3")) = 3%nat.
Proof.
  apply (proj2 (overlay_shows_three_characters "3")). vm_compute. lia.
Defined.

(** ** components/Header.tsx *)

(** X2. For every page name, every integer page number that a [number]
    holds exactly (below 2^53 in absolute value, where [toString] prints
    its decimal digits) and every time of day, the header is built exactly
    when its three sections take at most 40 characters together, and then
    it has 40 characters; when they take more, [repeat] is called with a
    negative count and raises a RangeError. *)
Theorem Header_defined_iff_sections_fit (pageName : string) (pageNumber : Z)
    (currentTime : Formatters.Date) :
  - 2 ^ 53 < pageNumber < 2 ^ 53 ->
  Formatters.validTime currentTime ->
  let used :=
    (JS.strlen pageName + JS.strlen (Formatters.formatPageNumber pageNumber)
     + JS.strlen (Formatters.formatTime currentTime))%nat in
  ((used <= 40)%nat ->
   exists header,
     HeaderComponent.Header pageName pageNumber currentTime = Some header /\
     JS.strlen header = 40%nat) /\
  ((40 < used)%nat ->
   HeaderComponent.Header pageName pageNumber currentTime = None).
Proof.
  intros _ _ used. unfold HeaderComponent.Header. fold used.
  set (total := Z.of_nat GRID.COLUMNS - Z.of_nat used).
  assert (Htotal : total = 40 - Z.of_nat used) by reflexivity.
  pose proof (Z.div_mod total 2) as Hdm.
  pose proof (Z.mod_pos_bound total 2) as Hmb.
  split; intros Hused.
  - rewrite (repeatSpace_nonneg (total / 2)) by lia.
    rewrite (repeatSpace_nonneg (total - total / 2)) by lia.
    eexists. split; [reflexivity|].
    rewrite !strlen_app, !strlen_replicateChar. fold used. lia.
  - unfold JS.repeatSpace.
    destruct (Z.ltb_spec (total / 2) 0); [reflexivity | lia].
Qed.

Lemma Header_defined_witness :
  (exists header,
      HeaderComponent.Header "TELETEXT ZERO" 300 (Formatters.mkDate 23 59 59)
        = Some header /\ JS.strlen header = 40%nat) /\
  HeaderComponent.Header "A PAGE NAME OF THIRTY CHARACTERS" 12345
    (Formatters.mkDate 23 59 59) = None.
Proof.
  split.
  - apply (proj1 (Header_defined_iff_sections_fit "TELETEXT ZERO" 300
                    (Formatters.mkDate 23 59 59) ltac:(lia)
                    ltac:(unfold Formatters.validTime; simpl; lia))).
    vm_compute. lia.
  - apply (proj2 (Header_defined_iff_sections_fit
                    "A PAGE NAME OF THIRTY CHARACTERS" 12345
                    (Formatters.mkDate 23 59 59) ltac:(lia)
                    ltac:(unfold Formatters.validTime; simpl; lia))).
    vm_compute. lia.
Defined.

(** ** hooks/useNavigation.ts: invariants of the hook *)

Lemma allDigits_app (a b : string) :
  NavigationRuns.allDigits (a +:+ b) =
  NavigationRuns.allDigits a && NavigationRuns.allDigits b.
Proof.
  induction a as [|c a IH]; [reflexivity|].
  rewrite app_cons. simpl. rewrite IH. now rewrite andb_assoc.
Qed.

Lemma digitValue_range (c : ascii) :
  JS.isDigit c = true -> 0 <= JS.digitValue c <= 9.
Proof.
  unfold JS.isDigit, JS.digitValue. intros H.
  apply andb_true_iff in H as [H1 H2].
  apply Nat.leb_le in H1, H2. lia.
Qed.

Lemma parseInt_full_buffer (buffer : string) :
  JS.strlen buffer = 3%nat ->
  NavigationRuns.allDigits buffer = true ->
  NavigationRuns.typedPage (JS.parseInt buffer).
Proof.
  destruct buffer as [|a [|b [|c [|d rest]]]]; simpl; try discriminate.
  intros _ H.
  apply andb_true_iff in H as [Ha H]. apply andb_true_iff in H as [Hb H].
  apply andb_true_iff in H as [Hc _].
  rewrite parseInt_three_digits by assumption.
  pose proof (digitValue_range a Ha). pose proof (digitValue_range b Hb).
  pose proof (digitValue_range c Hc).
  eexists. split; [reflexivity | lia].
Qed.

Lemma wellFormed_useNavigation (p : JS.jsnum) :
  NavigationRuns.wellFormed (Navigation.useNavigation p).
Proof.
  unfold NavigationRuns.wellFormed. simpl.
  repeat split; try lia; try discriminate; try contradiction.
Qed.

Lemma wellFormed_addDigit (digit : string) (h : Navigation.Hook) :
  NavigationRuns.wellFormed h ->
  NavigationRuns.wellFormed (Navigation.addDigit digit h).
Proof.
  intros (Hlen & Hdigits & Hflag & Hfull & Htyped).
  destruct (JS.testSingleDigit digit) eqn:Hdigit;
    [|rewrite addDigit_not_digit by exact Hdigit; repeat split; assumption].
  destruct (Nat.le_gt_cases 3 (JS.strlen (Navigation.pageBuffer (Navigation.state h))))
    as [Hge|Hlt];
    [rewrite addDigit_full by exact Hge; repeat split; assumption|].
  rewrite addDigit_append by assumption.
  destruct (testSingleDigit_inv digit Hdigit) as (c & -> & Hc).
  assert (Hdigits' :
    NavigationRuns.allDigits
      (Navigation.pageBuffer (Navigation.state h) +:+ String c EmptyString) = true).
  { rewrite allDigits_app, Hdigits. simpl. now rewrite Hc. }
  assert (Hlen' :
    JS.strlen (Navigation.pageBuffer (Navigation.state h) +:+ String c EmptyString)
    = S (JS.strlen (Navigation.pageBuffer (Navigation.state h)))).
  { rewrite strlen_app. simpl. lia. }
  unfold NavigationRuns.wellFormed. simpl. rewrite Hlen'.
  split; [lia|]. split; [exact Hdigits'|].
  destruct (Nat.eqb_spec (JS.strlen (Navigation.pageBuffer (Navigation.state h))) 2)
    as [E|E].
  - split; [intros H; apply in_or_app; left; now apply Hflag|].
    split; [intros _; apply in_or_app; right; now left|].
    intros n Hn. apply in_app_or in Hn as [Hn|[Hn|[]]]; [now apply Htyped|].
    injection Hn as <-. apply parseInt_full_buffer; [lia | exact Hdigits'].
  - split; [exact Hflag|]. split; [intros H; lia | exact Htyped].
Qed.

Lemma wellFormed_clearBuffer (h : Navigation.Hook) :
  NavigationRuns.wellFormed h ->
  NavigationRuns.wellFormed (Navigation.clearBuffer h).
Proof.
  intros (Hlen & Hdigits & Hflag & Hfull & Htyped).
  unfold NavigationRuns.wellFormed. simpl.
  split; [lia|]. split; [reflexivity|]. split; [exact Hflag|].
  split; [discriminate | exact Htyped].
Qed.

Lemma wellFormed_navigateToPage (n : JS.jsnum) (h : Navigation.Hook) :
  NavigationRuns.wellFormed h ->
  NavigationRuns.wellFormed (Navigation.navigateToPage n h).
Proof.
  intros (Hlen & Hdigits & Hflag & Hfull & Htyped).
  unfold NavigationRuns.wellFormed. simpl.
  split; [lia|]. split; [reflexivity|].
  split; [intros _; apply in_or_app; right; now left|].
  split; [discriminate|].
  intros m Hm. apply in_app_or in Hm as [Hm|[Hm|[]]]; [now apply Htyped | discriminate Hm].
Qed.

Lemma wellFormed_runTimer (h : Navigation.Hook) :
  NavigationRuns.wellFormed h ->
  NavigationRuns.wellFormed (Navigation.runTimer h).
Proof.
  intros (Hlen & Hdigits & Hflag & Hfull & Htyped).
  unfold Navigation.runTimer.
  destruct (Navigation.timers h) as [|[n|] rest] eqn:E.
  - unfold NavigationRuns.wellFormed. rewrite E. repeat split; assumption.
  - unfold NavigationRuns.wellFormed. simpl.
    split; [lia|]. split; [reflexivity|].
    split; [intros _; apply in_or_app; right; now left|].
    split; [discriminate|].
    intros m Hm. apply in_app_or in Hm as [Hm|[Hm|[]]]; [|discriminate Hm].
    apply Htyped. now right.
  - unfold NavigationRuns.wellFormed. simpl.
    split; [exact Hlen|]. split; [exact Hdigits|].
    split; [discriminate|]. split.
    + intros H. destruct (Hfull H) as [Hin|Hin]; [discriminate Hin | exact Hin].
    + intros m Hm. apply Htyped. now right.
Qed.

Lemma wellFormed_applyOp (h : Navigation.Hook) (op : NavigationRuns.Op) :
  NavigationRuns.wellFormed h ->
  NavigationRuns.wellFormed (NavigationRuns.applyOp h op).
Proof.
  destruct op; simpl;
    [apply wellFormed_addDigit | apply wellFormed_clearBuffer
    | apply wellFormed_navigateToPage | apply wellFormed_runTimer].
Qed.

Lemma wellFormed_runOps (ops : list NavigationRuns.Op) (h : Navigation.Hook) :
  NavigationRuns.wellFormed h ->
  NavigationRuns.wellFormed (NavigationRuns.runOps ops h).
Proof.
  revert h. induction ops as [|op ops IH]; intros h H; [exact H|].
  simpl. apply IH. now apply wellFormed_applyOp.
Qed.

(** X3. In every state the hook can reach from its initial state, through
    any sequence of [addDigit] (with any argument), [clearBuffer],
    [navigateToPage] and timer expiries, the buffer holds at most three
    characters, all of them digits, and a buffer of three digits has the
    timer pending that navigates to its value. *)
Theorem reachable_buffer_invariant (p : JS.jsnum) (ops : list NavigationRuns.Op) :
  let h := NavigationRuns.runOps ops (Navigation.useNavigation p) in
  (JS.strlen (Navigation.pageBuffer (Navigation.state h)) <= 3)%nat /\
  NavigationRuns.allDigits (Navigation.pageBuffer (Navigation.state h)) = true /\
  (JS.strlen (Navigation.pageBuffer (Navigation.state h)) = 3%nat ->
   In (Navigation.NavigateTimer
         (JS.parseInt (Navigation.pageBuffer (Navigation.state h))))
      (Navigation.timers h)).
Proof.
  intros h.
  destruct (wellFormed_runOps ops (Navigation.useNavigation p)
              (wellFormed_useNavigation p)) as (Hlen & Hdigits & _ & Hfull & _).
  auto.
Qed.

Lemma runOps_app (xs ys : list NavigationRuns.Op) (h : Navigation.Hook) :
  NavigationRuns.runOps (xs ++ ys) h =
  NavigationRuns.runOps ys (NavigationRuns.runOps xs h).
Proof. unfold NavigationRuns.runOps. apply fold_left_app. Qed.

Lemma requestedPages_app (xs ys : list NavigationRuns.Op) :
  NavigationRuns.requestedPages (xs ++ ys) =
  NavigationRuns.requestedPages xs ++ NavigationRuns.requestedPages ys.
Proof. unfold NavigationRuns.requestedPages. apply omap_app. Qed.

Lemma typedKeys_app (xs ys : list NavigationRuns.Op) :
  NavigationRuns.typedKeys (xs ++ ys) =
  NavigationRuns.typedKeys xs ++ NavigationRuns.typedKeys ys.
Proof. unfold NavigationRuns.typedKeys. apply omap_app. Qed.

Lemma typedFrom_more (keys more : list string) (n : JS.jsnum) :
  NavigationRuns.typedFrom keys n -> NavigationRuns.typedFrom (keys ++ more) n.
Proof.
  intros (a & b & c & Ha & Hb & Hc & Hsub & Hparse & Hvalue).
  exists a, b, c. split; [exact Ha|]. split; [exact Hb|]. split; [exact Hc|].
  split; [now apply sublist_inserts_r|]. now split.
Qed.

Lemma typedFrom_typedPage (keys : list string) (n : JS.jsnum) :
  NavigationRuns.typedFrom keys n -> NavigationRuns.typedPage n.
Proof.
  intros (a & b & c & Ha & Hb & Hc & _ & _ & ->).
  pose proof (digitValue_range a Ha). pose proof (digitValue_range b Hb).
  pose proof (digitValue_range c Hc).
  eexists. split; [reflexivity | lia].
Qed.

Lemma tracked_more (keys more : list string) (h : Navigation.Hook) :
  NavigationRuns.tracked keys h -> NavigationRuns.tracked (keys ++ more) h.
Proof.
  intros [(cs & Hbuf & Hdigits & Hsub) Htimers]. split.
  - exists cs. repeat split; try assumption. now apply sublist_inserts_r.
  - intros n Hn. apply typedFrom_more. now apply Htimers.
Qed.

Lemma string_of_list_ascii_snoc (cs : list ascii) (c : ascii) :
  string_of_list_ascii cs +:+ String c EmptyString = string_of_list_ascii (cs ++ [c]).
Proof.
  induction cs as [|d cs IH]; [reflexivity|].
  simpl. rewrite app_cons. now rewrite IH.
Qed.

Lemma strlen_string_of_list_ascii (cs : list ascii) :
  JS.strlen (string_of_list_ascii cs) = length cs.
Proof. induction cs as [|c cs IH]; simpl; [reflexivity | now rewrite <- IH]. Qed.

Lemma tracked_useNavigation (p : JS.jsnum) :
  NavigationRuns.tracked [] (Navigation.useNavigation p).
Proof.
  split.
  - exists []. repeat split; [constructor | constructor].
  - simpl. contradiction.
Qed.

Lemma tracked_addDigit (keys : list string) (digit : string) (h : Navigation.Hook) :
  NavigationRuns.tracked keys h ->
  NavigationRuns.tracked (keys ++ [digit]) (Navigation.addDigit digit h).
Proof.
  intros Htracked.
  destruct (JS.testSingleDigit digit) eqn:Hdigit;
    [|rewrite addDigit_not_digit by exact Hdigit; now apply tracked_more].
  destruct (Nat.le_gt_cases 3 (JS.strlen (Navigation.pageBuffer (Navigation.state h))))
    as [Hge|Hlt];
    [rewrite addDigit_full by exact Hge; now apply tracked_more|].
  rewrite addDigit_append by assumption.
  destruct (testSingleDigit_inv digit Hdigit) as (c & -> & Hc).
  destruct Htracked as [(cs & Hbuf & Hdigits & Hsub) Htimers].
  assert (Hbuf' :
    Navigation.pageBuffer (Navigation.state h) +:+ String c EmptyString
    = string_of_list_ascii (cs ++ [c]))
    by (rewrite Hbuf; apply string_of_list_ascii_snoc).
  assert (Hsub' :
    sublist (map (fun c => String c EmptyString) (cs ++ [c]))
      (keys ++ [String c EmptyString])).
  { rewrite map_app. apply sublist_app; [exact Hsub | reflexivity]. }
  split; cbn [Navigation.state Navigation.pageBuffer Navigation.timers].
  - exists (cs ++ [c]). split; [exact Hbuf'|]. split; [|exact Hsub'].
    apply Forall_app. split; [exact Hdigits | now constructor].
  - intros n Hn.
    destruct (Nat.eqb_spec (JS.strlen (Navigation.pageBuffer (Navigation.state h))) 2)
      as [E|E]; [|apply typedFrom_more; now apply Htimers].
    apply in_app_or in Hn as [Hn|[Hn|[]]];
      [apply typedFrom_more; now apply Htimers|].
    injection Hn as <-.
    rewrite Hbuf, strlen_string_of_list_ascii in E.
    destruct cs as [|x [|y [|z cs]]]; try discriminate E.
    inversion Hdigits as [|? ? Hx Hdigits']; subst.
    inversion Hdigits' as [|? ? Hy _]; subst.
    exists x, y, c. split; [exact Hx|]. split; [exact Hy|]. split; [exact Hc|].
    split; [exact Hsub'|]. rewrite Hbuf'. simpl.
    split; [reflexivity | now apply parseInt_three_digits].
Qed.

Lemma tracked_applyOp (ops : list NavigationRuns.Op) (op : NavigationRuns.Op)
    (h : Navigation.Hook) :
  NavigationRuns.tracked (NavigationRuns.typedKeys ops) h ->
  NavigationRuns.tracked (NavigationRuns.typedKeys (ops ++ [op]))
    (NavigationRuns.applyOp h op).
Proof.
  intros Htracked. rewrite typedKeys_app.
  destruct op as [digit| |n|]; cbn [NavigationRuns.typedKeys omap list_omap
    NavigationRuns.applyOp].
  - now apply tracked_addDigit.
  - rewrite app_nil_r. destruct Htracked as [_ Htimers]. split; [|exact Htimers].
    exists []. repeat split; [constructor | apply sublist_nil_l].
  - rewrite app_nil_r. destruct Htracked as [_ Htimers]. split.
    + exists []. repeat split; [constructor | apply sublist_nil_l].
    + simpl. intros m Hm. apply in_app_or in Hm as [Hm|[Hm|[]]];
        [now apply Htimers | discriminate Hm].
  - rewrite app_nil_r. destruct Htracked as [Hbuffer Htimers].
    unfold Navigation.runTimer.
    destruct (Navigation.timers h) as [|[n|] rest] eqn:E.
    + split; [exact Hbuffer|]. now rewrite E.
    + split.
      * exists []. repeat split; [constructor | apply sublist_nil_l].
      * simpl. intros m Hm. apply in_app_or in Hm as [Hm|[Hm|[]]];
          [apply Htimers; now right | discriminate Hm].
    + split; [exact Hbuffer|]. simpl. intros m Hm. apply Htimers. now right.
Qed.

Lemma tracked_runOps (p : JS.jsnum) (ops : list NavigationRuns.Op) :
  NavigationRuns.tracked (NavigationRuns.typedKeys ops)
    (NavigationRuns.runOps ops (Navigation.useNavigation p)).
Proof.
  induction ops as [|op ops IH] using rev_ind; [apply tracked_useNavigation|].
  rewrite runOps_app. simpl. now apply tracked_applyOp.
Qed.

(** X4. Every page change the hook emits carries either a page number that
    was passed to [navigateToPage] or the value of three typed digits: there
    are three digit keys among the arguments of [addDigit], typed in this
    order, whose concatenation [parseInt] reads as that page number, an
    integer in 0..999.  Typing never navigates to [NaN], to a negative page
    or beyond 999. *)
Theorem emitted_pages_typed_or_requested (p : JS.jsnum)
    (ops : list NavigationRuns.Op) :
  Forall
    (fun n =>
       NavigationRuns.typedFrom (NavigationRuns.typedKeys ops) n /\
       NavigationRuns.typedPage n \/
       In n (NavigationRuns.requestedPages ops))
    (Navigation.pageChanges
       (NavigationRuns.runOps ops (Navigation.useNavigation p))).
Proof.
  induction ops as [|op ops IH] using rev_ind; [constructor|].
  rewrite runOps_app, requestedPages_app, typedKeys_app. simpl.
  pose proof (tracked_runOps p ops) as [_ Htyped].
  set (h := NavigationRuns.runOps ops (Navigation.useNavigation p)) in *.
  assert (Hkeep :
    Forall (fun n =>
              NavigationRuns.typedFrom
                (NavigationRuns.typedKeys ops ++ NavigationRuns.typedKeys [op]) n /\
              NavigationRuns.typedPage n \/
              In n (NavigationRuns.requestedPages ops
                    ++ NavigationRuns.requestedPages [op]))
      (Navigation.pageChanges h)).
  { eapply List.Forall_impl; [|exact IH]. simpl.
    intros n [[Hn Hp]|Hn];
      [left; split; [now apply typedFrom_more | exact Hp]
      |right; apply in_or_app; now left]. }
  destruct op as [digit| |n|]; simpl.
  - now rewrite addDigit_pageChanges.
  - exact Hkeep.
  - apply Forall_app. split; [exact Hkeep|].
    constructor; [|constructor]. right. apply in_or_app. right. now left.
  - unfold Navigation.runTimer.
    destruct (Navigation.timers h) as [|[n|] rest] eqn:E; simpl; try exact Hkeep.
    apply Forall_app. split; [exact Hkeep|].
    constructor; [|constructor]. left.
    assert (Hn : NavigationRuns.typedFrom (NavigationRuns.typedKeys ops) n)
      by (apply Htyped; now left).
    split; [now apply typedFrom_more | now apply typedFrom_typedPage in Hn].
Qed.

Lemma runTimers_settles (n : nat) (h : Navigation.Hook) :
  (NavigationRuns.expiriesLeft (Navigation.timers h) <= n)%nat ->
  Navigation.timers (NavigationRuns.runTimers n h) = [].
Proof.
  revert h. induction n as [|n IH]; intros h Hn.
  - simpl. destruct (Navigation.timers h) as [|[m|] rest]; [reflexivity | |];
      unfold NavigationRuns.expiriesLeft in Hn; simpl in Hn; lia.
  - simpl. apply IH. unfold Navigation.runTimer.
    destruct (Navigation.timers h) as [|[m|] rest] eqn:E; simpl.
    + rewrite E. unfold NavigationRuns.expiriesLeft. simpl. lia.
    + unfold NavigationRuns.expiriesLeft in *. simpl in *.
      rewrite map_app, list_sum_app. simpl. lia.
    + unfold NavigationRuns.expiriesLeft in *. simpl in *. lia.
Qed.

Lemma expiriesLeft_bound (pending : list Navigation.Timer) :
  (NavigationRuns.expiriesLeft pending <= 2 * length pending)%nat.
Proof.
  unfold NavigationRuns.expiriesLeft.
  induction pending as [|[m|] rest IH]; simpl in *; lia.
Qed.

Lemma wellFormed_runTimers (n : nat) (h : Navigation.Hook) :
  NavigationRuns.wellFormed h ->
  NavigationRuns.wellFormed (NavigationRuns.runTimers n h).
Proof.
  revert h. induction n as [|n IH]; intros h H; [exact H|].
  simpl. apply IH. now apply wellFormed_runTimer.
Qed.

(** X5. From any state the hook can reach, letting twice as many timers
    expire as are pending empties the timer queue, and then the navigating
    flag is down and the buffer holds fewer than three digits: neither the
    flag nor a full buffer can get stuck. *)
Theorem timers_settle_the_hook (p : JS.jsnum) (ops : list NavigationRuns.Op) :
  let h := NavigationRuns.runOps ops (Navigation.useNavigation p) in
  let settled := NavigationRuns.runTimers (2 * length (Navigation.timers h)) h in
  Navigation.timers settled = [] /\
  Navigation.isNavigating (Navigation.state settled) = false /\
  (JS.strlen (Navigation.pageBuffer (Navigation.state settled)) < 3)%nat.
Proof.
  intros h settled.
  assert (Hempty : Navigation.timers settled = [])
    by (apply runTimers_settles, expiriesLeft_bound).
  destruct (wellFormed_runTimers (2 * length (Navigation.timers h)) h
              (wellFormed_runOps ops _ (wellFormed_useNavigation p)))
    as (Hlen & _ & Hflag & Hfull & _).
  fold settled in Hlen, Hflag, Hfull. rewrite Hempty in Hflag, Hfull.
  split; [exact Hempty|]. split.
  - destruct (Navigation.isNavigating (Navigation.state settled));
      [destruct (Hflag eq_refl) | reflexivity].
  - destruct (Nat.eq_dec (JS.strlen (Navigation.pageBuffer (Navigation.state settled)))
                3%nat) as [E|E]; [destruct (Hfull E) | lia].
Qed.

(** X6. [clearBuffer] discards the digits typed so far but never a
    navigation that is already scheduled: after two digits it restores the
    hook, and after the third digit the pending timer still navigates to the
    page that was typed. *)
Theorem clearBuffer_keeps_scheduled_navigation (k1 k2 k3 : string)
    (h : Navigation.Hook) :
  JS.testSingleDigit k1 = true ->
  JS.testSingleDigit k2 = true ->
  JS.testSingleDigit k3 = true ->
  Navigation.pageBuffer (Navigation.state h) = EmptyString ->
  Navigation.timers h = [] ->
  Navigation.clearBuffer (Navigation.addDigit k2 (Navigation.addDigit k1 h)) = h /\
  Navigation.runTimer
    (Navigation.clearBuffer
       (Navigation.addDigit k3 (Navigation.addDigit k2 (Navigation.addDigit k1 h)))) =
  Navigation.mkHook
    (Navigation.mkNavigationState (JS.parseInt (k1 +:+ k2 +:+ k3)) EmptyString true)
    [Navigation.ResetNavigatingTimer]
    (Navigation.pageChanges h ++ [JS.parseInt (k1 +:+ k2 +:+ k3)]).
Proof.
  intros H1 H2 H3 Hbuffer Htimers.
  destruct h as [[page buffer navigating] pending changes].
  simpl in Hbuffer, Htimers. subst buffer pending.
  destruct (testSingleDigit_inv k1 H1) as (a & -> & Ha).
  destruct (testSingleDigit_inv k2 H2) as (b & -> & Hb).
  destruct (testSingleDigit_inv k3 H3) as (c & -> & Hc).
  rewrite (addDigit_append (String a EmptyString)) by (try exact H1; simpl; lia).
  rewrite (addDigit_append (String b EmptyString)) by (try exact H2; simpl; lia).
  rewrite (addDigit_append (String c EmptyString)) by (try exact H3; simpl; lia).
  split; reflexivity.
Qed.

Lemma clearBuffer_keeps_witness :
  Navigation.clearBuffer
    (Navigation.addDigit "0" (Navigation.addDigit "3" (Navigation.useNavigation (JS.Num 100))))
  = Navigation.useNavigation (JS.Num 100) /\
  Navigation.runTimer
    (Navigation.clearBuffer
       (Navigation.addDigit "5"
          (Navigation.addDigit "0"
             (Navigation.addDigit "3" (Navigation.useNavigation (JS.Num 100)))))) =
  Navigation.mkHook
    (Navigation.mkNavigationState (JS.parseInt ("3" +:+ "0" +:+ "5")) EmptyString true)
    [Navigation.ResetNavigatingTimer]
    (Navigation.pageChanges (Navigation.useNavigation (JS.Num 100))
     ++ [JS.parseInt ("3" +:+ "0" +:+ "5")]).
Proof.
  apply (clearBuffer_keeps_scheduled_navigation "3" "0" "5"
           (Navigation.useNavigation (JS.Num 100))); reflexivity.
Defined.

Lemma keysOf_digits (z : Z) :
  0 <= z <= 999 ->
  exists a b c,
    NavigationRuns.keysOf z =
      [String a EmptyString; String b EmptyString; String c EmptyString] /\
    JS.isDigit a = true /\ JS.isDigit b = true /\ JS.isDigit c = true /\
    100 * JS.digitValue a + 10 * JS.digitValue b + JS.digitValue c = z.
Proof.
  intros Hz.
  pose (check := fun z =>
       match NavigationRuns.keysOf z with
       | [String a EmptyString; String b EmptyString; String c EmptyString] =>
           JS.isDigit a && JS.isDigit b && JS.isDigit c &&
           (100 * JS.digitValue a + 10 * JS.digitValue b + JS.digitValue c =? z)
       | _ => false
       end).
  assert (Hcheck : check z = true)
    by (apply (below_forallb check 1000); [vm_compute; reflexivity | lia]).
  subst check. cbv beta in Hcheck.
  destruct (NavigationRuns.keysOf z)
    as [|[|a [|? ?]] [|[|b [|? ?]] [|[|c [|? ?]] [|? ?]]]]; try discriminate Hcheck.
  apply andb_true_iff in Hcheck as [Hcheck Hv].
  apply andb_true_iff in Hcheck as [Hcheck Hc].
  apply andb_true_iff in Hcheck as [Ha Hb].
  exists a, b, c. apply Z.eqb_eq in Hv. auto.
Qed.

Lemma typePage_navigates (z : Z) (h : Navigation.Hook) :
  0 <= z <= 999 ->
  Navigation.pageBuffer (Navigation.state h) = EmptyString ->
  Navigation.timers h = [] ->
  NavigationRuns.runOps (NavigationRuns.typePage z) h =
  Navigation.mkHook (Navigation.mkNavigationState (JS.Num z) EmptyString false)
    [] (Navigation.pageChanges h ++ [JS.Num z]).
Proof.
  intros Hz Hbuffer Htimers.
  destruct h as [[page buffer navigating] pending changes].
  simpl in Hbuffer, Htimers. subst buffer pending.
  destruct (keysOf_digits z Hz) as (a & b & c & Hkeys & Ha & Hb & Hc & Hv).
  unfold NavigationRuns.typePage, NavigationRuns.runOps. rewrite Hkeys.
  cbn [map app fold_left NavigationRuns.applyOp].
  rewrite (addDigit_append (String a EmptyString)) by (simpl; try lia; exact Ha).
  rewrite (addDigit_append (String b EmptyString)) by (simpl; try lia; exact Hb).
  rewrite (addDigit_append (String c EmptyString)) by (simpl; try lia; exact Hc).
  rewrite <- Hv, <- (parseInt_three_digits a b c Ha Hb Hc). reflexivity.
Qed.

Lemma last_cons_default {A} (x : A) (l : list A) (d d' : A) :
  List.last (x :: l) d = List.last (x :: l) d'.
Proof.
  revert x. induction l as [|y l IH]; intros x; [reflexivity|].
  change (List.last (y :: l) d = List.last (y :: l) d'). apply IH.
Qed.

Lemma typePages_navigate (pages : list Z) (h : Navigation.Hook) :
  Forall (fun z => 0 <= z <= 999) pages ->
  Navigation.pageBuffer (Navigation.state h) = EmptyString ->
  Navigation.timers h = [] ->
  Navigation.isNavigating (Navigation.state h) = false ->
  NavigationRuns.runOps (concat (map NavigationRuns.typePage pages)) h =
  Navigation.mkHook
    (Navigation.mkNavigationState
       (List.last (map JS.Num pages) (Navigation.currentPage (Navigation.state h)))
       EmptyString false)
    [] (Navigation.pageChanges h ++ map JS.Num pages).
Proof.
  intros Hpages. revert h.
  induction Hpages as [|z pages Hz _ IH]; intros h Hbuffer Htimers Hflag.
  - destruct h as [[page buffer navigating] pending changes].
    simpl in *. subst. now rewrite app_nil_r.
  - cbn [map concat]. rewrite runOps_app, (typePage_navigates z h Hz Hbuffer Htimers).
    rewrite IH by reflexivity. cbn [Navigation.state Navigation.currentPage
                                    Navigation.pageChanges].
    rewrite <- app_assoc. cbn [app].
    replace (List.last (map JS.Num pages) (JS.Num z))
      with (List.last (JS.Num z :: map JS.Num pages)
              (Navigation.currentPage (Navigation.state h))); [reflexivity|].
    destruct pages as [|z' pages]; [reflexivity|].
    cbn [map].
    change (List.last (JS.Num z' :: map JS.Num pages)
              (Navigation.currentPage (Navigation.state h)) =
            List.last (JS.Num z' :: map JS.Num pages) (JS.Num z)).
    apply last_cons_default.
Qed.

Lemma concat_singletons (s : string) :
  Keyboard.concatKeys
    (map (fun c => String c EmptyString) (list_ascii_of_string s)) = s.
Proof.
  unfold Keyboard.concatKeys. induction s as [|c s IH]; [reflexivity|].
  simpl. rewrite IH. reflexivity.
Qed.

(** X7. The keys of a page number in 0..999 are the three digits the header
    prints after "P", and typing the keys of one page after another on a
    fresh hook, letting the timers expire after each, visits exactly those
    pages in order and ends on the last one with an empty buffer, no timer
    pending and the navigating flag down. *)
Theorem typing_pages_visits_them_in_order (p : JS.jsnum) (pages : list Z) :
  Forall (fun z => 0 <= z <= 999) pages ->
  Forall (fun z =>
            Formatters.formatPageNumber z =
            "P" +:+ Keyboard.concatKeys (NavigationRuns.keysOf z)) pages /\
  NavigationRuns.runOps (concat (map NavigationRuns.typePage pages))
    (Navigation.useNavigation p) =
  Navigation.mkHook
    (Navigation.mkNavigationState (List.last (map JS.Num pages) p) EmptyString false)
    [] (map JS.Num pages).
Proof.
  intros Hpages. split.
  - apply Forall_forall. intros z _. unfold NavigationRuns.keysOf.
    now rewrite concat_singletons.
  - now rewrite (typePages_navigate pages (Navigation.useNavigation p) Hpages).
Qed.

Lemma typing_pages_witness :
  Forall (fun z =>
            Formatters.formatPageNumber z =
            "P" +:+ Keyboard.concatKeys (NavigationRuns.keysOf z)) [300; 7; 666] /\
  NavigationRuns.runOps (concat (map NavigationRuns.typePage [300; 7; 666]))
    (Navigation.useNavigation (JS.Num 100)) =
  Navigation.mkHook
    (Navigation.mkNavigationState
       (List.last (map JS.Num [300; 7; 666]) (JS.Num 100)) EmptyString false)
    [] (map JS.Num [300; 7; 666]).
Proof.
  apply (typing_pages_visits_them_in_order (JS.Num 100) [300; 7; 666]).
  repeat constructor; lia.
Defined.

(** ** components/ContentArea.tsx *)

Lemma char_renderChar {A} (hex : string -> A) (colorMap : gmap nat string)
    (j : nat) (c : ascii) :
  Content.char (Content.renderChar hex colorMap j c) = c.
Proof.
  unfold Content.renderChar. destruct (colorMap !! j) as [color|]; [|reflexivity].
  destruct (JS.truthy color); reflexivity.
Qed.

Lemma map_char_imap {A} (f : nat -> ascii -> Content.Span A) (chars : list ascii) :
  (forall j c, Content.char (f j c) = c) ->
  map Content.char (imap f chars) = chars.
Proof.
  revert f. induction chars as [|c chars IH]; intros f Hf; [reflexivity|].
  simpl. rewrite Hf. f_equal. apply IH. intros j d. apply Hf.
Qed.

Lemma lineText_renderLine {A} (hex : string -> A)
    (colors : option (gmap nat (gmap nat string))) (i : nat) (line : string) :
  ContentText.lineText (Content.renderLine hex colors i line) = line.
Proof.
  unfold Content.renderLine.
  destruct (colors ≫= (fun m => m !! (i + 2)%nat)) as [colorMap|]; [|reflexivity].
  simpl. rewrite map_char_imap by apply char_renderChar.
  apply string_of_list_ascii_of_string.
Qed.

(** X8. Whatever the lines and the color map, the content area renders
    [min(23, lines.length)] rows, and the characters of row [i], styled or
    not, spell the truncation of line [i]: at most 40 characters, a prefix of
    the line. *)
Theorem ContentArea_rows_spell_truncated_lines (content : Content.PageContent) :
  length (Content.ContentArea content) =
    Nat.min 23 (length (Content.lines content)) /\
  (forall i row,
      Content.ContentArea content !! i = Some row ->
      exists line rest,
        Content.lines content !! i = Some line /\
        ContentText.lineText row = Formatters.truncateText line /\
        (JS.strlen (ContentText.lineText row) <= 40)%nat /\
        line = ContentText.lineText row +:+ rest).
Proof.
  split.
  - unfold Content.ContentArea, Content.render.
    rewrite length_imap, length_map. apply truncateLines_length.
  - intros i row Hrow. unfold Content.ContentArea in Hrow.
    rewrite render_lookup in Hrow.
    destruct (take 23 (Content.lines content) !! i) as [line|] eqn:E;
      [|discriminate Hrow].
    apply lookup_take_Some in E as [Hline _].
    simpl in Hrow. injection Hrow as <-.
    rewrite lineText_renderLine.
    assert (Hprefix : exists rest, line = Formatters.truncateText line +:+ rest).
    { destruct (Nat.le_gt_cases (JS.strlen line) 40) as [Hs|Hs].
      - exists EmptyString. now rewrite truncateText_short, app_empty_r.
      - rewrite truncateText_long by exact Hs. apply substring0_prefix. }
    destruct Hprefix as [rest Hrest].
    exists line, rest. repeat split; try assumption.
    apply truncateText_length.
Qed.

Lemma ContentArea_rows_witness :
  exists line rest,
    Content.lines (Content.mkPageContent ["HELLO"; "WORLD"] None) !! 1%nat = Some line /\
    ContentText.lineText (Content.PlainLine (A := Colors.jsval) "WORLD")
      = Formatters.truncateText line /\
    (JS.strlen (ContentText.lineText (Content.PlainLine (A := Colors.jsval) "WORLD"))
       <= 40)%nat /\
    line = ContentText.lineText (Content.PlainLine (A := Colors.jsval) "WORLD") +:+ rest.
Proof.
  apply (proj2 (ContentArea_rows_spell_truncated_lines
                  (Content.mkPageContent ["HELLO"; "WORLD"] None)) 1%nat).
  reflexivity.
Defined.

(** X9. Annotations outside the grid are inert: two color maps that have
    entries for the same rows among grid rows 2..24 and agree on columns
    0..39 of those rows render the same content area, whatever else they
    hold. *)
Theorem ContentArea_ignores_annotations_outside_grid (lines : list string)
    (rows rows' : gmap nat (gmap nat string)) :
  (forall r, (2 <= r <= 24)%nat ->
             (is_Some (rows !! r) <-> is_Some (rows' !! r))) ->
  (forall r c, (2 <= r <= 24)%nat -> (c < 40)%nat ->
               rows !! r ≫= (fun m => m !! c) = rows' !! r ≫= (fun m => m !! c)) ->
  Content.ContentArea (Content.mkPageContent lines (Some rows)) =
  Content.ContentArea (Content.mkPageContent lines (Some rows')).
Proof.
  intros Hrows Hcells. apply list_eq. intros i.
  unfold Content.ContentArea. rewrite !render_lookup. cbn [Content.lines Content.colors].
  destruct (take 23 lines !! i) as [line|] eqn:E; [|reflexivity].
  apply lookup_take_Some in E as [_ Hi]. simpl. f_equal.
  unfold Content.renderLine. simpl.
  assert (Hr : (2 <= i + 2 <= 24)%nat) by lia.
  specialize (Hrows (i + 2)%nat Hr).
  destruct (rows !! (i + 2)%nat) as [colorMap|] eqn:E1,
           (rows' !! (i + 2)%nat) as [colorMap'|] eqn:E2.
  - f_equal. apply imap_ext. intros j c Hc.
    apply lookup_lt_Some in Hc. rewrite length_list_ascii_of_string in Hc.
    pose proof (truncateText_length line) as H40. unfold JS.strlen in H40.
    specialize (Hcells (i + 2)%nat j Hr ltac:(lia)).
    rewrite E1, E2 in Hcells. simpl in Hcells.
    unfold Content.renderChar. now rewrite Hcells.
  - destruct (proj1 Hrows ltac:(eauto)) as [? Hx]. discriminate Hx.
  - destruct (proj2 Hrows ltac:(eauto)) as [? Hx]. discriminate Hx.
  - reflexivity.
Qed.

Lemma ContentArea_ignores_witness :
  Content.ContentArea
    (Content.mkPageContent ["HI"]
       (Some {[ 2%nat := {[ 0%nat := "red"; 40%nat := "blue" ]};
                1%nat := {[ 0%nat := "cyan" ]}; 25%nat := {[ 0%nat := "green" ]} ]})) =
  Content.ContentArea
    (Content.mkPageContent ["HI"] (Some {[ 2%nat := {[ 0%nat := "red" ]} ]})).
Proof.
  apply ContentArea_ignores_annotations_outside_grid.
  - intros r Hr.
    assert (Hcases : In r (seq 2 23)) by (apply in_seq; lia).
    simpl in Hcases.
    repeat (destruct Hcases as [<-|Hcases];
            [vm_compute; split; intros [x Hx]; (discriminate Hx || eauto)|]).
    contradiction.
  - intros r c Hr Hc.
    assert (Hrcases : In r (seq 2 23)) by (apply in_seq; lia).
    assert (Hccases : In c (seq 0 40)) by (apply in_seq; lia).
    simpl in Hrcases, Hccases.
    repeat (destruct Hrcases as [<-|Hrcases];
            [repeat (destruct Hccases as [<-|Hccases]; [vm_compute; reflexivity|]);
             contradiction|]).
    contradiction.
Defined.

(** ** pages/registry.ts *)

Lemma pageRegistry_lookup (n : Z) (page : Registry.PageDefinition) :
  Registry.pageRegistry !! n = Some page <->
  In (n, page) Registry.pageRegistry_entries.
Proof.
  unfold Registry.pageRegistry. rewrite <- list_elem_of_In.
  rewrite <- elem_of_list_to_map; [reflexivity|].
  apply (bool_decide_unpack _). vm_compute. exact I.
Qed.

Lemma pageRegistry_keys (n : Z) (page : Registry.PageDefinition) :
  Registry.pageRegistry !! n = Some page ->
  In n [100; 200; 300; 400; 500; 666] /\ Registry.pageNumber page = n.
Proof.
  intros H. apply pageRegistry_lookup in H. simpl in H.
  repeat (destruct H as [H|H]; [injection H as <- <-; simpl; tauto|]).
  contradiction.
Qed.

Section RegistryFacts.
Variables getNewsDetailPage getTechDetailPage getSportsDetailPage : Z -> list string.

Local Abbreviation getPage :=
  (Registry.getPage getNewsDetailPage getTechDetailPage getSportsDetailPage).

(** X10. For every integer, in the range of page numbers or not, the page
    [getPage] returns carries that number: a registered page, a detail page
    or the error page. *)
Theorem getPage_returns_requested_number (n : Z) :
  Registry.pageNumber (getPage n) = n.
Proof.
  unfold Registry.getPage.
  destruct (Registry.pageRegistry !! n) as [page|] eqn:E.
  - now apply pageRegistry_keys in E.
  - destruct (Registry.isDetailPage n); [|reflexivity].
    unfold Registry.getDetailPageDefinition.
    repeat match goal with |- context [if ?b then _ else _] => destruct b end;
      reflexivity.
Qed.

(** X11. A page has a dynamic content loader exactly when it is one of the
    four section pages 200, 300, 400 and 500, each with its own loader;
    detail pages and error pages never have one. *)
Theorem getPage_loader_iff_section_page (n : Z)
    (loader : Registry.DynamicContentLoader) :
  Registry.dynamicContent (getPage n) = Some loader <->
  In (n, loader)
    [ (200, Registry.fetchWorldNews); (300, Registry.fetchTechNews);
      (400, Registry.fetchWeather); (500, Registry.fetchSports) ].
Proof.
  split.
  - unfold Registry.getPage.
    destruct (Registry.pageRegistry !! n) as [page|] eqn:E.
    + apply pageRegistry_lookup in E. simpl in E. intros H.
      repeat (destruct E as [E|E];
              [injection E as <- <-; simpl in H;
               first [discriminate H | injection H as <-; simpl; tauto]|]).
      contradiction.
    + destruct (Registry.isDetailPage n); [|discriminate].
      unfold Registry.getDetailPageDefinition.
      repeat match goal with |- context [if ?b then _ else _] => destruct b end;
        discriminate.
  - simpl. intros H.
    repeat (destruct H as [H|H]; [injection H as <- <-; vm_compute; reflexivity|]).
    contradiction.
Qed.

(** X12. The pages 201-205, 301-305 and 501-505 are built from the news,
    tech and sports detail functions called with the last digit of the page
    number (1 to 5), and have no loader of their own. *)
Theorem getPage_detail_pages (k : Z) :
  1 <= k <= 5 ->
  getPage (200 + k) =
    Registry.mkPageDefinition (200 + k) "News Article" (getNewsDetailPage k) None None /\
  getPage (300 + k) =
    Registry.mkPageDefinition (300 + k) "Tech Article" (getTechDetailPage k) None None /\
  getPage (500 + k) =
    Registry.mkPageDefinition (500 + k) "Sports Article" (getSportsDetailPage k)
      None None.
Proof.
  intros Hk.
  assert (Hk' : In k [1; 2; 3; 4; 5]) by (simpl; lia).
  simpl in Hk'.
  repeat (destruct Hk' as [<-|Hk']; [repeat split; vm_compute; reflexivity|]).
  contradiction.
Qed.

(** X13. Every page that is not a detail page, registered or not, fits the
    content area for page numbers 0..999: at most 23 lines of at most 40
    characters. *)
Theorem getPage_static_pages_fit_grid (n : Z) :
  0 <= n <= 999 ->
  Registry.isDetailPage n = false ->
  ApiPages.fitsGrid (Registry.content (getPage n)).
Proof.
  intros Hn Hdetail. unfold Registry.getPage. rewrite Hdetail.
  destruct (Registry.pageRegistry !! n) as [page|] eqn:E.
  - apply pageRegistry_lookup in E. simpl in E.
    repeat (destruct E as [E|E];
            [injection E as <- <-; split;
             [vm_compute; lia
             |repeat (apply List.Forall_cons; [vm_compute; lia|]);
              apply List.Forall_nil]|]).
    contradiction.
  - pose proof (toString_length_small n Hn) as Hlen.
    split; [vm_compute; lia|].
    unfold Registry.createErrorPage; cbn [Registry.content].
    repeat match goal with
           | |- Forall _ (_ :: _) => apply List.Forall_cons
           | |- Forall _ [] => apply List.Forall_nil
           end; try (vm_compute; lia).
    rewrite !strlen_app. change (JS.strlen "Page ") with 5%nat.
    change (JS.strlen " does not exist.") with 16%nat.
    unfold GRID.COLUMNS. lia.
Qed.

End RegistryFacts.

Lemma getPage_detail_witness :
  Registry.getPage (fun k => [JS.toString k]) (fun _ => []) (fun _ => []) (200 + 3) =
    Registry.mkPageDefinition (200 + 3) "News Article" [JS.toString 3] None None /\
  Registry.getPage (fun k => [JS.toString k]) (fun _ => []) (fun _ => []) (300 + 3) =
    Registry.mkPageDefinition (300 + 3) "Tech Article" [] None None /\
  Registry.getPage (fun k => [JS.toString k]) (fun _ => []) (fun _ => []) (500 + 3) =
    Registry.mkPageDefinition (500 + 3) "Sports Article" [] None None.
Proof.
  apply (getPage_detail_pages (fun k => [JS.toString k]) (fun _ => []) (fun _ => []) 3).
  lia.
Defined.

Lemma getPage_static_fit_witness :
  ApiPages.fitsGrid
    (Registry.content
       (Registry.getPage (fun _ => []) (fun _ => []) (fun _ => []) 666)).
Proof.
  apply (getPage_static_pages_fit_grid (fun _ => []) (fun _ => []) (fun _ => []) 666).
  - lia.
  - reflexivity.
Defined.

(** ** services/api.ts: truncate and the headline list *)

Lemma toString_length_exact (z : Z) :
  0 <= z <= 999 ->
  JS.strlen (JS.toString z) =
  if z <? 10 then 1%nat else if z <? 100 then 2%nat else 3%nat.
Proof.
  intros Hz. apply Nat.eqb_eq.
  assert (Hz' : 0 <= z < Z.of_nat 1000) by lia. clear Hz. revert z Hz'.
  apply (below_forallb
           (fun z => Nat.eqb (JS.strlen (JS.toString z))
                       (if z <? 10 then 1%nat else if z <? 100 then 2%nat else 3%nat))
           1000).
  vm_compute. reflexivity.
Qed.

(** X14. [truncate] returns a text of at most [maxLen] characters unchanged;
    a longer text is cut to its first [maxLen - 2] characters followed by
    "..", which makes exactly [maxLen] characters when [maxLen] is at least
    2; for a smaller [maxLen] the result is "..", longer than asked for. *)
Theorem truncate_contract (text : string) (maxLen : Z) :
  (Z.of_nat (JS.strlen text) <= maxLen -> ApiPages.truncate text maxLen = text) /\
  (2 <= maxLen < Z.of_nat (JS.strlen text) ->
   exists kept rest,
     text = kept +:+ rest /\
     Z.of_nat (JS.strlen kept) = maxLen - 2 /\
     ApiPages.truncate text maxLen = kept +:+ ".." /\
     Z.of_nat (JS.strlen (ApiPages.truncate text maxLen)) = maxLen) /\
  (maxLen < 2 -> maxLen < Z.of_nat (JS.strlen text) ->
   ApiPages.truncate text maxLen = "..").
Proof.
  unfold ApiPages.truncate. split; [|split].
  - intros H. destruct (Z.leb_spec (Z.of_nat (JS.strlen text)) maxLen); [reflexivity | lia].
  - intros H. destruct (Z.leb_spec (Z.of_nat (JS.strlen text)) maxLen); [lia|].
    rewrite js_substring_from0.
    destruct (substring0_prefix (Z.to_nat (maxLen - 2)) text) as [rest Hrest].
    assert (Hkept :
      JS.strlen (String.substring 0 (Z.to_nat (maxLen - 2)) text)
      = Z.to_nat (maxLen - 2)).
    { unfold JS.strlen in *. rewrite substring0_length. lia. }
    exists (String.substring 0 (Z.to_nat (maxLen - 2)) text), rest.
    split; [exact Hrest|]. split; [lia|]. split; [reflexivity|].
    rewrite strlen_app, Hkept. change (JS.strlen "..") with 2%nat. lia.
  - intros H2 H. destruct (Z.leb_spec (Z.of_nat (JS.strlen text)) maxLen); [lia|].
    rewrite js_substring_from0.
    replace (Z.to_nat (maxLen - 2)) with 0%nat by lia.
    destruct text; reflexivity.
Qed.

Lemma truncate_witness :
  ApiPages.truncate "LONDON" 28 = "LONDON" /\
  (exists kept rest,
      "SAN PEDRO DE LA NAVE-ALMENDRA" = kept +:+ rest /\
      Z.of_nat (JS.strlen kept) = 28 - 2 /\
      ApiPages.truncate "SAN PEDRO DE LA NAVE-ALMENDRA" 28 = kept +:+ ".." /\
      Z.of_nat (JS.strlen (ApiPages.truncate "SAN PEDRO DE LA NAVE-ALMENDRA" 28)) = 28) /\
  ApiPages.truncate "LONDON" 1 = "..".
Proof.
  split; [|split].
  - apply (proj1 (truncate_contract "LONDON" 28)). vm_compute. discriminate.
  - apply (proj1 (proj2 (truncate_contract "SAN PEDRO DE LA NAVE-ALMENDRA" 28))).
    vm_compute. split; [discriminate | reflexivity].
  - apply (proj2 (proj2 (truncate_contract "LONDON" 1))); vm_compute; reflexivity.
Defined.

Lemma headline_title_length (title : string) :
  (JS.strlen
     (if (31 <? JS.strlen title)%nat
      then JS.substring title 0 (31 - 2) +:+ ".." else title) <= 31)%nat.
Proof.
  destruct (Nat.ltb_spec 31 (JS.strlen title)) as [H|H]; [|exact H].
  rewrite strlen_app, js_substring_from0. unfold JS.strlen in *.
  rewrite substring0_length. change (String.length "..") with 2%nat. lia.
Qed.

Lemma headline_row_shape (index : nat) (title : string)
    (basePageNum : Z) :
  (index <= 8)%nat ->
  100 <= basePageNum + Z.of_nat index + 1 <= 999 ->
  exists shown pad,
    ApiPages.formatHeadlineWithPage index title basePageNum =
      JS.toString (Z.of_nat index + 1) +:+ ". " +:+ shown +:+
      JS.replicateChar " " pad +:+
      " P" +:+ JS.toString (basePageNum + (Z.of_nat index + 1)) /\
    shown = (if (31 <? JS.strlen title)%nat
             then JS.substring title 0 29 +:+ ".." else title) /\
    (JS.strlen shown <= 31)%nat /\
    (1 <= pad)%nat /\
    JS.strlen (ApiPages.formatHeadlineWithPage index title basePageNum) = 40%nat.
Proof.
  intros Hindex Hpage. unfold ApiPages.formatHeadlineWithPage.
  set (shown := if (31 <? JS.strlen title)%nat
                then JS.substring title 0 (31 - 2) +:+ ".." else title).
  pose proof (headline_title_length title) as Hshown. fold shown in Hshown.
  assert (Hnum : JS.strlen (JS.toString (Z.of_nat index + 1)) = 1%nat).
  { rewrite toString_length_exact by lia.
    destruct (Z.ltb_spec (Z.of_nat index + 1) 10); [reflexivity | lia]. }
  assert (Hpg : JS.strlen (JS.toString (basePageNum + (Z.of_nat index + 1))) = 3%nat).
  { rewrite toString_length_exact by lia.
    destruct (Z.ltb_spec (basePageNum + (Z.of_nat index + 1)) 10); [lia|].
    destruct (Z.ltb_spec (basePageNum + (Z.of_nat index + 1)) 100); [lia | reflexivity]. }
  set (used := (JS.strlen (JS.toString (Z.of_nat index + 1) +:+ ". ")
                + JS.strlen shown
                + JS.strlen (" P" +:+ JS.toString (basePageNum + (Z.of_nat index + 1))))%nat).
  assert (Hused : used = (3 + JS.strlen shown + 5)%nat).
  { unfold used. rewrite !strlen_app, Hnum, Hpg. reflexivity. }
  destruct (Z.ltb_spec 0 (Z.of_nat GRID.COLUMNS - Z.of_nat used)) as [Hpad|Hpad];
    [|unfold GRID.COLUMNS in Hpad; lia].
  exists shown, (Z.to_nat (Z.of_nat GRID.COLUMNS - Z.of_nat used)).
  unfold GRID.COLUMNS in *.
  split; [now rewrite !app_assoc_str|]. split; [reflexivity|].
  split; [exact Hshown|]. split; [lia|].
  rewrite !strlen_app, strlen_replicateChar, Hnum, Hpg.
  change (JS.strlen ". ") with 2%nat. change (JS.strlen " P") with 2%nat. lia.
Qed.

(** X15. For the first nine headlines of a list whose page numbers have
    three digits, the headline row is exactly 40 characters: the number and
    ". ", the title (cut to 29 characters and ".." when longer than 31), at
    least one space of padding, and " P" with the page number at the right
    edge. *)
Theorem formatHeadlineWithPage_fills_row (index : nat) (title : string)
    (basePageNum : Z) :
  (index <= 8)%nat ->
  100 <= basePageNum + Z.of_nat index + 1 <= 999 ->
  exists shown pad,
    ApiPages.formatHeadlineWithPage index title basePageNum =
      JS.toString (Z.of_nat index + 1) +:+ ". " +:+ shown +:+
      JS.replicateChar " " pad +:+
      " P" +:+ JS.toString (basePageNum + (Z.of_nat index + 1)) /\
    shown = (if (31 <? JS.strlen title)%nat
             then JS.substring title 0 29 +:+ ".." else title) /\
    (JS.strlen shown <= 31)%nat /\
    (1 <= pad)%nat /\
    JS.strlen (ApiPages.formatHeadlineWithPage index title basePageNum) = 40%nat.
Proof. apply headline_row_shape. Qed.

Lemma formatHeadlineWithPage_witness :
  exists shown pad,
    ApiPages.formatHeadlineWithPage 0
      "Markets rally as inflation cools across the eurozone" 200 =
      JS.toString (Z.of_nat 0 + 1) +:+ ". " +:+ shown +:+
      JS.replicateChar " " pad +:+
      " P" +:+ JS.toString (200 + (Z.of_nat 0 + 1)) /\
    shown = (if (31 <? JS.strlen "Markets rally as inflation cools across the eurozone")%nat
             then JS.substring "Markets rally as inflation cools across the eurozone" 0 29
                  +:+ ".."
             else "Markets rally as inflation cools across the eurozone") /\
    (JS.strlen shown <= 31)%nat /\
    (1 <= pad)%nat /\
    JS.strlen (ApiPages.formatHeadlineWithPage 0
                 "Markets rally as inflation cools across the eurozone" 200) = 40%nat.
Proof.
  apply (formatHeadlineWithPage_fills_row 0
           "Markets rally as inflation cools across the eurozone" 200); simpl; lia.
Defined.

Lemma concat_imap_Forall {A B} (P : B -> Prop) (F : nat -> A -> list B)
    (l : list A) :
  (forall i a, l !! i = Some a -> Forall P (F i a)) ->
  Forall P (concat (imap F l)).
Proof.
  revert F. induction l as [|x l IH]; intros F HF; [constructor|].
  simpl. apply Forall_app. split; [apply (HF 0%nat x); reflexivity|].
  apply IH. intros i a Hi. apply (HF (S i) a). exact Hi.
Qed.

Lemma concat_imap_length2 {A B} (F : nat -> A -> list B) (l : list A) :
  (forall i a, length (F i a) = 2%nat) ->
  length (concat (imap F l)) = (2 * length l)%nat.
Proof.
  revert F. induction l as [|x l IH]; intros F HF; [reflexivity|].
  simpl. rewrite length_app, HF, IH by (intros; apply HF). lia.
Qed.

Lemma formatNewsListPage_fits (articles : list ApiPages.CachedArticle)
    (title : string) (basePageNum : Z) :
  (length articles <= 7)%nat ->
  (JS.strlen title <= 40)%nat ->
  99 <= basePageNum ->
  basePageNum + Z.of_nat (length articles) <= 999 ->
  length (ApiPages.formatNewsListPage articles title basePageNum)
    = (9 + 2 * length articles)%nat /\
  ApiPages.fitsGrid (ApiPages.formatNewsListPage articles title basePageNum).
Proof.
  intros Hcount Htitle Hbase Hlast.
  assert (Hlen :
    length (ApiPages.formatNewsListPage articles title basePageNum)
    = (9 + 2 * length articles)%nat).
  { unfold ApiPages.formatNewsListPage.
    rewrite !length_app, concat_imap_length2 by reflexivity. simpl. lia. }
  split; [exact Hlen|]. split; [rewrite Hlen; unfold GRID.CONTENT_ROWS; lia|].
  unfold ApiPages.formatNewsListPage, GRID.COLUMNS.
  apply Forall_app. split;
    [repeat (apply List.Forall_cons; [first [exact Htitle | vm_compute; lia]|]);
     apply List.Forall_nil|].
  apply Forall_app. split;
    [|repeat (apply List.Forall_cons; [vm_compute; lia|]); apply List.Forall_nil].
  apply concat_imap_Forall. intros i article Hi.
  apply lookup_lt_Some in Hi.
  destruct (headline_row_shape i (ApiPages.title article) basePageNum)
    as (shown & pad & _ & _ & _ & _ & Hrow); [lia | lia|].
  apply List.Forall_cons; [rewrite Hrow; lia|].
  apply List.Forall_cons; [vm_compute; lia | apply List.Forall_nil].
Qed.

(** X16. A headline list with at most seven articles, a title of at most 40
    characters and three-digit page numbers has [9 + 2n] lines and fits the
    content area: at most 23 lines of at most 40 characters, however long
    the article titles are. *)
Theorem formatNewsListPage_fits_grid (articles : list ApiPages.CachedArticle)
    (title : string) (basePageNum : Z) :
  (length articles <= 7)%nat ->
  (JS.strlen title <= 40)%nat ->
  99 <= basePageNum ->
  basePageNum + Z.of_nat (length articles) <= 999 ->
  length (ApiPages.formatNewsListPage articles title basePageNum)
    = (9 + 2 * length articles)%nat /\
  ApiPages.fitsGrid (ApiPages.formatNewsListPage articles title basePageNum).
Proof. apply formatNewsListPage_fits. Qed.

Lemma formatNewsListPage_witness :
  length (ApiPages.formatNewsListPage
            [ApiPages.mkCachedArticle
               "A headline that is much longer than the thirty-one characters shown"
               "" None None] "BBC WORLD NEWS" 200)
    = (9 + 2 * length
               [ApiPages.mkCachedArticle
                  "A headline that is much longer than the thirty-one characters shown"
                  "" None None])%nat /\
  ApiPages.fitsGrid
    (ApiPages.formatNewsListPage
       [ApiPages.mkCachedArticle
          "A headline that is much longer than the thirty-one characters shown"
          "" None None] "BBC WORLD NEWS" 200).
Proof.
  apply formatNewsListPage_fits_grid; vm_compute; try lia; discriminate.
Defined.

(** ** services/api.ts: the fetchers and the article cache *)

Lemma slice5_length {A} (items : list A) :
  length (JS.slice items 0 5) = Nat.min 5 (length items).
Proof. unfold JS.slice. rewrite drop_0. apply (length_take items 5). Qed.





Lemma fetchWorldNews_miss (now : Z) (articleCache : ApiPages.ArticleCache) :
  ApiPages.news articleCache = [] \/
  ApiPages.CACHE_TTL <= now - ApiPages.lastFetched_news articleCache ->
  (0 <? length (ApiPages.news articleCache))%nat
  && (now - ApiPages.lastFetched_news articleCache <? ApiPages.CACHE_TTL) = false.
Proof.
  intros [H|H].
  - now rewrite H.
  - destruct (Z.ltb_spec (now - ApiPages.lastFetched_news articleCache)
                ApiPages.CACHE_TTL); [lia | apply andb_false_r].
Qed.

(** X18. When [fetchWorldNews] has to fetch (nothing cached, or the cache is
    five minutes old or older) and the feed answers, the first five items
    become the cached news: [getCachedArticle] with the 1-based index [k+1]
    returns item [k], and returns [null] for every index below 1 or beyond
    those kept; a second call less than five minutes later returns the same
    page without consulting the feed. *)
Theorem fetchWorldNews_caches_first_five (now now' : Z)
    (items : list ApiPages.RSSItem) (response' : ApiPages.FeedResponse)
    (articleCache : ApiPages.ArticleCache) :
  ApiPages.news articleCache = [] \/
  ApiPages.CACHE_TTL <= now - ApiPages.lastFetched_news articleCache ->
  let r := ApiPages.fetchWorldNews now (ApiPages.FeedItems items) articleCache in
  (forall k item,
      items !! k = Some item -> (k < 5)%nat ->
      ApiPages.getCachedArticle (fst r) ApiPages.News (Z.of_nat k + 1) =
      Some (ApiPages.mkCachedArticle (ApiPages.item_title item)
              (ApiPages.item_description item)
              (Some (ApiPages.item_link item)) (Some (ApiPages.item_pubDate item)))) /\
  (forall index,
      index < 1 \/ Z.of_nat (Nat.min 5 (length items)) < index ->
      ApiPages.getCachedArticle (fst r) ApiPages.News index = None) /\
  (items <> [] -> now' - now < ApiPages.CACHE_TTL ->
   ApiPages.fetchWorldNews now' response' (fst r) = r).
Proof.
  intros Hmiss r.
  set (kept :=
    map (fun item =>
           ApiPages.mkCachedArticle (ApiPages.item_title item)
             (ApiPages.item_description item)
             (Some (ApiPages.item_link item)) (Some (ApiPages.item_pubDate item)))
        (JS.slice items 0 5)).
  assert (Hr :
    r = (ApiPages.mkArticleCache kept (ApiPages.tech articleCache)
           (ApiPages.sports articleCache) now
           (ApiPages.lastFetched_tech articleCache)
           (ApiPages.lastFetched_sports articleCache),
         ApiPages.formatNewsListPage kept "BBC WORLD NEWS" 200)).
  { unfold r, ApiPages.fetchWorldNews.
    now rewrite (fetchWorldNews_miss now articleCache Hmiss). }
  clearbody r. subst r. cbn [fst snd].
  assert (Hkept : length kept = Nat.min 5 (length items))
    by (unfold kept; rewrite length_map; apply slice5_length).
  split; [|split].
  - intros k item Hitem Hk.
    unfold ApiPages.getCachedArticle. cbn [ApiPages.getCachedArticles ApiPages.news].
    apply lookup_lt_Some in Hitem as Hlt.
    destruct (Z.ltb_spec (Z.of_nat k + 1) 1); [lia|].
    destruct (Z.ltb_spec (Z.of_nat (length kept)) (Z.of_nat k + 1)); [lia|].
    cbn [orb]. replace (Z.to_nat (Z.of_nat k + 1 - 1)) with k by lia.
    unfold kept. rewrite map_is_fmap, list_lookup_fmap.
    unfold JS.slice. rewrite drop_0.
    change (5 - 0)%nat with 5%nat. rewrite lookup_take_lt by lia. now rewrite Hitem.
  - intros index Hindex.
    unfold ApiPages.getCachedArticle. cbn [ApiPages.getCachedArticles ApiPages.news].
    rewrite Hkept.
    destruct (Z.ltb_spec index 1); [reflexivity|].
    destruct (Z.ltb_spec (Z.of_nat (Nat.min 5 (length items))) index);
      [reflexivity | lia].
  - intros Hitems Hfresh. unfold ApiPages.fetchWorldNews.
    cbn [ApiPages.news ApiPages.lastFetched_news].
    assert (Hpos : (0 <? length kept)%nat = true).
    { apply Nat.ltb_lt. rewrite Hkept. destruct items; [congruence | simpl; lia]. }
    rewrite Hpos.
    destruct (Z.ltb_spec (now' - now) ApiPages.CACHE_TTL); [reflexivity | lia].
Qed.

Lemma fetchWorldNews_caches_witness :
  let r := ApiPages.fetchWorldNews 1000
             (ApiPages.FeedItems
                [ApiPages.mkRSSItem "First" "One" "https://a" "Mon";
                 ApiPages.mkRSSItem "Second" "Two" "https://b" "Tue"])
             ApiPages.emptyCache in
  (forall k item,
      [ApiPages.mkRSSItem "First" "One" "https://a" "Mon";
       ApiPages.mkRSSItem "Second" "Two" "https://b" "Tue"] !! k = Some item ->
      (k < 5)%nat ->
      ApiPages.getCachedArticle (fst r) ApiPages.News (Z.of_nat k + 1) =
      Some (ApiPages.mkCachedArticle (ApiPages.item_title item)
              (ApiPages.item_description item)
              (Some (ApiPages.item_link item)) (Some (ApiPages.item_pubDate item)))) /\
  (forall index,
      index < 1 \/
      Z.of_nat (Nat.min 5 (length
                  [ApiPages.mkRSSItem "First" "One" "https://a" "Mon";
                   ApiPages.mkRSSItem "Second" "Two" "https://b" "Tue"])) < index ->
      ApiPages.getCachedArticle (fst r) ApiPages.News index = None) /\
  ([ApiPages.mkRSSItem "First" "One" "https://a" "Mon";
    ApiPages.mkRSSItem "Second" "Two" "https://b" "Tue"] <> [] ->
   2000 - 1000 < ApiPages.CACHE_TTL ->
   ApiPages.fetchWorldNews 2000 ApiPages.FeedFailure (fst r) = r).
Proof.
  apply (fetchWorldNews_caches_first_five 1000 2000
           [ApiPages.mkRSSItem "First" "One" "https://a" "Mon";
            ApiPages.mkRSSItem "Second" "Two" "https://b" "Tue"]
           ApiPages.FeedFailure ApiPages.emptyCache).
  left. reflexivity.
Defined.



(** ** services/api.ts: the article detail page *)

Lemma detail_page_tail (lines2 : list string) (footer : string) :
  (length lines2 <= 21)%nat ->
  Forall (Api.fits 40) lines2 ->
  Api.fits 40 footer ->
  (if (length lines2 <? 21)%nat
   then lines2 ++ replicate (21 - length lines2) EmptyString
   else lines2) = lines2 ++ replicate (21 - length lines2) EmptyString /\
  length (lines2 ++ replicate (21 - length lines2) EmptyString
          ++ [EmptyString; footer]) = 23%nat /\
  Forall (Api.fits 40)
    (lines2 ++ replicate (21 - length lines2) EmptyString ++ [EmptyString; footer]).
Proof.
  intros Hlen Hfits Hfooter.
  assert (Hblank : Api.fits 40 EmptyString) by (unfold Api.fits; simpl; lia).
  split; [|split].
  - destruct (Nat.ltb_spec (length lines2) 21) as [H|H]; [reflexivity|].
    replace (21 - length lines2)%nat with 0%nat by lia. simpl.
    now rewrite app_nil_r.
  - rewrite !length_app, length_replicate. simpl. lia.
  - apply Forall_app. split; [exact Hfits|]. apply Forall_app. split.
    + apply Forall_replicate. exact Hblank.
    + apply List.Forall_cons; [exact Hblank|].
      apply List.Forall_cons; [exact Hfooter | apply List.Forall_nil].
Qed.

Section DetailPageFacts.
Variable toUpperCase : string -> string.

Lemma formatArticleDetailPage_layout (fuel : nat) (article : ApiPages.CachedArticle)
    (source : string) (backPage : Z) (titleLines : list string) :
  Api.wordWrap fuel (toUpperCase (ApiPages.title article)) GRID.COLUMNS
    = Some titleLines ->
  (length titleLines <= 12)%nat ->
  (JS.strlen (toUpperCase (ApiPages.title article)) <= fuel)%nat ->
  (JS.strlen (ApiPages.description article) <= fuel)%nat ->
  (JS.strlen source <= 40)%nat ->
  0 <= backPage <= 999 ->
  exists page body,
    ApiPages.formatArticleDetailPage toUpperCase fuel article source backPage
      = Some page /\
    page =
      [ source; ""; "================================"; "" ] ++ titleLines ++
      [ ""; "--------------------------------"; "" ] ++ body ++
      replicate (14 - length titleLines - length body) EmptyString ++
      [ ""; "Press " +:+ JS.toString backPage +:+ " for headlines" ] /\
    length page = 23%nat /\
    ApiPages.fitsGrid page /\
    (JS.truthy (ApiPages.description article) = false ->
     body = [ "No description available." ]) /\
    (JS.truthy (ApiPages.description article) = true ->
     exists descLines,
       Api.wordWrap fuel (ApiPages.description article) GRID.COLUMNS
         = Some descLines /\
       body =
         if (13 - length titleLines <? length descLines)%nat
         then take (13 - length titleLines) descLines ++ [ "..." ]
         else descLines).
Proof.
  intros Hwrap Hcount Hfuel1 Hfuel2 Hsource Hback.
  destruct (wordWrap_fits (toUpperCase (ApiPages.title article)) GRID.COLUMNS fuel)
    as (titleLines' & Hwrap' & Htitle); [unfold GRID.COLUMNS; lia | exact Hfuel1|].
  rewrite Hwrap in Hwrap'. injection Hwrap' as <-.
  change GRID.COLUMNS with 40%nat in Htitle.
  set (footer := "Press " +:+ JS.toString backPage +:+ " for headlines").
  assert (Hfooter : Api.fits 40 footer).
  { unfold Api.fits, footer. rewrite !strlen_app.
    pose proof (toString_length_small backPage Hback).
    change (JS.strlen "Press ") with 6%nat.
    change (JS.strlen " for headlines") with 14%nat. lia. }
  set (lines1 :=
    [ source; ""; "================================"; "" ] ++ titleLines ++
    [ ""; "--------------------------------"; "" ]).
  assert (Hlen1 : length lines1 = (7 + length titleLines)%nat)
    by (unfold lines1; rewrite !length_app; simpl; lia).
  assert (Hfits1 : Forall (Api.fits 40) lines1).
  { unfold lines1. apply Forall_app. split.
    - repeat (apply List.Forall_cons;
              [first [exact Hsource | unfold Api.fits; vm_compute; lia]|]).
      apply List.Forall_nil.
    - apply Forall_app. split; [exact Htitle|].
      repeat (apply List.Forall_cons; [unfold Api.fits; vm_compute; lia|]).
      apply List.Forall_nil. }
  (* The page for a body of at most [14 - length titleLines] lines. *)
  assert (Hbody : forall body,
    (length body <= 14 - length titleLines)%nat ->
    Forall (Api.fits 40) body ->
    let lines2 := lines1 ++ body in
    let page :=
      lines1 ++ body ++
      replicate (14 - length titleLines - length body) EmptyString ++ [ ""; footer ] in
    (if (length lines2 <? 21)%nat
     then lines2 ++ replicate (21 - length lines2) EmptyString
     else lines2) ++ [ ""; footer ] = page /\
    length page = 23%nat /\ ApiPages.fitsGrid page).
  { intros body Hlen Hfits lines2 page.
    destruct (detail_page_tail lines2 footer) as (Hpad & Hlen23 & Hfits23);
      [unfold lines2; rewrite length_app, Hlen1; lia
      |unfold lines2; apply Forall_app; split; assumption
      |exact Hfooter|].
    assert (Hpage : lines2 ++ replicate (21 - length lines2) EmptyString
                    ++ [ ""; footer ] = page).
    { unfold page, lines2. rewrite length_app, Hlen1, <- !app_assoc.
      replace (21 - (7 + length titleLines + length body))%nat
        with (14 - length titleLines - length body)%nat by lia.
      reflexivity. }
    rewrite Hpad, <- app_assoc, Hpage in *.
    split; [reflexivity|]. split; [exact Hlen23|].
    split; [rewrite Hlen23; unfold GRID.CONTENT_ROWS; lia | exact Hfits23]. }
  assert (Hmain : exists body,
    ApiPages.formatArticleDetailPage toUpperCase fuel article source backPage
      = Some (lines1 ++ body ++
              replicate (14 - length titleLines - length body) EmptyString
              ++ [ ""; footer ]) /\
    (length body <= 14 - length titleLines)%nat /\
    Forall (Api.fits 40) body /\
    (JS.truthy (ApiPages.description article) = false ->
     body = [ "No description available." ]) /\
    (JS.truthy (ApiPages.description article) = true ->
     exists descLines,
       Api.wordWrap fuel (ApiPages.description article) GRID.COLUMNS
         = Some descLines /\
       body =
         if (13 - length titleLines <? length descLines)%nat
         then take (13 - length titleLines) descLines ++ [ "..." ]
         else descLines)).
  { unfold ApiPages.formatArticleDetailPage. rewrite Hwrap.
    cbn [mbind option_bind]. cbv zeta. fold lines1. fold footer.
    destruct (JS.truthy (ApiPages.description article)) eqn:Hdesc.
    - destruct (wordWrap_fits (ApiPages.description article) GRID.COLUMNS fuel)
        as (descLines & Hwrapd & Hdescfits); [unfold GRID.COLUMNS; lia | exact Hfuel2|].
      rewrite Hwrapd. change GRID.COLUMNS with 40%nat in Hdescfits.
      cbn [mbind option_bind].
      assert (Hshown :
        JS.slice descLines 0
          (Z.to_nat (Z.max 1 (23 - Z.of_nat (length lines1) - 2 - 1)))
        = take (13 - length titleLines) descLines).
      { unfold JS.slice. rewrite drop_0, Nat.sub_0_r, Hlen1. f_equal. lia. }
      rewrite Hshown.
      assert (Htakefits : Forall (Api.fits 40) (take (13 - length titleLines) descLines))
        by (apply Forall_take; exact Hdescfits).
      destruct (Z.ltb_spec (23 - Z.of_nat (length lines1) - 2 - 1)
                  (Z.of_nat (length descLines))) as [Hmore|Hall].
      + destruct (Nat.ltb_spec (13 - length titleLines) (length descLines))
          as [Hmore'|Hall']; [|lia].
        assert (Hl : (length (take (13 - length titleLines) descLines ++ [ "..." ])
                      <= 14 - length titleLines)%nat).
        { rewrite length_app, length_take. simpl. lia. }
        assert (Hf : Forall (Api.fits 40)
                       (take (13 - length titleLines) descLines ++ [ "..." ])).
        { apply Forall_app. split; [exact Htakefits|].
          apply List.Forall_cons; [unfold Api.fits; vm_compute; lia|].
          apply List.Forall_nil. }
        destruct (Hbody _ Hl Hf) as (Hpage & _).
        exists (take (13 - length titleLines) descLines ++ [ "..." ]).
        rewrite <- Hpage, <- !app_assoc.
        split; [reflexivity|]. split; [exact Hl|]. split; [exact Hf|].
        split; [discriminate|]. intros _. exists descLines.
        split; [reflexivity|].
        destruct (Nat.ltb_spec (13 - length titleLines) (length descLines));
          [reflexivity | lia].
      + destruct (Nat.ltb_spec (13 - length titleLines) (length descLines))
          as [Hmore'|Hall']; [lia|].
        assert (Hall'' : take (13 - length titleLines) descLines = descLines)
          by (apply take_ge; lia).
        rewrite Hall''.
        assert (Hl : (length descLines <= 14 - length titleLines)%nat) by lia.
        destruct (Hbody _ Hl Hdescfits) as (Hpage & _).
        exists descLines. rewrite <- Hpage.
        split; [reflexivity|]. split; [exact Hl|]. split; [exact Hdescfits|].
        split; [discriminate|]. intros _. exists descLines.
        split; [reflexivity|].
        destruct (Nat.ltb_spec (13 - length titleLines) (length descLines));
          [lia | reflexivity].
    - cbn [mbind option_bind].
      assert (Hl : (length [ "No description available." ]
                    <= 14 - length titleLines)%nat) by (simpl; lia).
      assert (Hf : Forall (Api.fits 40) [ "No description available." ]).
      { apply List.Forall_cons; [unfold Api.fits; vm_compute; lia|].
        apply List.Forall_nil. }
      destruct (Hbody _ Hl Hf) as (Hpage & _).
      exists [ "No description available." ]. rewrite <- Hpage.
      split; [reflexivity|]. split; [exact Hl|]. split; [exact Hf|].
      split; [reflexivity | discriminate]. }
  destruct Hmain as (body & Hpage & Hl & Hf & Hnone & Hsome).
  destruct (Hbody body Hl Hf) as (_ & Hlen23 & Hgrid).
  eexists. exists body.
  split; [exact Hpage|].
  split; [unfold lines1; now rewrite <- !app_assoc|].
  split; [exact Hlen23|]. split; [exact Hgrid|]. split; assumption.
Qed.

(** X20. When the upper-cased title wraps into at most twelve lines, the
    article detail page is exactly 23 lines of at most 40 characters: the
    source, a rule, the title lines, a rule, the body, blank lines up to row
    21, a blank line and the footer "Press N for headlines" on the last row.
    The body is the line "No description available." when the article has
    no description; otherwise it is the wrapped description, whole when it
    has at most [13 - t] lines for [t] title lines, and else its first
    [13 - t] lines followed by "...". *)
Theorem formatArticleDetailPage_fills_the_page (fuel : nat)
    (article : ApiPages.CachedArticle) (source : string) (backPage : Z)
    (titleLines : list string) :
  Api.wordWrap fuel (toUpperCase (ApiPages.title article)) GRID.COLUMNS
    = Some titleLines ->
  (length titleLines <= 12)%nat ->
  (JS.strlen (toUpperCase (ApiPages.title article)) <= fuel)%nat ->
  (JS.strlen (ApiPages.description article) <= fuel)%nat ->
  (JS.strlen source <= 40)%nat ->
  0 <= backPage <= 999 ->
  exists page body,
    ApiPages.formatArticleDetailPage toUpperCase fuel article source backPage
      = Some page /\
    page =
      [ source; ""; "================================"; "" ] ++ titleLines ++
      [ ""; "--------------------------------"; "" ] ++ body ++
      replicate (14 - length titleLines - length body) EmptyString ++
      [ ""; "Press " +:+ JS.toString backPage +:+ " for headlines" ] /\
    length page = 23%nat /\
    ApiPages.fitsGrid page /\
    (JS.truthy (ApiPages.description article) = false ->
     body = [ "No description available." ]) /\
    (JS.truthy (ApiPages.description article) = true ->
     exists descLines,
       Api.wordWrap fuel (ApiPages.description article) GRID.COLUMNS
         = Some descLines /\
       body =
         if (13 - length titleLines <? length descLines)%nat
         then take (13 - length titleLines) descLines ++ [ "..." ]
         else descLines).
Proof. apply formatArticleDetailPage_layout. Qed.

End DetailPageFacts.

Lemma formatArticleDetailPage_witness :
  let article :=
    ApiPages.mkCachedArticle "STORM WARNING"
      "Heavy rain is expected across the north from Friday evening." None None in
  exists page body,
    ApiPages.formatArticleDetailPage (fun s => s) 100 article "BBC NEWS" 200
      = Some page /\
    page =
      [ "BBC NEWS"; ""; "================================"; "" ] ++ ["STORM WARNING"] ++
      [ ""; "--------------------------------"; "" ] ++ body ++
      replicate (14 - length ["STORM WARNING"] - length body) EmptyString ++
      [ ""; "Press " +:+ JS.toString 200 +:+ " for headlines" ] /\
    length page = 23%nat /\
    ApiPages.fitsGrid page /\
    (JS.truthy (ApiPages.description article) = false ->
     body = [ "No description available." ]) /\
    (JS.truthy (ApiPages.description article) = true ->
     exists descLines,
       Api.wordWrap 100 (ApiPages.description article) GRID.COLUMNS
         = Some descLines /\
       body =
         if (13 - length ["STORM WARNING"] <? length descLines)%nat
         then take (13 - length ["STORM WARNING"]) descLines ++ [ "..." ]
         else descLines).
Proof.
  intros article.
  apply (formatArticleDetailPage_fills_the_page (fun s => s) 100 article
           "BBC NEWS" 200 ["STORM WARNING"]).
  - vm_compute. reflexivity.
  - simpl. lia.
  - vm_compute. lia.
  - vm_compute. lia.
  - vm_compute. lia.
  - lia.
Defined.

(** ** services/api.ts: what wordWrap keeps *)

Lemma substring_length (n m : nat) (s : string) :
  String.length (String.substring n m s) = Nat.min m (String.length s - n).
Proof.
  revert n m. induction s as [|c s IH]; intros [|n] [|m]; simpl; try reflexivity.
  - now rewrite IH, Nat.sub_0_r.
  - now rewrite IH.
  - now rewrite IH.
Qed.

Lemma js_substring_chunk_nonempty (word : string) (i width : nat) :
  (1 <= width)%nat -> (i < JS.strlen word)%nat ->
  JS.substring word i (i + width) <> EmptyString.
Proof.
  intros Hwidth Hi Hempty.
  assert (Hlen : JS.strlen (JS.substring word i (i + width)) = 0%nat)
    by now rewrite Hempty.
  unfold JS.strlen, JS.substring in *. rewrite substring_length in Hlen. lia.
Qed.

Section WordWrapKeeps.
Variable width : nat.

Local Abbreviation nonEmpty := (fun line : string => line <> EmptyString).

Lemma truthy_nonempty (line : string) : JS.truthy line = true -> line <> EmptyString.
Proof. destruct line; [discriminate | congruence]. Qed.

Lemma push_nonempty (lines : list string) (line : string) :
  Forall nonEmpty lines ->
  Forall nonEmpty (if JS.truthy line then lines ++ [line] else lines).
Proof.
  intros H. destruct (JS.truthy line) eqn:E; [|exact H].
  apply Forall_app. split; [exact H|].
  constructor; [now apply truthy_nonempty | constructor].
Qed.

Lemma breakWord_nonempty (fuel : nat) (word : string) (i : nat)
    (lines lines' : list string) :
  (1 <= width)%nat ->
  Api.breakWord fuel word width i lines = Some lines' ->
  Forall nonEmpty lines -> Forall nonEmpty lines'.
Proof.
  intros Hwidth. revert i lines.
  induction fuel as [|fuel IH]; intros i lines Hrun Hlines; simpl in Hrun.
  - destruct (Nat.ltb_spec i (JS.strlen word)); [discriminate|].
    now injection Hrun as <-.
  - destruct (Nat.ltb_spec i (JS.strlen word)) as [Hi|Hi];
      [|now injection Hrun as <-].
    apply (IH _ _ Hrun). apply Forall_app. split; [exact Hlines|].
    constructor; [now apply js_substring_chunk_nonempty | constructor].
Qed.

Lemma wrapWord_nonempty (fuel : nat) (st st' : list string * string) (word : string) :
  (1 <= width)%nat ->
  Api.wrapWord fuel width st word = Some st' ->
  Forall nonEmpty (fst st) -> Forall nonEmpty (fst st').
Proof.
  intros Hwidth. destruct st as [lines currentLine]. unfold Api.wrapWord.
  destruct (width <? JS.strlen word)%nat.
  - destruct (Api.breakWord fuel word width 0
                (if JS.truthy currentLine then lines ++ [currentLine] else lines))
      as [lines2|] eqn:E; [|discriminate].
    cbn [mbind option_bind]. intros H Hlines. injection H as <-. simpl.
    apply (breakWord_nonempty _ _ _ _ _ Hwidth E). now apply push_nonempty.
  - match goal with |- context [(JS.strlen ?t <=? width)%nat] =>
      destruct (JS.strlen t <=? width)%nat end;
      intros H Hlines; injection H as <-; simpl; [exact Hlines|].
    now apply push_nonempty.
Qed.

Lemma wrapWords_nonempty (fuel : nat) (words : list string)
    (st st' : list string * string) :
  (1 <= width)%nat ->
  Api.wrapWords fuel width st words = Some st' ->
  Forall nonEmpty (fst st) -> Forall nonEmpty (fst st').
Proof.
  intros Hwidth. revert st.
  induction words as [|word words IH]; intros st Hrun Hlines.
  - simpl in Hrun. now injection Hrun as <-.
  - cbn [Api.wrapWords] in Hrun.
    destruct (Api.wrapWord fuel width st word) as [st1|] eqn:E; [|discriminate].
    cbn [mbind option_bind] in Hrun.
    apply (IH st1 Hrun). now apply (wrapWord_nonempty fuel st st1 word).
Qed.

(** X21. For a width of at least 1, no line that [wordWrap] returns is
    empty, whatever the text: blank input, runs of white space and tags
    produce no blank rows. *)
Theorem wordWrap_returns_no_empty_line (fuel : nat) (text : string)
    (lines : list string) :
  (1 <= width)%nat ->
  Api.wordWrap fuel text width = Some lines ->
  Forall (fun line => line <> EmptyString) lines.
Proof.
  intros Hwidth. unfold Api.wordWrap.
  destruct (negb (JS.truthy text)); [intros H; injection H as <-; constructor|].
  destruct (Api.wrapWords fuel width ([], EmptyString)
              (Api.splitSpace (Api.cleanText text))) as [[held currentLine]|] eqn:E;
    [|discriminate].
  cbn [mbind option_bind]. intros H. injection H as <-.
  apply push_nonempty.
  apply (wrapWords_nonempty fuel _ _ _ Hwidth E). constructor.
Qed.

End WordWrapKeeps.

Lemma wordWrap_no_empty_witness :
  Forall (fun line => line <> EmptyString) ["a"; "bb"; "c"].
Proof.
  apply (wordWrap_returns_no_empty_line 2 10 "  a <br>  bbc " ["a"; "bb"; "c"]).
  - lia.
  - vm_compute. reflexivity.
Defined.

Lemma joinSpace_cons (x : string) (l : list string) :
  l <> [] -> WrapText.joinSpace (x :: l) = x +:+ " " +:+ WrapText.joinSpace l.
Proof. destruct l; [congruence | reflexivity]. Qed.

Lemma joinSpace_merge (a b : list string) (x y : string) :
  WrapText.joinSpace (a ++ (x +:+ " " +:+ y) :: b) =
  WrapText.joinSpace (a ++ x :: y :: b).
Proof.
  induction a as [|a0 a IH].
  - simpl app. rewrite (joinSpace_cons x) by discriminate.
    destruct b as [|z b]; [reflexivity|].
    rewrite !joinSpace_cons by discriminate. now rewrite !app_assoc_str.
  - simpl app. rewrite !joinSpace_cons by (destruct a; discriminate).
    now rewrite IH.
Qed.

Lemma splitSpace_not_nil (s : string) : Api.splitSpace s <> [].
Proof.
  destruct s as [|c s]; simpl; [discriminate|].
  destruct (Ascii.eqb c " "); [discriminate|].
  destruct (Api.splitSpace s); discriminate.
Qed.

(** Splitting at spaces and joining with spaces gives the text back. *)
Lemma joinSpace_splitSpace (s : string) :
  WrapText.joinSpace (Api.splitSpace s) = s.
Proof.
  induction s as [|c s IH]; [reflexivity|].
  simpl. destruct (Ascii.eqb_spec c " ") as [->|Hc].
  - rewrite joinSpace_cons by apply splitSpace_not_nil. now rewrite IH.
  - destruct (Api.splitSpace s) as [|w ws] eqn:E;
      [now destruct (splitSpace_not_nil s)|].
    destruct ws as [|w' ws].
    + change (w = s) in IH. subst w. reflexivity.
    + rewrite joinSpace_cons in IH |- * by discriminate.
      rewrite app_cons. now rewrite IH.
Qed.

Lemma wordsOnly_split (afterSpace : bool) (s : string) :
  WrapText.wordsOnly afterSpace s = true ->
  exists w ws,
    Api.splitSpace s = w :: ws /\
    Forall (fun word => word <> EmptyString) ws /\
    (afterSpace = true -> w <> EmptyString).
Proof.
  revert afterSpace. induction s as [|c s IH]; intros afterSpace H; simpl in H.
  - exists EmptyString, []. split; [reflexivity|]. split; [constructor|].
    intros ->. discriminate H.
  - simpl. destruct (Ascii.eqb c " ").
    + apply andb_true_iff in H as [Hafter Hrest].
      destruct (IH true Hrest) as (w & ws & -> & Hws & Hw).
      exists EmptyString, (w :: ws). split; [reflexivity|]. split.
      * constructor; [now apply Hw | exact Hws].
      * intros ->. discriminate Hafter.
    + destruct (IH false H) as (w & ws & -> & Hws & _).
      exists (String c w), ws. split; [reflexivity|]. split; [exact Hws|].
      intros _. discriminate.
Qed.

Lemma singleSpaced_collapse (inRun : bool) (s : string) :
  WrapText.singleSpaced inRun (Api.collapseWhitespaceFrom inRun s) = true.
Proof.
  revert inRun. induction s as [|c s IH]; intros inRun; [reflexivity|].
  simpl. destruct (JS.isWhitespace c) eqn:E.
  - destruct inRun; [apply IH|]. simpl. now rewrite IH.
  - simpl. rewrite E. apply IH.
Qed.

Lemma singleSpaced_trimStart (s : string) :
  WrapText.singleSpaced false s = true ->
  WrapText.singleSpaced true (JS.trimStart s) = true.
Proof.
  destruct s as [|c s]; [reflexivity|]. simpl.
  destruct (JS.isWhitespace c) eqn:E.
  - intros H. apply andb_true_iff in H as [_ H].
    destruct s as [|d s]; [reflexivity|]. simpl in *.
    destruct (JS.isWhitespace d) eqn:Ed.
    + apply andb_true_iff in H as [H _]. apply andb_true_iff in H as [_ H].
      discriminate H.
    + simpl. now rewrite Ed.
  - intros H. simpl. now rewrite E.
Qed.

Lemma whitespace_space : JS.isWhitespace " " = true.
Proof. reflexivity. Qed.

Lemma wordsOnly_cons (afterSpace : bool) (c : ascii) (s : string) :
  WrapText.wordsOnly afterSpace (String c s) =
  if Ascii.eqb c " " then negb afterSpace && WrapText.wordsOnly true s
  else WrapText.wordsOnly false s.
Proof. reflexivity. Qed.

Lemma trimEnd_cons (c : ascii) (s : string) :
  Api.trimEnd (String c s) =
  match Api.trimEnd s with
  | EmptyString => if JS.isWhitespace c then EmptyString else String c EmptyString
  | t => String c t
  end.
Proof. reflexivity. Qed.

Lemma wordsOnly_trimEnd (afterSpace : bool) (s : string) :
  WrapText.singleSpaced afterSpace s = true ->
  Api.trimEnd s = EmptyString \/
  WrapText.wordsOnly afterSpace (Api.trimEnd s) = true.
Proof.
  revert afterSpace. induction s as [|c s IH]; intros afterSpace H; [now left|].
  simpl in H. rewrite trimEnd_cons. destruct (JS.isWhitespace c) eqn:E.
  - apply andb_true_iff in H as [H Hrest]. apply andb_true_iff in H as [Hc Hafter].
    apply Ascii.eqb_eq in Hc. subst c.
    destruct (IH true Hrest) as [Hr|Hr].
    + rewrite Hr. now left.
    + destruct (Api.trimEnd s) as [|d r] eqn:Er; [now left|].
      right. rewrite wordsOnly_cons. change (Ascii.eqb " " " ") with true.
      cbv iota. now rewrite Hafter, Hr.
  - assert (Hc : Ascii.eqb c " " = false).
    { destruct (Ascii.eqb_spec c " ") as [->|]; [|reflexivity].
      rewrite whitespace_space in E. discriminate E. }
    right. destruct (IH false H) as [Hr|Hr].
    + rewrite Hr. rewrite wordsOnly_cons, Hc. reflexivity.
    + destruct (Api.trimEnd s) as [|d r] eqn:Er.
      * rewrite wordsOnly_cons, Hc. reflexivity.
      * rewrite wordsOnly_cons, Hc. exact Hr.
Qed.

(** The cleaned text is empty or made of non-empty words separated by single
    spaces. *)
Lemma cleanText_words (text : string) :
  Api.cleanText text = EmptyString \/
  WrapText.wordsOnly true (Api.cleanText text) = true.
Proof.
  unfold Api.cleanText, Api.trim, Api.collapseWhitespace.
  apply wordsOnly_trimEnd, singleSpaced_trimStart, singleSpaced_collapse.
Qed.

Lemma heldLines_result (lines : list string) (currentLine : string) :
  (if JS.truthy currentLine then lines ++ [currentLine] else lines) =
  WrapText.heldLines (lines, currentLine).
Proof.
  unfold WrapText.heldLines. simpl.
  destruct (JS.truthy currentLine); [reflexivity | now rewrite app_nil_r].
Qed.

Lemma truthy_app (a b : string) : JS.truthy a = true -> JS.truthy (a +:+ b) = true.
Proof. destruct a; [discriminate | reflexivity]. Qed.

Lemma wrapWord_keeps (fuel width : nat) (st : list string * string) (word : string) :
  word <> EmptyString ->
  (JS.strlen word <= width)%nat ->
  exists st',
    Api.wrapWord fuel width st word = Some st' /\
    forall rest,
      WrapText.joinSpace (WrapText.heldLines st' ++ rest) =
      WrapText.joinSpace (WrapText.heldLines st ++ word :: rest).
Proof.
  intros Hword Hfit. destruct st as [lines currentLine]. unfold Api.wrapWord.
  destruct (Nat.ltb_spec width (JS.strlen word)); [lia|].
  assert (Htruthy : JS.truthy word = true) by (destruct word; [congruence | reflexivity]).
  destruct (JS.truthy currentLine) eqn:Hcur.
  - destruct (JS.strlen (currentLine +:+ " " +:+ word) <=? width)%nat.
    + eexists. split; [reflexivity|]. intros rest.
      unfold WrapText.heldLines. cbn [fst snd].
      rewrite Hcur, (truthy_app currentLine _ Hcur).
      rewrite <- !app_assoc. cbn [app]. apply joinSpace_merge.
    + eexists. split; [reflexivity|]. intros rest.
      unfold WrapText.heldLines. cbn [fst snd]. rewrite Hcur, Htruthy.
      now rewrite <- !app_assoc.
  - destruct (Nat.leb_spec (JS.strlen word) width); [|lia].
    eexists. split; [reflexivity|]. intros rest.
    unfold WrapText.heldLines. cbn [fst snd]. rewrite Hcur, Htruthy.
    now rewrite <- !app_assoc.
Qed.

Lemma wrapWords_keeps (fuel width : nat) (words : list string)
    (st : list string * string) :
  Forall (fun word => word <> EmptyString /\ (JS.strlen word <= width)%nat) words ->
  exists st',
    Api.wrapWords fuel width st words = Some st' /\
    WrapText.joinSpace (WrapText.heldLines st') =
    WrapText.joinSpace (WrapText.heldLines st ++ words).
Proof.
  intros Hwords. revert st.
  induction Hwords as [|word words [Hword Hfit] _ IH]; intros st.
  - exists st. split; [reflexivity | now rewrite app_nil_r].
  - destruct (wrapWord_keeps fuel width st word Hword Hfit) as (st1 & Hstep & Hjoin).
    destruct (IH st1) as (st' & Hrun & Hkeep).
    exists st'. split.
    + cbn [Api.wrapWords]. rewrite Hstep. exact Hrun.
    + rewrite Hkeep. apply Hjoin.
Qed.

(** X22. When no word of the cleaned text is longer than the width,
    [wordWrap] loses nothing and adds nothing: joining the returned lines
    with single spaces gives back the cleaned text (tags removed, entities
    decoded, white space collapsed and trimmed), so the words come out in
    order, only regrouped into lines. *)
Theorem wordWrap_keeps_the_words (fuel : nat) (text : string) (width : nat) :
  Forall (fun word => (JS.strlen word <= width)%nat)
    (Api.splitSpace (Api.cleanText text)) ->
  exists lines,
    Api.wordWrap fuel text width = Some lines /\
    WrapText.joinSpace lines = Api.cleanText text.
Proof.
  intros Hfit. unfold Api.wordWrap.
  destruct text as [|c text]; [exists []; split; reflexivity|].
  cbn [JS.truthy negb]. cbv iota.
  set (clean := Api.cleanText (String c text)) in *.
  destruct (cleanText_words (String c text)) as [Hempty|Hwords];
    fold clean in Hempty || fold clean in Hwords.
  - rewrite Hempty. exists []. split; [|reflexivity].
    simpl. unfold Api.wrapWord. simpl.
    destruct (Nat.ltb_spec width 0); [lia|].
    destruct (Nat.leb_spec 0 width); [reflexivity | lia].
  - destruct (wordsOnly_split true clean Hwords) as (w & ws & Hsplit & Hws & Hw).
    destruct (wrapWords_keeps fuel width (Api.splitSpace clean) ([], EmptyString))
      as ([held currentLine] & Hrun & Hkeep).
    { rewrite Hsplit in *. inversion Hfit as [|? ? Hfw Hfws]; subst.
      constructor; [split; [now apply Hw | exact Hfw]|].
      clear - Hws Hfws. induction Hws as [|x l Hx _ IH]; [constructor|].
      inversion Hfws; subst. constructor; [split; assumption | now apply IH]. }
    rewrite Hrun. cbn [mbind option_bind].
    rewrite heldLines_result. eexists. split; [reflexivity|].
    rewrite Hkeep. unfold WrapText.heldLines at 1. cbn [fst snd JS.truthy app].
    apply joinSpace_splitSpace.
Qed.

Lemma wordWrap_keeps_witness :
  exists lines,
    Api.wordWrap 0 "Rain  <b>and</b> wind &amp;  more " 8 = Some lines /\
    WrapText.joinSpace lines = Api.cleanText "Rain  <b>and</b> wind &amp;  more ".
Proof.
  apply (wordWrap_keeps_the_words 0 "Rain  <b>and</b> wind &amp;  more " 8).
  vm_compute. repeat (apply List.Forall_cons; [lia|]). apply List.Forall_nil.
Defined.

(** ** services/api.ts: from a headline to its article *)

Lemma concat_imap_pair_lookup {A B} (f : nat -> A -> B) (g : B) (l : list A)
    (i : nat) (a : A) :
  l !! i = Some a ->
  concat (imap (fun k x => [f k x; g]) l) !! (2 * i)%nat = Some (f i a).
Proof.
  revert f i. induction l as [|x l IH]; intros f i H; [discriminate|].
  destruct i as [|i].
  - injection H as ->. reflexivity.
  - replace (2 * S i)%nat with (S (S (2 * i))) by lia.
    simpl in H. simpl. apply (IH (fun k => f (S k)) i H).
Qed.

Lemma formatNewsListPage_row (articles : list ApiPages.CachedArticle)
    (title : string) (basePageNum : Z) (i : nat) (article : ApiPages.CachedArticle) :
  articles !! i = Some article ->
  ApiPages.formatNewsListPage articles title basePageNum !! (4 + 2 * i)%nat =
  Some (ApiPages.formatHeadlineWithPage i (ApiPages.title article) basePageNum).
Proof.
  intros H. unfold ApiPages.formatNewsListPage.
  rewrite lookup_app_r by (simpl; lia).
  replace (4 + 2 * i - length [title; ""; "================================"; ""])%nat
    with (2 * i)%nat by (simpl; lia).
  rewrite lookup_app_l.
  - apply (concat_imap_pair_lookup
             (fun k x => ApiPages.formatHeadlineWithPage k (ApiPages.title x) basePageNum)
             EmptyString articles i article H).
  - apply lookup_lt_is_Some.
    rewrite (concat_imap_pair_lookup
               (fun k x => ApiPages.formatHeadlineWithPage k (ApiPages.title x) basePageNum)
               EmptyString articles i article H).
    eauto.
Qed.

Lemma getCachedArticle_found (articleCache : ApiPages.ArticleCache)
    (category : ApiPages.Category) (i : nat) (article : ApiPages.CachedArticle) :
  ApiPages.getCachedArticles articleCache category !! i = Some article ->
  ApiPages.getCachedArticle articleCache category (Z.of_nat i + 1) = Some article.
Proof.
  intros H. unfold ApiPages.getCachedArticle.
  pose proof (lookup_lt_Some _ _ _ H) as Hlen.
  destruct (Z.ltb_spec (Z.of_nat i + 1) 1); [lia|].
  destruct (Z.ltb_spec
              (Z.of_nat (length (ApiPages.getCachedArticles articleCache category)))
              (Z.of_nat i + 1)); [lia|].
  cbn [orb]. replace (Z.to_nat (Z.of_nat i + 1 - 1)) with i by lia. exact H.
Qed.

Lemma last_digit_of_detail_page (base : Z) (i : nat) :
  In base [200; 300; 500] ->
  (i < 5)%nat ->
  Z.rem (base + (Z.of_nat i + 1)) 10 = Z.of_nat i + 1.
Proof.
  intros Hbase Hi.
  destruct i as [|[|[|[|[|i]]]]]; [| | | | |lia];
    simpl in Hbase; repeat (destruct Hbase as [<-|Hbase]; [reflexivity|]);
    contradiction.
Qed.

Section HeadlineLinks.
Variable toUpperCase : string -> string.

(** X23. The page number printed on a headline leads to that article: for
    each of the first five cached articles of a category, row [4 + 2i] of
    the list page is the headline of article [i], which ends in the page
    number [base + i + 1], and the detail function called with the last
    digit of that page number (as the registry does) formats that same
    article. *)
Theorem headline_page_number_leads_to_its_article (fuel : nat)
    (articleCache : ApiPages.ArticleCache) (i : nat) (article : ApiPages.CachedArticle) :
  (i < 5)%nat ->
  (ApiPages.news articleCache !! i = Some article ->
   ApiPages.formatNewsListPage (ApiPages.news articleCache) "BBC WORLD NEWS" 200
     !! (4 + 2 * i)%nat =
     Some (ApiPages.formatHeadlineWithPage i (ApiPages.title article) 200) /\
   ApiPages.getNewsDetailPage toUpperCase fuel articleCache
     (Z.rem (200 + (Z.of_nat i + 1)) 10) =
     ApiPages.formatArticleDetailPage toUpperCase fuel article "BBC NEWS" 200) /\
  (ApiPages.tech articleCache !! i = Some article ->
   ApiPages.formatNewsListPage (ApiPages.tech articleCache) "THE VERGE" 300
     !! (4 + 2 * i)%nat =
     Some (ApiPages.formatHeadlineWithPage i (ApiPages.title article) 300) /\
   ApiPages.getTechDetailPage toUpperCase fuel articleCache
     (Z.rem (300 + (Z.of_nat i + 1)) 10) =
     ApiPages.formatArticleDetailPage toUpperCase fuel article "THE VERGE" 300) /\
  (ApiPages.sports articleCache !! i = Some article ->
   ApiPages.formatNewsListPage (ApiPages.sports articleCache) "ESPN SPORTS" 500
     !! (4 + 2 * i)%nat =
     Some (ApiPages.formatHeadlineWithPage i (ApiPages.title article) 500) /\
   ApiPages.getSportsDetailPage toUpperCase fuel articleCache
     (Z.rem (500 + (Z.of_nat i + 1)) 10) =
     ApiPages.formatArticleDetailPage toUpperCase fuel article "ESPN SPORTS" 500).
Proof.
  intros Hi.
  split; [|split]; intros H; (split; [now apply formatNewsListPage_row|]).
  - unfold ApiPages.getNewsDetailPage.
    rewrite last_digit_of_detail_page by (simpl; auto).
    now rewrite (getCachedArticle_found articleCache ApiPages.News i article H).
  - unfold ApiPages.getTechDetailPage.
    rewrite last_digit_of_detail_page by (simpl; auto).
    now rewrite (getCachedArticle_found articleCache ApiPages.Tech i article H).
  - unfold ApiPages.getSportsDetailPage.
    rewrite last_digit_of_detail_page by (simpl; auto).
    now rewrite (getCachedArticle_found articleCache ApiPages.Sports i article H).
Qed.

End HeadlineLinks.

Lemma headline_leads_witness :
  let article := ApiPages.mkCachedArticle "Second story" "Text" None None in
  let articleCache :=
    ApiPages.mkArticleCache
      [ApiPages.mkCachedArticle "First story" "Text" None None; article] [] [] 0 0 0 in
  ApiPages.formatNewsListPage (ApiPages.news articleCache) "BBC WORLD NEWS" 200
    !! (4 + 2 * 1)%nat =
    Some (ApiPages.formatHeadlineWithPage 1 (ApiPages.title article) 200) /\
  ApiPages.getNewsDetailPage (fun s => s) 40 articleCache
    (Z.rem (200 + (Z.of_nat 1 + 1)) 10) =
    ApiPages.formatArticleDetailPage (fun s => s) 40 article "BBC NEWS" 200.
Proof.
  intros article articleCache.
  destruct (headline_page_number_leads_to_its_article (fun s => s) 40 articleCache 1
              article) as [Hnews _]; [lia|].
  apply Hnews. reflexivity.
Defined.

(** ** components/TeletextScreen.tsx: loads, transitions and initialisation *)


Section ScreenFacts.
Variables getNewsDetailPage getTechDetailPage getSportsDetailPage : Z -> list string.

Local Abbreviation getPage :=
  (Registry.getPage getNewsDetailPage getTechDetailPage getSportsDetailPage).
Local Abbreviation originalContent :=
  (Screen.originalContent getNewsDetailPage getTechDetailPage getSportsDetailPage).
Local Abbreviation showPage :=
  (Screen.showPage getNewsDetailPage getTechDetailPage getSportsDetailPage).
Local Abbreviation loadDynamicContent :=
  (Screen.loadDynamicContent getNewsDetailPage getTechDetailPage getSportsDetailPage).
Local Abbreviation loadStart :=
  (ScreenSteps.loadStart getNewsDetailPage getTechDetailPage getSportsDetailPage).
Local Abbreviation showPageStart :=
  (ScreenSteps.showPageStart getNewsDetailPage getTechDetailPage getSportsDetailPage).

(** The load and the timer callback, run in one go with the loader's
    settlement, are their first half followed by the settlement. *)
Lemma loadDynamicContent_split
    (call : Registry.DynamicContentLoader -> Screen.Settlement) (pageNumber : Z)
    (s : Screen.TeletextScreen) :
  loadDynamicContent call pageNumber s =
  Screen.bind (loadStart pageNumber)
    (fun inFlight =>
       match inFlight with
       | Some loader => ScreenSteps.loadSettle (call loader)
       | None => Screen.ret tt
       end) s.
Proof.
  unfold Screen.loadDynamicContent, ScreenSteps.loadStart.
  destruct (Registry.dynamicContent (getPage pageNumber)); reflexivity.
Qed.

Lemma showPage_split
    (call : Registry.DynamicContentLoader -> Screen.Settlement) (currentPage : Z)
    (s : Screen.TeletextScreen) :
  showPage call currentPage s =
  Screen.bind (showPageStart currentPage)
    (fun inFlight =>
       match inFlight with
       | Some loader => ScreenSteps.loadSettle (call loader)
       | None => Screen.ret tt
       end) s.
Proof.
  unfold Screen.showPage, ScreenSteps.showPageStart, Screen.bind,
    Screen.setDisplayedPage, Screen.setScreenState.
  cbv beta iota. rewrite loadDynamicContent_split. reflexivity.
Qed.



(** X26. The continuation of a load does not check which page is displayed:
    when the user leaves a page whose loader is still in flight for a page
    without loader, and the loader is fulfilled afterwards, the delivered
    lines are rendered under the new page in place of that page's own
    content. *)
Theorem late_load_replaces_content_of_next_page (first next : Z)
    (loader : Registry.DynamicContentLoader) (lines : list string)
    (s : Screen.TeletextScreen) :
  Screen.isInitialized s = true ->
  Registry.dynamicContent (getPage first) = Some loader ->
  Registry.dynamicContent (getPage next) = None ->
  let s1 := fst (showPageStart first s) in
  let s2 := fst (ScreenSteps.transitionEffect next s1) in
  let s3 := fst (showPageStart next s2) in
  let s4 := fst (ScreenSteps.loadSettle (Screen.Fulfilled lines) s3) in
  snd (ScreenSteps.transitionEffect next s1) = Screen.Returned true /\
  Screen.displayedPage s4 = next /\
  Screen.screenState s4 = Screen.display /\
  originalContent s4 = lines.
Proof.
  intros Hinit Hfirst Hnext.
  assert (Hne : (next =? first) = false).
  { destruct (Z.eqb_spec next first) as [->|]; [congruence | reflexivity]. }
  destruct s as [st dp ini dyn ld con]. simpl in Hinit. subst ini.
  unfold ScreenSteps.showPageStart, ScreenSteps.loadStart,
    ScreenSteps.transitionEffect, ScreenSteps.loadSettle, Screen.originalContent.
  rewrite Hfirst. cbn -[Registry.getPage Z.eqb]. rewrite Hne.
  cbn -[Registry.getPage Z.eqb]. rewrite Hnext. cbn -[Registry.getPage Z.eqb].
  repeat split; reflexivity.
Qed.

(** X27. Once the screen is initialised, the page-transition effect sets its
    timer exactly when the requested page is not the displayed one, blanking
    the screen and dropping the dynamic content while the displayed page
    number stays; after the timer callback the effect has nothing left to
    do for that page. *)
Theorem transition_effect_runs_once_per_page
    (call : Registry.DynamicContentLoader -> Screen.Settlement) (currentPage : Z)
    (s : Screen.TeletextScreen) :
  Screen.isInitialized s = true ->
  (currentPage = Screen.displayedPage s ->
   ScreenSteps.transitionEffect currentPage s = (s, Screen.Returned false)) /\
  (currentPage <> Screen.displayedPage s ->
   ScreenSteps.transitionEffect currentPage s =
   (Screen.mkTeletextScreen Screen.loading (Screen.displayedPage s) true None
      (Screen.isLoadingDynamic s) (Screen.console s), Screen.Returned true)) /\
  snd (ScreenSteps.transitionEffect currentPage
         (fst (showPage call currentPage
                 (fst (ScreenSteps.transitionEffect currentPage s)))))
  = Screen.Returned false.
Proof.
  intros Hinit. destruct s as [st dp ini dyn ld con]. simpl in Hinit. subst ini.
  split; [|split].
  - simpl. intros ->. unfold ScreenSteps.transitionEffect. simpl.
    now rewrite Z.eqb_refl.
  - simpl. intros Hne. unfold ScreenSteps.transitionEffect. simpl.
    destruct (Z.eqb_spec currentPage dp); [contradiction | reflexivity].
  - set (s0 := fst (ScreenSteps.transitionEffect currentPage
                      (Screen.mkTeletextScreen st dp true dyn ld con))).
    assert (Hdisplayed :
      Screen.displayedPage (fst (showPage call currentPage s0)) = currentPage).
    { unfold Screen.showPage, Screen.loadDynamicContent.
      destruct (Registry.dynamicContent (getPage currentPage)) as [loader|].
      - unfold Screen.bind, Screen.tryCatchFinally. cbn -[Registry.getPage].
        destruct (call loader); reflexivity.
      - reflexivity. }
    unfold ScreenSteps.transitionEffect at 1. rewrite Hdisplayed, Z.eqb_refl.
    rewrite andb_false_r. reflexivity.
Qed.

(** X28. Until the inner timer of the initialisation effect has run, the
    page-transition effect does nothing, whatever page is requested; the two
    timers blank the screen and then display the index page 100 with its
    static content; from then on a requested page other than 100 starts a
    transition. *)
Theorem initialisation_ends_on_the_index_page (currentPage : Z)
    (s : Screen.TeletextScreen) :
  Screen.isInitialized s = false ->
  Screen.dynamicContentState s = None ->
  Screen.isLoadingDynamic s = false ->
  let s1 := fst (ScreenSteps.initOuterTimer s) in
  let s2 := fst (ScreenSteps.initInnerTimer s1) in
  ScreenSteps.transitionEffect currentPage s = (s, Screen.Returned false) /\
  ScreenSteps.transitionEffect currentPage s1 = (s1, Screen.Returned false) /\
  Screen.screenState s1 = Screen.loading /\
  s2 = Screen.mkTeletextScreen Screen.display 100 true None false (Screen.console s) /\
  originalContent s2 = Registry.content (getPage 100) /\
  (snd (ScreenSteps.transitionEffect currentPage s2) = Screen.Returned true <->
   currentPage <> 100).
Proof.
  intros Hinit Hdyn Hflag. destruct s as [st dp ini dyn ld con].
  simpl in Hinit, Hdyn, Hflag. subst ini dyn ld.
  cbv zeta. repeat split; try reflexivity.
  - unfold ScreenSteps.transitionEffect. cbn -[Z.eqb].
    destruct (Z.eqb_spec currentPage 100); [discriminate | congruence].
  - unfold ScreenSteps.transitionEffect. cbn -[Z.eqb].
    destruct (Z.eqb_spec currentPage 100); [contradiction | reflexivity].
Qed.

End ScreenFacts.



Lemma late_load_witness :
  let showPageStart :=
    ScreenSteps.showPageStart (fun _ => []) (fun _ => []) (fun _ => []) in
  let s := Screen.mkTeletextScreen Screen.loading 100 true None false [] in
  let s1 := fst (showPageStart 200 s) in
  let s2 := fst (ScreenSteps.transitionEffect 100 s1) in
  let s3 := fst (showPageStart 100 s2) in
  let s4 := fst (ScreenSteps.loadSettle (Screen.Fulfilled ["BBC WORLD NEWS"]) s3) in
  snd (ScreenSteps.transitionEffect 100 s1) = Screen.Returned true /\
  Screen.displayedPage s4 = 100 /\
  Screen.screenState s4 = Screen.display /\
  Screen.originalContent (fun _ => []) (fun _ => []) (fun _ => []) s4 =
    ["BBC WORLD NEWS"].
Proof.
  apply (late_load_replaces_content_of_next_page
           (fun _ => []) (fun _ => []) (fun _ => []) 200 100 Registry.fetchWorldNews
           ["BBC WORLD NEWS"]
           (Screen.mkTeletextScreen Screen.loading 100 true None false [])).
  - reflexivity.
  - vm_compute. reflexivity.
  - vm_compute. reflexivity.
Defined.

Lemma transition_effect_witness :
  let call := fun _ : Registry.DynamicContentLoader => Screen.Rejected "offline" in
  let showPage := Screen.showPage (fun _ => []) (fun _ => []) (fun _ => []) in
  let s := Screen.mkTeletextScreen Screen.display 100 true None false [] in
  (300 = Screen.displayedPage s ->
   ScreenSteps.transitionEffect 300 s = (s, Screen.Returned false)) /\
  (300 <> Screen.displayedPage s ->
   ScreenSteps.transitionEffect 300 s =
   (Screen.mkTeletextScreen Screen.loading (Screen.displayedPage s) true None
      (Screen.isLoadingDynamic s) (Screen.console s), Screen.Returned true)) /\
  snd (ScreenSteps.transitionEffect 300
         (fst (showPage call 300 (fst (ScreenSteps.transitionEffect 300 s)))))
  = Screen.Returned false.
Proof.
  apply (transition_effect_runs_once_per_page
           (fun _ => []) (fun _ => []) (fun _ => [])
           (fun _ => Screen.Rejected "offline") 300
           (Screen.mkTeletextScreen Screen.display 100 true None false [])).
  reflexivity.
Defined.

Lemma initialisation_witness :
  let s := ScreenSteps.initialScreen in
  let s1 := fst (ScreenSteps.initOuterTimer s) in
  let s2 := fst (ScreenSteps.initInnerTimer s1) in
  ScreenSteps.transitionEffect 305 s = (s, Screen.Returned false) /\
  ScreenSteps.transitionEffect 305 s1 = (s1, Screen.Returned false) /\
  Screen.screenState s1 = Screen.loading /\
  s2 = Screen.mkTeletextScreen Screen.display 100 true None false (Screen.console s) /\
  Screen.originalContent (fun _ => []) (fun _ => []) (fun _ => []) s2 =
    Registry.content (Registry.getPage (fun _ => []) (fun _ => []) (fun _ => []) 100) /\
  (snd (ScreenSteps.transitionEffect 305 s2) = Screen.Returned true <-> 305 <> 100).
Proof.
  apply (initialisation_ends_on_the_index_page
           (fun _ => []) (fun _ => []) (fun _ => []) 305 ScreenSteps.initialScreen);
    reflexivity.
Defined.

(** ** C10: word wrapping at any width *)

Lemma ltb_ofNat (a b : nat) :
  NumberWidth.ltb (NumberWidth.ofNat a) (NumberWidth.ofNat b) = (a <? b)%nat.
Proof.
  unfold NumberWidth.ltb, NumberWidth.ofNat, QArith_base.Qle_bool,
    QArith_base.inject_Z.
  simpl. rewrite !Z.mul_1_r.
  destruct (Nat.ltb_spec a b), (Z.leb_spec (Z.of_nat b) (Z.of_nat a));
    simpl; try reflexivity; lia.
Qed.

Lemma leb_ofNat (a b : nat) :
  NumberWidth.leb (NumberWidth.ofNat a) (NumberWidth.ofNat b) = (a <=? b)%nat.
Proof.
  unfold NumberWidth.leb, NumberWidth.ofNat, QArith_base.Qle_bool,
    QArith_base.inject_Z.
  simpl. rewrite !Z.mul_1_r.
  destruct (Nat.leb_spec a b), (Z.leb_spec (Z.of_nat a) (Z.of_nat b));
    simpl; try reflexivity; lia.
Qed.

Lemma plus_ofNat (a b : nat) :
  QArith_base.Qplus (NumberWidth.ofNat a) (NumberWidth.ofNat b) =
  NumberWidth.ofNat (a + b).
Proof.
  unfold NumberWidth.ofNat, QArith_base.inject_Z, QArith_base.Qplus. simpl.
  now rewrite !Z.mul_1_r, Nat2Z.inj_add.
Qed.

Lemma toIndex_ofNat (a : nat) : NumberWidth.toIndex (NumberWidth.ofNat a) = a.
Proof.
  unfold NumberWidth.toIndex, NumberWidth.ofNat, Qround.Qfloor, QArith_base.inject_Z.
  rewrite Z.div_1_r. apply Nat2Z.id.
Qed.

(** At a width that is an integer the loop on numbers is the loop on
    integers. *)
Lemma breakWord_ofNat (fuel : nat) (word : string) (width i : nat)
    (lines : list string) :
  NumberWidth.breakWord fuel word (NumberWidth.ofNat width) (NumberWidth.ofNat i) lines
  = Api.breakWord fuel word width i lines.
Proof.
  revert i lines. induction fuel as [|fuel IH]; intros i lines; simpl;
    rewrite ltb_ofNat; destruct (i <? JS.strlen word)%nat; try reflexivity.
  rewrite plus_ofNat, !toIndex_ofNat. apply IH.
Qed.

Lemma wrapWord_ofNat (fuel width : nat) (st : list string * string) (word : string) :
  NumberWidth.wrapWord fuel (NumberWidth.ofNat width) st word =
  Api.wrapWord fuel width st word.
Proof.
  destruct st as [lines currentLine]. unfold NumberWidth.wrapWord, Api.wrapWord.
  now rewrite ltb_ofNat, leb_ofNat, breakWord_ofNat.
Qed.

Lemma wrapWords_ofNat (fuel width : nat) (st : list string * string)
    (words : list string) :
  NumberWidth.wrapWords fuel (NumberWidth.ofNat width) st words =
  Api.wrapWords fuel width st words.
Proof.
  revert st. induction words as [|word words IH]; intros st; [reflexivity|].
  simpl. rewrite wrapWord_ofNat.
  destruct (Api.wrapWord fuel width st word); [apply IH | reflexivity].
Qed.

Lemma wordWrap_ofNat (fuel : nat) (text : string) (width : nat) :
  NumberWidth.wordWrap fuel text (NumberWidth.ofNat width) =
  Api.wordWrap fuel text width.
Proof.
  unfold NumberWidth.wordWrap, Api.wordWrap. now rewrite wrapWords_ofNat.
Qed.

Lemma substring_zero (n : nat) (s : string) : String.substring n 0 s = EmptyString.
Proof.
  revert n. induction s as [|c s IH]; intros [|n]; simpl; try reflexivity. apply IH.
Qed.

Lemma substring_split (i a b : nat) (s : string) :
  String.substring i a s +:+ String.substring (i + a) b s =
  String.substring i (a + b) s.
Proof.
  revert i a b. induction s as [|c s IH]; intros i a b.
  - destruct i, a, b; reflexivity.
  - destruct i as [|i].
    + destruct a as [|a]; [reflexivity|].
      simpl. rewrite app_cons. f_equal. apply (IH 0%nat a b).
    + simpl. apply IH.
Qed.

Lemma joinLines_app (a b : list string) :
  WrapText.joinLines (a ++ b) = WrapText.joinLines a +:+ WrapText.joinLines b.
Proof.
  induction a as [|x a IH]; simpl; [now rewrite app_empty_l|].
  now rewrite IH, app_assoc_str.
Qed.

Lemma withoutSpaces_app (a b : string) :
  WrapText.withoutSpaces (a +:+ b) =
  WrapText.withoutSpaces a +:+ WrapText.withoutSpaces b.
Proof.
  induction a as [|c a IH]; [now rewrite !app_empty_l|].
  rewrite app_cons. simpl. destruct (Ascii.eqb c " "); [exact IH|].
  now rewrite app_cons, IH.
Qed.

Lemma joinLines_splitSpace (s : string) :
  WrapText.withoutSpaces (WrapText.joinLines (Api.splitSpace s)) =
  WrapText.withoutSpaces s.
Proof.
  induction s as [|c s IH]; [reflexivity|].
  simpl. destruct (Ascii.eqb c " ") eqn:E.
  - simpl. rewrite app_empty_l. exact IH.
  - destruct (Api.splitSpace s) as [|w ws] eqn:Hsplit;
      [now apply splitSpace_not_nil in Hsplit|].
    change (WrapText.joinLines (String c w :: ws))
      with (String c w +:+ WrapText.joinLines ws).
    rewrite app_cons. simpl. rewrite E. f_equal. exact IH.
Qed.

Section Chunks.
Variable width : nat.
Hypothesis width_positive : (1 <= width)%nat.

(** What the chunking loop pushes from index [i] on: consecutive pieces that
    spell the rest of the word, each of exactly [width] characters except,
    possibly, the last. *)
Lemma breakWord_chunks (fuel : nat) (word : string) (i : nat)
    (lines lines' : list string) :
  Api.breakWord fuel word width i lines = Some lines' ->
  exists chunks,
    lines' = lines ++ chunks /\
    WrapText.joinLines chunks = String.substring i (JS.strlen word - i) word /\
    Forall (fun chunk => JS.strlen chunk = width) (removelast chunks) /\
    ((i < JS.strlen word)%nat -> chunks <> []) /\
    ((JS.strlen word <= i)%nat -> chunks = []).
Proof.
  revert i lines. induction fuel as [|fuel IH]; intros i lines; simpl;
    destruct (Nat.ltb_spec i (JS.strlen word)) as [Hi|Hi]; try discriminate.
  - intros H. injection H as <-. exists []. rewrite app_nil_r.
    split; [reflexivity|]. split.
    + replace (JS.strlen word - i)%nat with 0%nat by lia.
      now rewrite substring_zero.
    + split; [constructor|]. split; [lia | reflexivity].
  - intros H. apply IH in H as (chunks & -> & Hjoin & Hfull & Hsome & Hnone).
    exists (JS.substring word i (i + width) :: chunks).
    split; [now rewrite <- app_assoc|].
    assert (Hchunk :
      JS.substring word i (i + width) =
      String.substring i (Nat.min (i + width) (JS.strlen word) - i) word).
    { unfold JS.substring, JS.strlen in *. f_equal; lia. }
    split; [|split; [|split; [discriminate | lia]]].
    + cbn [WrapText.joinLines fold_right]. fold (WrapText.joinLines chunks).
      rewrite Hjoin, Hchunk.
      destruct (Nat.le_gt_cases (i + width) (JS.strlen word)) as [Hin|Hout].
      * rewrite Nat.min_l by exact Hin.
        replace (i + width - i)%nat with width by lia.
        rewrite substring_split. f_equal. lia.
      * rewrite Nat.min_r by lia.
        replace (JS.strlen word - (i + width))%nat with 0%nat by lia.
        now rewrite substring_zero, app_empty_r.
    + destruct chunks as [|chunk chunks]; [constructor|].
      change (removelast (JS.substring word i (i + width) :: chunk :: chunks))
        with (JS.substring word i (i + width) :: removelast (chunk :: chunks)).
      constructor; [|exact Hfull].
      assert (Hmore : (i + width < JS.strlen word)%nat).
      { destruct (Nat.le_gt_cases (JS.strlen word) (i + width)) as [Hle|Hgt];
          [apply Hnone in Hle; discriminate Hle | exact Hgt]. }
      rewrite Hchunk. unfold JS.strlen in *. rewrite substring_length. lia.
  - intros H. injection H as <-. exists []. rewrite app_nil_r.
    split; [reflexivity|]. split.
    + replace (JS.strlen word - i)%nat with 0%nat by lia.
      now rewrite substring_zero.
    + split; [constructor|]. split; [lia | reflexivity].
Qed.

(** A word longer than the width is replaced by its chunks, after the lines
    held so far. *)
Lemma wrapWord_long (fuel : nat) (st st' : list string * string) (word : string) :
  (width < JS.strlen word)%nat ->
  Api.wrapWord fuel width st word = Some st' ->
  exists chunks,
    st' = (WrapText.heldLines st ++ chunks, EmptyString) /\
    WrapText.joinLines chunks = word /\
    Forall (fun chunk => JS.strlen chunk = width) (removelast chunks) /\
    chunks <> [].
Proof.
  intros Hlong. destruct st as [lines currentLine]. unfold Api.wrapWord.
  destruct (Nat.ltb_spec width (JS.strlen word)); [|lia].
  rewrite heldLines_result.
  destruct (Api.breakWord fuel word width 0 (WrapText.heldLines (lines, currentLine)))
    as [lines2|] eqn:Hbreak; [|discriminate].
  cbn [mbind option_bind]. intros Hst. injection Hst as <-.
  apply breakWord_chunks in Hbreak as (chunks & -> & Hjoin & Hfull & Hsome & _).
  exists chunks. split; [reflexivity|]. split.
  - rewrite Hjoin, Nat.sub_0_r. apply substring0_all. unfold JS.strlen. lia.
  - split; [exact Hfull | apply Hsome; lia].
Qed.

Lemma wrapWord_letters (fuel : nat) (st st' : list string * string) (word : string) :
  Api.wrapWord fuel width st word = Some st' ->
  WrapText.withoutSpaces (WrapText.joinLines (WrapText.heldLines st')) =
  WrapText.withoutSpaces (WrapText.joinLines (WrapText.heldLines st)) +:+
  WrapText.withoutSpaces word.
Proof.
  intros Hstep.
  destruct (Nat.lt_ge_cases width (JS.strlen word)) as [Hlong|Hshort].
  - destruct (wrapWord_long fuel st st' word Hlong Hstep)
      as (chunks & -> & Hjoin & _).
    unfold WrapText.heldLines at 1. cbn [fst snd JS.truthy].
    now rewrite app_nil_r, joinLines_app, withoutSpaces_app, Hjoin.
  - destruct st as [lines currentLine]. unfold Api.wrapWord in Hstep.
    destruct (Nat.ltb_spec width (JS.strlen word)); [lia|].
    unfold WrapText.heldLines. cbn [fst snd].
    destruct (JS.truthy currentLine) eqn:Hcur.
    + destruct (JS.strlen (currentLine +:+ " " +:+ word) <=? width)%nat;
        injection Hstep as <-; cbn [fst snd].
      * rewrite (truthy_app currentLine _ Hcur).
        rewrite !joinLines_app, !withoutSpaces_app. simpl.
        rewrite !app_empty_r, !withoutSpaces_app. simpl.
        now rewrite !app_assoc_str.
      * rewrite app_nil_r || idtac.
        destruct (JS.truthy word) eqn:Hword.
        -- rewrite !joinLines_app, !withoutSpaces_app. simpl.
           now rewrite !app_empty_r, !app_assoc_str.
        -- destruct word; [|discriminate Hword].
           rewrite app_nil_r. simpl. now rewrite app_empty_r.
    + destruct (JS.strlen word <=? width)%nat; injection Hstep as <-; cbn [fst snd];
        (destruct (JS.truthy word) eqn:Hword;
         [rewrite !joinLines_app, !withoutSpaces_app; simpl;
          now rewrite !app_empty_r
         |destruct word; [|discriminate Hword];
          simpl; now rewrite app_empty_r]).
Qed.

Lemma wrapWords_letters (fuel : nat) (words : list string)
    (st st' : list string * string) :
  Api.wrapWords fuel width st words = Some st' ->
  WrapText.withoutSpaces (WrapText.joinLines (WrapText.heldLines st')) =
  WrapText.withoutSpaces (WrapText.joinLines (WrapText.heldLines st)) +:+
  WrapText.withoutSpaces (WrapText.joinLines words).
Proof.
  revert st. induction words as [|word words IH]; intros st; simpl.
  - intros H. injection H as <-. now rewrite app_empty_r.
  - destruct (Api.wrapWord fuel width st word) as [st1|] eqn:Hstep; [|discriminate].
    cbn [mbind option_bind]. intros Hrest.
    rewrite (IH st1 Hrest), (wrapWord_letters fuel st st1 word Hstep).
    fold (WrapText.joinLines words).
    now rewrite withoutSpaces_app, app_assoc_str.
Qed.

Lemma wrapWord_grows (fuel : nat) (st st' : list string * string) (word : string) :
  Api.wrapWord fuel width st word = Some st' ->
  exists more, fst st' = fst st ++ more.
Proof.
  intros Hstep.
  destruct (Nat.lt_ge_cases width (JS.strlen word)) as [Hlong|Hshort].
  - destruct (wrapWord_long fuel st st' word Hlong Hstep) as (chunks & -> & _).
    unfold WrapText.heldLines. cbn [fst]. rewrite <- app_assoc. eauto.
  - destruct st as [lines currentLine]. unfold Api.wrapWord in Hstep.
    destruct (Nat.ltb_spec width (JS.strlen word)); [lia|].
    match type of Hstep with (if ?b then _ else _) = _ => destruct b end;
      injection Hstep as <-; cbn [fst].
    + exists []. now rewrite app_nil_r.
    + destruct (JS.truthy currentLine); [eauto | exists []; now rewrite app_nil_r].
Qed.

Lemma wrapWords_grows (fuel : nat) (words : list string)
    (st st' : list string * string) :
  Api.wrapWords fuel width st words = Some st' ->
  exists more, fst st' = fst st ++ more.
Proof.
  revert st. induction words as [|word words IH]; intros st; simpl.
  - intros H. injection H as <-. exists []. now rewrite app_nil_r.
  - destruct (Api.wrapWord fuel width st word) as [st1|] eqn:Hstep; [|discriminate].
    cbn [mbind option_bind]. intros Hrest.
    destruct (wrapWord_grows fuel st st1 word Hstep) as (more1 & H1).
    destruct (IH st1 Hrest) as (more2 & H2).
    exists (more1 ++ more2). now rewrite H2, H1, app_assoc.
Qed.

Lemma wrapWords_app (fuel : nat) (xs ys : list string) (st : list string * string) :
  Api.wrapWords fuel width st (xs ++ ys) =
  Api.wrapWords fuel width st xs ≫= fun st' => Api.wrapWords fuel width st' ys.
Proof.
  revert st. induction xs as [|x xs IH]; intros st; [reflexivity|].
  simpl. destruct (Api.wrapWord fuel width st x); [apply IH | reflexivity].
Qed.

(** The chunks of a long word stand together among the lines held at the
    end of the loop. *)
Lemma wrapWords_chunks (fuel : nat) (words : list string)
    (st st' : list string * string) (word : string) :
  Api.wrapWords fuel width st words = Some st' ->
  In word words ->
  (width < JS.strlen word)%nat ->
  exists before chunks after,
    WrapText.heldLines st' = before ++ chunks ++ after /\
    WrapText.joinLines chunks = word /\
    Forall (fun chunk => JS.strlen chunk = width) (removelast chunks) /\
    chunks <> [].
Proof.
  intros Hrun Hin Hlong.
  apply in_split in Hin as (xs & ys & ->).
  rewrite wrapWords_app in Hrun.
  destruct (Api.wrapWords fuel width st xs) as [st1|]; [|discriminate].
  cbn [mbind option_bind Api.wrapWords] in Hrun.
  destruct (Api.wrapWord fuel width st1 word) as [st2|] eqn:Hstep; [|discriminate].
  cbn [mbind option_bind] in Hrun.
  destruct (wrapWord_long fuel st1 st2 word Hlong Hstep)
    as (chunks & -> & Hjoin & Hfull & Hsome).
  destruct (wrapWords_grows fuel ys _ st' Hrun) as (more & Hmore).
  cbn [fst] in Hmore.
  exists (WrapText.heldLines st1), chunks,
    (more ++ (if JS.truthy (snd st') then [snd st'] else [])).
  split; [|split; [exact Hjoin | split; [exact Hfull | exact Hsome]]].
  unfold WrapText.heldLines at 1. rewrite Hmore. now rewrite <- !app_assoc.
Qed.

End Chunks.

(** C10, as stated, fails: the width is a [number], and at the width 1.5,
    which is at least 1, the chunking loop cuts "abc" at the indices 0, 1.5
    and 3, which [substring] truncates to 0, 1 and 3: the second line, "bc",
    has two characters. *)
Lemma C10_counterexample :
  let width : NumberWidth.number := QArith_base.Qmake 3 2 in
  NumberWidth.leb (NumberWidth.ofNat 1) width = true /\
  NumberWidth.wordWrap 3 "abc" width = Some ["a"; "bc"] /\
  ~ Forall
      (fun line => NumberWidth.leb (NumberWidth.ofNat (JS.strlen line)) width = true)
      ["a"; "bc"].
Proof.
  cbv zeta. split; [vm_compute; reflexivity|]. split; [vm_compute; reflexivity|].
  intros H. inversion H as [|? ? _ H']; subst.
  inversion H' as [|? ? Hbc _]; subst. vm_compute in Hbc. discriminate Hbc.
Qed.

(** C10, amended. For every text and every width that is an integer of at
    least 1, [wordWrap] returns (given fuel for the chunking loop of at
    least the length of the text), and it returns the same lines whether the
    width is read as a number or as an integer.  Every line has at most
    [width] characters.  No character other than a space is lost, added or
    moved: the lines, joined, spell the cleaned text without its spaces.
    Every word of the cleaned text that is longer than [width] is broken
    into chunks that stand one after another among the lines and spell the
    word, each of exactly [width] characters except, possibly, the last.
    Called with the default width, every line has at most the 40 columns of
    the grid. *)
Theorem C10_wordWrap_lines_fit (text : string) (width fuel : nat) :
  (1 <= width)%nat ->
  (JS.strlen text <= fuel)%nat ->
  (exists lines,
      NumberWidth.wordWrap fuel text (NumberWidth.ofNat width) = Some lines /\
      Api.wordWrap fuel text width = Some lines /\
      Forall (fun line => (JS.strlen line <= width)%nat) lines /\
      WrapText.withoutSpaces (WrapText.joinLines lines) =
        WrapText.withoutSpaces (Api.cleanText text) /\
      (forall word,
         In word (Api.splitSpace (Api.cleanText text)) ->
         (width < JS.strlen word)%nat ->
         exists before chunks after,
           lines = before ++ chunks ++ after /\
           WrapText.joinLines chunks = word /\
           Forall (fun chunk => JS.strlen chunk = width) (removelast chunks) /\
           chunks <> [])) /\
  (exists lines,
      NumberWidth.wordWrap fuel text (NumberWidth.ofNat GRID.COLUMNS) = Some lines /\
      Api.wordWrapDefault fuel text = Some lines /\
      Forall (fun line => (JS.strlen line <= 40)%nat) lines).
Proof.
  intros Hwidth Hfuel. split.
  - destruct (wordWrap_fits text width fuel Hwidth Hfuel) as (lines & Hwrap & Hfits).
    exists lines. rewrite wordWrap_ofNat.
    split; [exact Hwrap|]. split; [exact Hwrap|]. split; [exact Hfits|].
    unfold Api.wordWrap in Hwrap.
    destruct text as [|c text].
    + injection Hwrap as <-. split; [reflexivity|].
      intros word [<-|[]] Hlong. simpl in Hlong. lia.
    + cbn [JS.truthy negb] in Hwrap. cbv iota in Hwrap.
      destruct (Api.wrapWords fuel width ([], EmptyString)
                  (Api.splitSpace (Api.cleanText (String c text))))
        as [[held currentLine]|] eqn:Hrun; [|discriminate].
      cbn [mbind option_bind] in Hwrap. rewrite heldLines_result in Hwrap.
      injection Hwrap as <-. split.
      * rewrite (wrapWords_letters width Hwidth fuel _ _ _ Hrun).
        unfold WrapText.heldLines at 1. cbn [fst snd JS.truthy app WrapText.joinLines
          fold_right WrapText.withoutSpaces].
        rewrite app_empty_l. apply joinLines_splitSpace.
      * intros word Hin Hlong.
        apply (wrapWords_chunks width Hwidth fuel _ _ _ word Hrun Hin Hlong).
  - destruct (wordWrap_fits text GRID.COLUMNS fuel) as (lines & Hwrap & Hfits);
      [unfold GRID.COLUMNS; lia | exact Hfuel|].
    exists lines. rewrite wordWrap_ofNat. now repeat split.
Qed.

Lemma C10_wordWrap_witness :
  (exists lines,
      NumberWidth.wordWrap 80
        "Teletext &amp; the <b>slow</b> web: 40 columns, 24 rows, eight colours"
        (NumberWidth.ofNat 7) = Some lines /\
      Api.wordWrap 80
        "Teletext &amp; the <b>slow</b> web: 40 columns, 24 rows, eight colours" 7
      = Some lines /\
      Forall (fun line => (JS.strlen line <= 7)%nat) lines /\
      WrapText.withoutSpaces (WrapText.joinLines lines) =
        WrapText.withoutSpaces
          (Api.cleanText
             "Teletext &amp; the <b>slow</b> web: 40 columns, 24 rows, eight colours") /\
      (forall word,
         In word
           (Api.splitSpace
              (Api.cleanText
                 "Teletext &amp; the <b>slow</b> web: 40 columns, 24 rows, eight colours")) ->
         (7 < JS.strlen word)%nat ->
         exists before chunks after,
           lines = before ++ chunks ++ after /\
           WrapText.joinLines chunks = word /\
           Forall (fun chunk => JS.strlen chunk = 7%nat) (removelast chunks) /\
           chunks <> [])) /\
  (exists lines,
      NumberWidth.wordWrap 80
        "Teletext &amp; the <b>slow</b> web: 40 columns, 24 rows, eight colours"
        (NumberWidth.ofNat GRID.COLUMNS) = Some lines /\
      Api.wordWrapDefault 80
        "Teletext &amp; the <b>slow</b> web: 40 columns, 24 rows, eight colours"
      = Some lines /\
      Forall (fun line => (JS.strlen line <= 40)%nat) lines).
Proof.
  apply (C10_wordWrap_lines_fit
           "Teletext &amp; the <b>slow</b> web: 40 columns, 24 rows, eight colours"
           7 80).
  - lia.
  - vm_compute. lia.
Defined.
